(** * Scroll synchronisation and scheduling of the collapsible tab view

  A shallow embedding of the scheduling code of the repository:
  - [HighPerformanceOptimizations.ts]: the classes [HighPerformanceTabSync],
    [VirtualizedTabManager] and [PerformanceMonitor];
  - the hook [useHighPerformanceTabSync];
  - the component [Lazy].

  JavaScript numbers that hold indices, millisecond clocks and scroll
  offsets are integers ([Z]).  A [Map<string, number>] is an association
  list in insertion order, because [processBatch] iterates it; a
  [Set<string>] and the payload cache are stdpp's [gset] and [gmap].
  Deferred work ([setTimeout], [requestAnimationFrame],
  [InteractionManager.runAfterInteractions], promises) is kept in explicit
  queues of the state, and an event loop picks what runs next. *)

From Stdlib Require Import ZArith QArith.
From stdpp Require Import gmap strings list fin_maps.

Local Open Scope Z_scope.

(** ** JavaScript primitives used by the sources *)

Module Js.

(** [Map.prototype.set] on a map kept in insertion order: an existing key
    keeps its place and gets the new value, a new key goes last. *)
Fixpoint map_set {V : Type} (k : string) (v : V) (m : list (string * V))
  : list (string * V) :=
  match m with
  | [] => [(k, v)]
  | (k', v') :: m' =>
      if String.eqb k k' then (k, v) :: m' else (k', v') :: map_set k v m'
  end.

(** [Map.prototype.get]. *)
Fixpoint map_get {V : Type} (k : string) (m : list (string * V)) : option V :=
  match m with
  | [] => None
  | (k', v) :: m' => if String.eqb k k' then Some v else map_get k m'
  end.

(** The entries of a map that belong to one key. *)
Definition entriesOf {V : Type} (k : string) (m : list (string * V)) : list V :=
  omap (fun e => if String.eqb e.1 k then Some e.2 else None) m.

(** A map holds at most one entry per key. *)
Definition functional {V : Type} (m : list (string * V)) : Prop := NoDup m.*1.

(** [Array.prototype.findIndex]: the first index whose element satisfies
    the predicate, [-1] when there is none. *)
Fixpoint findIndex_from {A : Type} (p : A -> bool) (l : list A) (i : Z) : Z :=
  match l with
  | [] => -1
  | x :: l' => if p x then i else findIndex_from p l' (i + 1)
  end.

Definition findIndex {A : Type} (p : A -> bool) (l : list A) : Z :=
  findIndex_from p l 0.

(** [array[i]] for an integer index: [undefined] ([None]) out of range. *)
Definition index {A : Type} (l : list A) (i : Z) : option A :=
  if i <? 0 then None else l !! Z.to_nat i.

(** [Array.prototype.push] and [Array.prototype.shift]. *)
Definition push {A : Type} (l : list A) (x : A) : list A := l ++ [x].
Definition shift {A : Type} (l : list A) : list A := tail l.

(** The [n] most recent elements of a list that grows at its end. *)
Definition mostRecent {A : Type} (n : nat) (l : list A) : list A :=
  drop (length l - n) l.

(** [a.reduce((s, x) => s + x, 0)]. *)
Definition sum (l : list Z) : Z := fold_left Z.add l 0.

(** [a / b] for an integer [a] and a positive length [b], as an exact
    rational, and the comparison [a > b]. *)
Definition divide (a : Z) (n : nat) : Q := inject_Z a / inject_Z (Z.of_nat n).
Definition gt (a b : Q) : bool := negb (Qle_bool a b).

End Js.

(** The three throttling strategies, ['normal' | 'moderate' | 'aggressive']. *)
Inductive Strategy : Set := normal | moderate | aggressive.

(** The strategy as a function of the retained samples: [normal] below three
    samples, otherwise by the thresholds 100 and 50 on their mean (the mean
    exceeds [c] exactly when the sum exceeds [c] times the count). *)
Definition strategyFor (samples : list Z) : Strategy :=
  let n := Z.of_nat (length samples) in
  if (length samples <? 3)%nat then normal
  else if 100 * n <? Js.sum samples then aggressive
  else if 50 * n <? Js.sum samples then moderate
  else normal.

(** ** [class VirtualizedTabManager] *)

Module VirtualizedTabManager.
Section Manager.

(** The cached payload has type [any]. *)
Context {Data : Type}.

Record t : Type := Build {
  windowSize : Z;
  visibleTabs : gset string;
  tabCache : gmap string Data
}.

(** [new VirtualizedTabManager(windowSize = 3)]. *)
Definition create (ws : option Z) : t :=
  {| windowSize := default 3 ws; visibleTabs := ∅; tabCache := ∅ |}.

(** [start] and [end] of [updateVisibility]; [Math.floor(w / 2)] is [w / 2]
    on integers. *)
Definition windowStart (ws currentIndex : Z) : Z :=
  Z.max 0 (currentIndex - ws / 2).

Definition windowEnd (ws : Z) (len : nat) (start : Z) : Z :=
  Z.min (Z.of_nat len - 1) (start + ws - 1).

(** The loop [for (let i = start; i <= end; i++) newVisible.add(tabNames[i])].
    Every index it visits lies inside the array (lemma
    [window_indices_in_range]), so [tabNames[i]] is never [undefined]. *)
Definition collect (tabNames : list string) (start stop : Z) : gset string :=
  foldl (fun acc i =>
           match Js.index tabNames i with
           | Some name => acc ∪ {[ name ]}
           | None => acc
           end)
        ∅ (seqZ start (stop - start + 1)).

(** The loop over the previously visible tabs that deletes the cache of
    those no longer visible. *)
Definition evict (newVisible : gset string) (old : list string)
    (cache : gmap string Data) : gmap string Data :=
  foldl (fun c name => if decide (name ∈ newVisible) then c else delete name c)
        cache old.

Definition updateVisibility (currentIndex : Z) (tabNames : list string) (m : t) : t :=
  let start := windowStart (windowSize m) currentIndex in
  let stop := windowEnd (windowSize m) (length tabNames) start in
  let newVisible := collect tabNames start stop in
  {| windowSize := windowSize m;
     visibleTabs := newVisible;
     tabCache := evict newVisible (elements (visibleTabs m)) (tabCache m) |}.

Definition isVisible (tabName : string) (m : t) : bool :=
  bool_decide (tabName ∈ visibleTabs m).

Definition cacheTab (tabName : string) (data : Data) (m : t) : t :=
  if isVisible tabName m
  then {| windowSize := windowSize m;
          visibleTabs := visibleTabs m;
          tabCache := <[tabName := data]> (tabCache m) |}
  else m.

Definition getCache (tabName : string) (m : t) : option Data :=
  tabCache m !! tabName.

Definition destroy (m : t) : t :=
  {| windowSize := windowSize m; visibleTabs := ∅; tabCache := ∅ |}.

(** The calls a client can make on a manager, and a run of them. *)
Inductive Call : Type :=
| UpdateVisibility (currentIndex : Z) (tabNames : list string)
| CacheTab (tabName : string) (data : Data)
| Destroy.

Definition call (c : Call) (m : t) : t :=
  match c with
  | UpdateVisibility i names => updateVisibility i names m
  | CacheTab name data => cacheTab name data m
  | Destroy => destroy m
  end.

Definition run (cs : list Call) (m : t) : t := foldl (fun m c => call c m) m cs.

(** Every cached tab is visible. *)
Definition contained (m : t) : Prop := dom (tabCache m) ⊆ visibleTabs m.

(** The window as the specification words it: a range of [ws] indices
    centred on the focused index, then clamped to the array.  Clamping can
    be read as cutting the range at the bounds or as sliding it back inside
    them; both readings are written out. *)
Definition centredCut (ws : Z) (len : nat) (focused : Z) : Z * Z :=
  (Z.max 0 (focused - ws / 2),
   Z.min (Z.of_nat len - 1) (focused - ws / 2 + ws - 1)).

Definition centredSlide (ws : Z) (len : nat) (focused : Z) : Z * Z :=
  let lo := Z.max 0 (Z.min (focused - ws / 2) (Z.of_nat len - ws)) in
  (lo, Z.min (Z.of_nat len - 1) (lo + ws - 1)).

End Manager.
Arguments t : clear implicits.
Arguments Call : clear implicits.
End VirtualizedTabManager.

(** The five tabs of the eviction example. *)
Definition tabsAE : list string := ["A"; "B"; "C"; "D"; "E"]%string.

(** ** [class PerformanceMonitor] *)

Module PerformanceMonitor.

Record Metric : Set := { timestamp : Z; duration : Z }.

Record t : Set := Build { metrics : list Metric }.

Definition MAX_METRICS : nat := 10.

Definition create : t := {| metrics := [] |}.

Definition total (ms : list Metric) : Z :=
  fold_left (fun sum m => sum + duration m) ms 0.

Definition getOptimalStrategy (m : t) : Strategy :=
  if (length (metrics m) <? 3)%nat then normal
  else
    let avgDuration := Js.divide (total (metrics m)) (length (metrics m)) in
    if Js.gt avgDuration 100 then aggressive
    else if Js.gt avgDuration 50 then moderate
    else normal.

(** [recordTabSwitch(startTime)], with [now] the reading of [Date.now()]. *)
Definition recordTabSwitch (now startTime : Z) (m : t) : t * Strategy :=
  let duration := now - startTime in
  let pushed := Js.push (metrics m) {| timestamp := startTime; duration := duration |} in
  let kept := if (MAX_METRICS <? length pushed)%nat then Js.shift pushed else pushed in
  let m' := {| metrics := kept |} in
  (m', getOptimalStrategy m').

Definition getAveragePerformance (m : t) : Q :=
  if (length (metrics m) =? 0)%nat then 0%Q
  else Js.divide (total (metrics m)) (length (metrics m)).

(** The sample a switch that started at [sw.2] and is recorded at [sw.1] leaves. *)
Definition sample (sw : Z * Z) : Metric :=
  {| timestamp := sw.2; duration := sw.1 - sw.2 |}.

(** Feeding a list of switches, each given as [(now, startTime)]. *)
Definition feed (switches : list (Z * Z)) (m : t) : t * Strategy :=
  foldl (fun ms sw => recordTabSwitch sw.1 sw.2 ms.1) (m, getOptimalStrategy m) switches.

End PerformanceMonitor.


(** ** The component [Lazy] *)

Module Lazy.

(** [opacity.value]: [0], a [withTiming(1)] animation in flight, or [1]. *)
Inductive Opacity : Set := Transparent | Fading | Opaque.

(** The mount states the documentation of the controller distinguishes. *)
Inductive MountState : Set := Unmounted | Scheduled | Mounted | FadingIn | Visible.

(** What the event loop can deliver to a mounted instance. *)
Inductive Event : Set :=
| FocusChange (tab : string)              (* focusedTab.value = tab *)
| SetStartMounted (p : option bool)       (* a render with a new startMounted prop *)
| Elapse (ms : N)                         (* time passes *)
| TimerFire (i : nat)                     (* the i-th pending timeout runs, if due *)
| Layout                                  (* onLayout of the Animated.View *)
| FadeEnd                                 (* the withTiming(1) animation ends *)
| Unmount.                                (* the cleanup of the first effect *)

Record State : Set := Build {
  focusedTab : string;
  startMounted : option bool;
  canMount : bool;
  isSelfMounted : bool;
  opacity : Opacity;
  didTriggerLayout : bool;
  wasFocused : option bool;     (* previous result of the focus reaction *)
  wasLaidOut : option bool;     (* previous result of the layout reaction *)
  clock : Z;
  timers : list (Z * string)    (* due time and the captured argument *)
}.

Definition set_focusedTab (x : string) (s : State) : State :=
  Build x (startMounted s) (canMount s) (isSelfMounted s) (opacity s)
        (didTriggerLayout s) (wasFocused s) (wasLaidOut s) (clock s) (timers s).
Definition set_startMounted (x : option bool) (s : State) : State :=
  Build (focusedTab s) x (canMount s) (isSelfMounted s) (opacity s)
        (didTriggerLayout s) (wasFocused s) (wasLaidOut s) (clock s) (timers s).
Definition setCanMount (x : bool) (s : State) : State :=
  Build (focusedTab s) (startMounted s) x (isSelfMounted s) (opacity s)
        (didTriggerLayout s) (wasFocused s) (wasLaidOut s) (clock s) (timers s).
Definition set_isSelfMounted (x : bool) (s : State) : State :=
  Build (focusedTab s) (startMounted s) (canMount s) x (opacity s)
        (didTriggerLayout s) (wasFocused s) (wasLaidOut s) (clock s) (timers s).
Definition set_opacity (x : Opacity) (s : State) : State :=
  Build (focusedTab s) (startMounted s) (canMount s) (isSelfMounted s) x
        (didTriggerLayout s) (wasFocused s) (wasLaidOut s) (clock s) (timers s).
Definition set_didTriggerLayout (x : bool) (s : State) : State :=
  Build (focusedTab s) (startMounted s) (canMount s) (isSelfMounted s) (opacity s)
        x (wasFocused s) (wasLaidOut s) (clock s) (timers s).
Definition set_wasFocused (x : option bool) (s : State) : State :=
  Build (focusedTab s) (startMounted s) (canMount s) (isSelfMounted s) (opacity s)
        (didTriggerLayout s) x (wasLaidOut s) (clock s) (timers s).
Definition set_wasLaidOut (x : option bool) (s : State) : State :=
  Build (focusedTab s) (startMounted s) (canMount s) (isSelfMounted s) (opacity s)
        (didTriggerLayout s) (wasFocused s) x (clock s) (timers s).
Definition set_clock (x : Z) (s : State) : State :=
  Build (focusedTab s) (startMounted s) (canMount s) (isSelfMounted s) (opacity s)
        (didTriggerLayout s) (wasFocused s) (wasLaidOut s) x (timers s).
Definition set_timers (x : list (Z * string)) (s : State) : State :=
  Build (focusedTab s) (startMounted s) (canMount s) (isSelfMounted s) (opacity s)
        (didTriggerLayout s) (wasFocused s) (wasLaidOut s) (clock s) x.

(** [opacity.value === 1]. *)
Definition isOne (o : Opacity) : bool :=
  match o with Opaque => true | _ => false end.

Definition isFading (o : Opacity) : bool :=
  match o with Fading => true | _ => false end.

(** How far the fade-in has come. *)
Definition opacityRank (o : Opacity) : nat :=
  match o with Transparent => 0 | Fading => 1 | Opaque => 2 end.

(** Truthiness of the previous value of a reaction ([null] before its first run). *)
Definition truthy (o : option bool) : bool := default false o.

Section Component.

(** The tab name from context and the props that stay fixed. *)
Context (name : string) (cancelLazyFadeIn : bool) (mountDelayMs : Z).

(** [startMountTimer(focusedTab)]: the timeout closes over its argument. *)
Definition startMountTimer (focusedTab : string) (s : State) : State :=
  set_timers (timers s ++ [(clock s + Z.max 0 mountDelayMs, focusedTab)]) s.

(** The body of that timeout: [focusedTab] is the captured argument. *)
Definition mountTimerFired (focusedTab : string) (s : State) : State :=
  if String.eqb focusedTab name
  then (if isSelfMounted s then setCanMount true s else s)
  else s.

(** The effect on [[_startMounted, canMount, focusedTab.value, name]]; its
    second branch is empty in the source. *)
Definition startMountedEffect (s : State) : State :=
  match startMounted s with
  | Some true => if negb (canMount s) then setCanMount true s else s
  | _ => s
  end.

(** The reaction on [focusedTab.value === name]. *)
Definition focusReaction (s : State) : State :=
  let focused := String.eqb (focusedTab s) name in
  let s' :=
    if focused && negb (truthy (wasFocused s)) && negb (canMount s)
    then (if cancelLazyFadeIn
          then setCanMount true (set_opacity Opaque s)
          else startMountTimer (focusedTab s) s)
    else s in
  set_wasFocused (Some focused) s'.

(** The reaction on [didTriggerLayout.value]. *)
Definition layoutReaction (s : State) : State :=
  let isMounted := didTriggerLayout s in
  let s' :=
    if isMounted && negb (truthy (wasLaidOut s))
    then (if negb cancelLazyFadeIn && negb (isOne (opacity s))
          then set_opacity Fading s
          else s)
    else s in
  set_wasLaidOut (Some isMounted) s'.

(** First render and first run of the effects and reactions, at time [now]
    with [focused0] the focused tab. *)
Definition mount (focused0 : string) (startMounted0 : option bool) (now : Z) : State :=
  let shouldStartMounted :=
    match startMounted0 with
    | Some b => b
    | None => String.eqb focused0 name
    end in
  let initialOpacity :=
    if negb cancelLazyFadeIn && negb shouldStartMounted then Transparent else Opaque in
  layoutReaction (focusReaction (startMountedEffect
    {| focusedTab := focused0; startMounted := startMounted0;
       canMount := shouldStartMounted; isSelfMounted := true;
       opacity := initialOpacity; didTriggerLayout := false;
       wasFocused := None; wasLaidOut := None; clock := now; timers := [] |})).

(** One turn of the event loop.  After [Unmount] the reactions and effects
    are stopped; only timeouts already in flight still run.  The
    [Animated.View] and its [onLayout] exist when [canMount] holds and the
    fade is not cancelled. *)
Definition step (e : Event) (s : State) : State :=
  match e with
  | FocusChange tab =>
      let s1 := set_focusedTab tab s in
      if isSelfMounted s then focusReaction s1 else s1
  | SetStartMounted p =>
      if isSelfMounted s then startMountedEffect (set_startMounted p s) else s
  | Elapse ms => set_clock (clock s + Z.of_N ms) s
  | TimerFire i =>
      match timers s !! i with
      | Some (due, captured) =>
          if due <=? clock s
          then mountTimerFired captured (set_timers (delete i (timers s)) s)
          else s
      | None => s
      end
  | Layout =>
      if isSelfMounted s && canMount s && negb cancelLazyFadeIn
      then layoutReaction (set_didTriggerLayout true s)
      else s
  | FadeEnd => if isFading (opacity s) then set_opacity Opaque s else s
  | Unmount => set_isSelfMounted false s
  end.

Definition run (es : list Event) (s : State) : State := foldl (fun s e => step e s) s es.

(** The focus reaction starts a timer only when the tab is focused, so the
    argument every timer captures is the tab's own name. *)
Definition capturesOwnName (s : State) : Prop :=
  Forall (fun t => t.2 = name) (timers s).

(** Events that neither give the tab the focus nor ask for an eager mount. *)
Definition keepsAway (e : Event) : bool :=
  match e with
  | FocusChange tab => negb (String.eqb tab name)
  | SetStartMounted (Some true) => false
  | _ => true
  end.

(** Events other than the request for an eager mount. *)
Definition staysLazy (e : Event) : bool :=
  match e with
  | SetStartMounted (Some true) => false
  | _ => true
  end.

(** The mount state an instance is in. *)
Definition mountState (s : State) : MountState :=
  if canMount s
  then match opacity s with
       | Opaque => Visible
       | Fading => FadingIn
       | Transparent => Mounted
       end
  else match timers s with
       | [] => Unmounted
       | _ :: _ => Scheduled
       end.

End Component.
End Lazy.

(** ** Scroll surfaces and what the schedulers do to them *)

(** What the outside can observe: [scrollToImpl(ref, 0, y, false)] on the
    surface of a tab, and [containerRef.current.setPage(index)]. *)
Inductive Effect : Set :=
| ScrollTo (tab : string) (y : Z)
| SetPage (index : Z).

(** [refMap] maps a tab name to its ref object; the boolean says whether the
    ref's [current] is set. *)
Definition hasRef (refMap : gmap string bool) (tab : string) : bool :=
  match refMap !! tab with Some _ => true | None => false end.

Definition hasCurrent (refMap : gmap string bool) (tab : string) : bool :=
  match refMap !! tab with Some c => c | None => false end.

Definition setRef (tab : string) (r : option bool) (refMap : gmap string bool)
  : gmap string bool :=
  match r with
  | Some c => <[tab := c]> refMap
  | None => delete tab refMap
  end.

(** Modelled from the spec: [scrollToImpl] of [./helpers], which is not among
    the sources; it issues a one-shot scroll of the surface to the given
    offset, here recorded as the effect [ScrollTo]. *)
Definition scrollToImpl (tab : string) (y : Z) : list Effect := [ScrollTo tab y].

(** The corrections among some effects that go to one tab. *)
Definition scrollsOf (tab : string) (es : list Effect) : list Z :=
  omap (fun e => match e with
                 | ScrollTo t y => if String.eqb t tab then Some y else None
                 | SetPage _ => None
                 end) es.

(** The three surfaces of the examples, all mounted. *)
Definition tabs123 : list string := ["tab1"; "tab2"; "tab3"]%string.
Definition refs123 : gmap string bool :=
  <["tab1"%string := true]> (<["tab2"%string := true]> (<["tab3"%string := true]> ∅)).

(** ** The hook [useHighPerformanceTabSync] *)

Module Hook.

(** The callbacks the hook hands to [setTimeout]. *)
Inductive Callback : Set :=
| ProcessBatch                  (* setTimeout(processBatch, ...) *)
| Settle (startTime : Z).       (* the timeout of smartTabSwitch *)

Record Timer : Set := { due : Z; callback : Callback }.

(** The closure [processBatch] hands to [runAfterInteractions]: it captures
    [syncEntries] and [now]. *)
Record Batch : Set := { syncEntries : list (string * Z); drainedAt : Z }.

Inductive Event : Set :=
| Elapse (ms : N)                                   (* time passes *)
| FireTimer (i : nat)                               (* the i-th pending timeout runs, if due *)
| RunAfterInteractions                              (* the oldest interaction callback runs *)
| CallRequestSync (tabName : string) (scrollY : Z)
| CallSmartTabSwitch (targetIndex : Z) (container : bool)
| HostSetScrolling (b : bool)                       (* isScrolling.value = b *)
| HostSetRef (tabName : string) (r : option bool)   (* refMap[tabName] changes *)
| Unmount.                                          (* the cleanup of the effect *)

Record State : Type := Build {
  syncQueue : list (string * Z);
  isProcessing : bool;
  lastProcessTime : Z;
  performanceStrategy : Strategy;
  switchTimes : list Z;
  refMap : gmap string bool;
  isScrolling : bool;
  clock : Z;                         (* Date.now() *)
  timers : list Timer;               (* pending setTimeout callbacks *)
  interactions : list Batch;         (* pending runAfterInteractions callbacks *)
  effects : list Effect;             (* what has been done to the surfaces *)
  applied : list Z                   (* ghost: the batches applied, by drain time *)
}.

Definition set_syncQueue (x : list (string * Z)) (s : State) : State :=
  Build x (isProcessing s) (lastProcessTime s) (performanceStrategy s) (switchTimes s)
        (refMap s) (isScrolling s) (clock s) (timers s) (interactions s) (effects s) (applied s).
Definition set_isProcessing (x : bool) (s : State) : State :=
  Build (syncQueue s) x (lastProcessTime s) (performanceStrategy s) (switchTimes s)
        (refMap s) (isScrolling s) (clock s) (timers s) (interactions s) (effects s) (applied s).
Definition set_lastProcessTime (x : Z) (s : State) : State :=
  Build (syncQueue s) (isProcessing s) x (performanceStrategy s) (switchTimes s)
        (refMap s) (isScrolling s) (clock s) (timers s) (interactions s) (effects s) (applied s).
Definition set_performanceStrategy (x : Strategy) (s : State) : State :=
  Build (syncQueue s) (isProcessing s) (lastProcessTime s) x (switchTimes s)
        (refMap s) (isScrolling s) (clock s) (timers s) (interactions s) (effects s) (applied s).
Definition set_switchTimes (x : list Z) (s : State) : State :=
  Build (syncQueue s) (isProcessing s) (lastProcessTime s) (performanceStrategy s) x
        (refMap s) (isScrolling s) (clock s) (timers s) (interactions s) (effects s) (applied s).
Definition set_refMap (x : gmap string bool) (s : State) : State :=
  Build (syncQueue s) (isProcessing s) (lastProcessTime s) (performanceStrategy s) (switchTimes s)
        x (isScrolling s) (clock s) (timers s) (interactions s) (effects s) (applied s).
Definition set_isScrolling (x : bool) (s : State) : State :=
  Build (syncQueue s) (isProcessing s) (lastProcessTime s) (performanceStrategy s) (switchTimes s)
        (refMap s) x (clock s) (timers s) (interactions s) (effects s) (applied s).
Definition set_clock (x : Z) (s : State) : State :=
  Build (syncQueue s) (isProcessing s) (lastProcessTime s) (performanceStrategy s) (switchTimes s)
        (refMap s) (isScrolling s) x (timers s) (interactions s) (effects s) (applied s).
Definition set_timers (x : list Timer) (s : State) : State :=
  Build (syncQueue s) (isProcessing s) (lastProcessTime s) (performanceStrategy s) (switchTimes s)
        (refMap s) (isScrolling s) (clock s) x (interactions s) (effects s) (applied s).
Definition set_interactions (x : list Batch) (s : State) : State :=
  Build (syncQueue s) (isProcessing s) (lastProcessTime s) (performanceStrategy s) (switchTimes s)
        (refMap s) (isScrolling s) (clock s) (timers s) x (effects s) (applied s).
Definition set_effects (x : list Effect) (s : State) : State :=
  Build (syncQueue s) (isProcessing s) (lastProcessTime s) (performanceStrategy s) (switchTimes s)
        (refMap s) (isScrolling s) (clock s) (timers s) (interactions s) x (applied s).
Definition set_applied (x : list Z) (s : State) : State :=
  Build (syncQueue s) (isProcessing s) (lastProcessTime s) (performanceStrategy s) (switchTimes s)
        (refMap s) (isScrolling s) (clock s) (timers s) (interactions s) (effects s) x.

(** The refs of a freshly mounted hook, in a host with the given surfaces. *)
Definition init (refs : gmap string bool) (scrolling : bool) (now : Z) : State :=
  {| syncQueue := []; isProcessing := false; lastProcessTime := 0;
     performanceStrategy := normal; switchTimes := [];
     refMap := refs; isScrolling := scrolling; clock := now;
     timers := []; interactions := []; effects := []; applied := [] |}.

(** [setTimeout(cb, delay)]. *)
Definition setTimeout (cb : Callback) (delay : Z) (s : State) : State :=
  set_timers (timers s ++ [{| due := clock s + Z.max 0 delay; callback := cb |}]) s.

Definition getThrottleInterval (s : State) : Z :=
  match performanceStrategy s with
  | aggressive => 50
  | moderate => 33
  | normal => 16
  end.

(** The strategy [recordTabSwitch] picks from the samples it kept. *)
Definition strategyOfAverage (kept : list Z) : Strategy :=
  let avgTime := Js.divide (Js.sum kept) (length kept) in
  if Js.gt avgTime 100 then aggressive
  else if Js.gt avgTime 50 then moderate
  else normal.

Definition recordTabSwitch (duration : Z) (s : State) : State :=
  let pushed := Js.push (switchTimes s) duration in
  let kept := if (10 <? length pushed)%nat then Js.shift pushed else pushed in
  let s1 := set_switchTimes kept s in
  if (3 <=? length kept)%nat
  then set_performanceStrategy (strategyOfAverage kept) s1
  else s1.

(** Recording a list of durations, oldest first. *)
Definition feed (durations : list Z) (s : State) : State :=
  foldl (fun s d => recordTabSwitch d s) s durations.

(** [getPerformanceMetrics()]. *)
Definition getPerformanceMetrics (s : State) : Strategy * Q :=
  (performanceStrategy s,
   if (0 <? length (switchTimes s))%nat
   then Js.divide (Js.sum (switchTimes s)) (length (switchTimes s))
   else 0%Q).

Section Hook.

(** The arguments [contentInset] and [tabNames] of the hook. *)
Context (contentInset : Z) (tabNames : list string).

(** The body of the [forEach] inside the interaction callback. *)
Definition applyEntries (refs : gmap string bool) (entries : list (string * Z))
  : list Effect :=
  flat_map (fun '(tabName, scrollY) =>
              if hasRef refs tabName
              then scrollToImpl tabName (scrollY - contentInset)
              else [])
           entries.

Definition processBatch (s : State) : State :=
  if isScrolling s || (length (syncQueue s) =? 0)%nat || isProcessing s then s
  else
    let now := clock s in
    let syncEntries := syncQueue s in
    set_interactions (interactions s ++ [{| syncEntries := syncEntries; drainedAt := now |}])
      (set_syncQueue [] (set_isProcessing true s)).

(** The callback given to [InteractionManager.runAfterInteractions]. *)
Definition afterInteractions (b : Batch) (s : State) : State :=
  set_applied (applied s ++ [drainedAt b])
    (set_lastProcessTime (drainedAt b)
      (set_isProcessing false
        (set_effects (effects s ++ applyEntries (refMap s) (syncEntries b)) s))).

Definition requestSync (tabName : string) (scrollY : Z) (s : State) : State :=
  let currentIndex := Js.findIndex (fun name => String.eqb name tabName) tabNames in
  let focusedIndex := Js.findIndex (fun name => hasCurrent (refMap s) name) tabNames in
  if 1 <? Z.abs (currentIndex - focusedIndex) then s
  else
    let s1 := set_syncQueue (Js.map_set tabName scrollY (syncQueue s)) s in
    let now := clock s1 in
    let timeSinceLastProcess := now - lastProcessTime s1 in
    let throttleInterval := getThrottleInterval s1 in
    if throttleInterval <=? timeSinceLastProcess
    then processBatch s1
    else setTimeout ProcessBatch (throttleInterval - timeSinceLastProcess) s1.

Definition smartTabSwitch (targetIndex : Z) (container : bool) (s : State) : State :=
  let startTime := clock s in
  let s1 := set_syncQueue [] s in
  let s2 := if container then set_effects (effects s1 ++ [SetPage targetIndex]) s1 else s1 in
  let delay := match performanceStrategy s2 with aggressive => 100 | _ => 50 end in
  setTimeout (Settle startTime) delay s2.

(** The cleanup of the hook's effect. *)
Definition cleanup (s : State) : State :=
  set_switchTimes [] (set_syncQueue [] s).

Definition fire (cb : Callback) (s : State) : State :=
  match cb with
  | ProcessBatch => processBatch s
  | Settle startTime => recordTabSwitch (clock s - startTime) s
  end.

Definition step (e : Event) (s : State) : State :=
  match e with
  | Elapse ms => set_clock (clock s + Z.of_N ms) s
  | FireTimer i =>
      match timers s !! i with
      | Some t =>
          if due t <=? clock s
          then fire (callback t) (set_timers (delete i (timers s)) s)
          else s
      | None => s
      end
  | RunAfterInteractions =>
      match interactions s with
      | b :: rest => afterInteractions b (set_interactions rest s)
      | [] => s
      end
  | CallRequestSync tabName scrollY => requestSync tabName scrollY s
  | CallSmartTabSwitch targetIndex container => smartTabSwitch targetIndex container s
  | HostSetScrolling b => set_isScrolling b s
  | HostSetRef tabName r => set_refMap (setRef tabName r (refMap s)) s
  | Unmount => cleanup s
  end.

Definition run (es : list Event) (s : State) : State := foldl (fun s e => step e s) s es.

End Hook.

(** A tab switch is in progress from [smartTabSwitch] until its timeout has
    run: the hook keeps no flag for it, the pending timeout is the only
    trace of the switch. *)
Definition isSettle (t : Timer) : bool :=
  match callback t with Settle _ => true | ProcessBatch => false end.


(** The strategy of the hook follows its samples as long as the samples only
    grow by [recordTabSwitch]. *)
Definition strategyFollows (s : State) : Prop :=
  performanceStrategy s = strategyFor (switchTimes s)
  ∧ (length (switchTimes s) ≤ 10)%nat.

(** [requestSync] keeps a request when the distance test lets it through. *)
Definition accepted (tabNames : list string) (tabName : string) (s : State) : bool :=
  negb (1 <? Z.abs (Js.findIndex (fun name => String.eqb name tabName) tabNames
                    - Js.findIndex (fun name => hasCurrent (refMap s) name) tabNames)).

(** What every reachable state satisfies: the queue has one entry per tab,
    and a batch is awaiting its interaction callback exactly while
    [isProcessing] is set. *)
Definition consistent (s : State) : Prop :=
  Js.functional (syncQueue s)
  ∧ (if isProcessing s then ∃ b, interactions s = [b] else interactions s = []).

(** No pending [processBatch] timeout is due before [bound]. *)
Definition deferredUntil (bound : Z) (s : State) : Prop :=
  Forall (fun t => callback t = ProcessBatch → bound ≤ due t) (timers s).

(** The stages that requests deferred to [bound] go through: they wait in the
    queue [q]; they are drained into a batch that awaits its interaction
    callback; the batch is applied.  [before] lists the batches applied
    earlier. *)
Definition deferredStage (before : list Z) (q : list (string * Z)) (bound : Z)
    (s : State) : Prop :=
  (applied s = before ∧ syncQueue s = q ∧ isProcessing s = false
   ∧ interactions s = [] ∧ deferredUntil bound s)
  ∨ (applied s = before ∧ syncQueue s = [] ∧ isProcessing s = true
     ∧ ∃ t, interactions s = [{| syncEntries := q; drainedAt := t |}] ∧ bound ≤ t)
  ∨ (∃ t, applied s = before ++ [t] ∧ bound ≤ t ∧ syncQueue s = []
          ∧ isProcessing s = false ∧ interactions s = []).

(** What may happen while requests wait: time passes, timeouts and
    interaction callbacks run, the host scrolls and attaches surfaces. *)
Definition isLoopEvent (e : Event) : bool :=
  match e with
  | Elapse _ | FireTimer _ | RunAfterInteractions
  | HostSetScrolling _ | HostSetRef _ _ => true
  | _ => false
  end.

(** Everything but the cleanup that runs when the hook is unmounted. *)
Definition isLiveEvent (e : Event) : bool :=
  match e with
  | Unmount => false
  | _ => true
  end.

(** Every pending settle timeout is due at least 50 ms after the switch it
    measures started, and every retained sample is at least 50 ms. *)
Definition settleDelayed (t : Timer) : Prop :=
  match callback t with
  | Settle startTime => startTime + 50 ≤ due t
  | ProcessBatch => True
  end.

Definition measured (s : State) : Prop :=
  Forall settleDelayed (timers s) ∧ Forall (fun d => 50 ≤ d) (switchTimes s).

(** Events that neither touch the queue nor run any callback of the hook. *)
Definition isHostEvent (e : Event) : bool :=
  match e with
  | Elapse _ | HostSetScrolling _ | HostSetRef _ _ => true
  | _ => false
  end.

(** Every event but the end of the gesture. *)
Definition keepsScrolling (e : Event) : bool :=
  match e with
  | HostSetScrolling false => false
  | _ => true
  end.

(** Every event but the two that empty the queue without draining it. *)
Definition keepsQueue (e : Event) : bool :=
  match e with
  | CallSmartTabSwitch _ _ | Unmount => false
  | _ => true
  end.


(** What the event loop does on its own: time passes, timeouts fire,
    interaction callbacks run. *)
Definition isCallbackEvent (e : Event) : bool :=
  match e with
  | Elapse _ | FireTimer _ | RunAfterInteractions => true
  | _ => false
  end.

(** A [processBatch] timeout is pending. *)
Definition batchPending (s : State) : bool :=
  existsb (fun t => negb (isSettle t)) (timers s).

(** The stages that requests deferred to [bound] go through while the user
    does not scroll and the event loop runs on its own.  They wait in the
    queue [q] with a [processBatch] timeout pending; they are drained into a
    batch that awaits its interaction callback; the batch is applied to the
    surfaces [refs].  [before] and [done] are the batches applied and the
    effects made earlier. *)
Definition throttleStage (contentInset : Z) (before : list Z) (done : list Effect)
    (refs : gmap string bool) (q : list (string * Z)) (bound : Z) (s : State) : Prop :=
  isScrolling s = false ∧ refMap s = refs
  ∧ ((applied s = before ∧ effects s = done ∧ syncQueue s = q ∧ isProcessing s = false
      ∧ interactions s = [] ∧ deferredUntil bound s ∧ batchPending s = true)
     ∨ (applied s = before ∧ effects s = done ∧ syncQueue s = [] ∧ isProcessing s = true
        ∧ ∃ t, interactions s = [{| syncEntries := q; drainedAt := t |}] ∧ bound ≤ t)
     ∨ (∃ t, applied s = before ++ [t] ∧ bound ≤ t
             ∧ effects s = done ++ applyEntries contentInset refs q
             ∧ syncQueue s = [] ∧ isProcessing s = false ∧ interactions s = [])).

(** A request that arrives in such a state waits: a gesture is in progress,
    so that [processBatch] returns at once, or the throttle interval has not
    passed, so that the request is deferred. *)
Definition waits (s : State) : Prop :=
  isScrolling s = true ∨ clock s - lastProcessTime s < getThrottleInterval s.

End Hook.

(** A hook that has measured three switches of 60 ms, hence runs the moderate
    strategy, and whose last batch was drained at time 1180, 5 ms ago. *)
Definition moderateIdle : Hook.State :=
  Hook.run 0 tabs123
    [Hook.CallSmartTabSwitch 1 true; Hook.Elapse 60; Hook.FireTimer 0;
     Hook.CallSmartTabSwitch 2 true; Hook.Elapse 60; Hook.FireTimer 0;
     Hook.CallSmartTabSwitch 1 true; Hook.Elapse 60; Hook.FireTimer 0;
     Hook.CallRequestSync "tab1" 5; Hook.RunAfterInteractions; Hook.Elapse 5]
    (Hook.init refs123 false 1000).

(** ** [class HighPerformanceTabSync] *)

Module TabSync.

Definition PROCESS_INTERVAL : Z := 16.

(** The identifier [scrollToImpl] as this module binds it.  The module
    imports [React], [InteractionManager], [useSharedValue], [runOnUI] and
    [runOnJS] and declares three classes; it neither imports nor defines
    [scrollToImpl], so evaluating the identifier raises a ReferenceError. *)
Definition scrollToImplBinding : option (string → Z → list Effect) := None.

(** The promise one [performSync] call returns: its interaction callback
    has not run yet; [resolve] was called; or the worklet raised before it
    reached [resolve], and the promise stays pending. *)
Inductive Promise : Set :=
| Waiting (tabName : string) (scrollY : Z)
| Resolved
| Raised.

Inductive Event : Set :=
| Elapse (ms : N)                                   (* time passes *)
| RunFrame                                          (* a requestAnimationFrame callback runs *)
| RunSync                                           (* the oldest performSync callback runs *)
| RunFinally                                        (* the finally of a finished batch runs *)
| CallRequestSync (tabName : string) (scrollY : Z)
| CallDestroy
| HostSetScrolling (b : bool)
| HostSetRef (tabName : string) (r : option bool).

Record State : Type := Build {
  syncQueue : list (string * Z);
  isProcessing : bool;
  lastProcessTime : Z;
  refMap : gmap string bool;
  isScrolling : bool;
  clock : Z;
  frames : nat;                           (* pending requestAnimationFrame callbacks *)
  inflight : list (list Promise);         (* per batch, the promises given to Promise.all *)
  effects : list Effect                   (* what has been done to the surfaces *)
}.

Definition set_syncQueue (x : list (string * Z)) (s : State) : State :=
  Build x (isProcessing s) (lastProcessTime s) (refMap s) (isScrolling s) (clock s)
        (frames s) (inflight s) (effects s).
Definition set_isProcessing (x : bool) (s : State) : State :=
  Build (syncQueue s) x (lastProcessTime s) (refMap s) (isScrolling s) (clock s)
        (frames s) (inflight s) (effects s).
Definition set_lastProcessTime (x : Z) (s : State) : State :=
  Build (syncQueue s) (isProcessing s) x (refMap s) (isScrolling s) (clock s)
        (frames s) (inflight s) (effects s).
Definition set_refMap (x : gmap string bool) (s : State) : State :=
  Build (syncQueue s) (isProcessing s) (lastProcessTime s) x (isScrolling s) (clock s)
        (frames s) (inflight s) (effects s).
Definition set_isScrolling (x : bool) (s : State) : State :=
  Build (syncQueue s) (isProcessing s) (lastProcessTime s) (refMap s) x (clock s)
        (frames s) (inflight s) (effects s).
Definition set_clock (x : Z) (s : State) : State :=
  Build (syncQueue s) (isProcessing s) (lastProcessTime s) (refMap s) (isScrolling s) x
        (frames s) (inflight s) (effects s).
Definition set_frames (x : nat) (s : State) : State :=
  Build (syncQueue s) (isProcessing s) (lastProcessTime s) (refMap s) (isScrolling s) (clock s)
        x (inflight s) (effects s).
Definition set_inflight (x : list (list Promise)) (s : State) : State :=
  Build (syncQueue s) (isProcessing s) (lastProcessTime s) (refMap s) (isScrolling s) (clock s)
        (frames s) x (effects s).
Definition set_effects (x : list Effect) (s : State) : State :=
  Build (syncQueue s) (isProcessing s) (lastProcessTime s) (refMap s) (isScrolling s) (clock s)
        (frames s) (inflight s) x.

(** [new HighPerformanceTabSync(refMap, scrollYCurrent, contentInset, isScrolling)]. *)
Definition create (refs : gmap string bool) (scrolling : bool) (now : Z) : State :=
  {| syncQueue := []; isProcessing := false; lastProcessTime := 0;
     refMap := refs; isScrolling := scrolling; clock := now;
     frames := 0; inflight := []; effects := [] |}.

(** The [performSync] calls of some promises whose callback has not run, in
    the order the callbacks were handed to [runAfterInteractions]. *)
Definition waitingOf (ps : list Promise) : list (string * Z) :=
  omap (fun p => match p with
                 | Waiting tabName scrollY => Some (tabName, scrollY)
                 | _ => None
                 end) ps.

Definition waiting (bs : list (list Promise)) : list (string * Z) :=
  waitingOf (concat bs).

(** The promise of the oldest callback becomes [p]. *)
Fixpoint settleFirst (p : Promise) (ps : list Promise) : list Promise :=
  match ps with
  | [] => []
  | Waiting _ _ :: ps' => p :: ps'
  | q :: ps' => q :: settleFirst p ps'
  end.

Fixpoint settleOldest (p : Promise) (bs : list (list Promise)) : list (list Promise) :=
  match bs with
  | [] => []
  | b :: bs' =>
      match waitingOf b with
      | _ :: _ => settleFirst p b :: bs'
      | [] => b :: settleOldest p bs'
      end
  end.

Definition isResolved (p : Promise) : bool :=
  match p with Resolved => true | _ => false end.

Definition isRaised (p : Promise) : bool :=
  match p with Raised => true | _ => false end.

(** The first batch all of whose promises are resolved, which
    [Promise.all] then resolves, is taken out. *)
Fixpoint popFinished (bs : list (list Promise)) : option (list (list Promise)) :=
  match bs with
  | [] => None
  | b :: bs' =>
      if forallb isResolved b then Some bs'
      else match popFinished bs' with
           | Some rest => Some (b :: rest)
           | None => None
           end
  end.

(** Every event but the end of the gesture. *)
Definition keepsScrolling (e : Event) : bool :=
  match e with
  | HostSetScrolling false => false
  | _ => true
  end.

(** Every event but the two that empty the queue. *)
Definition keepsQueue (e : Event) : bool :=
  match e with
  | RunFinally | CallDestroy => false
  | _ => true
  end.

(** Every event but a new request. *)
Definition isQuietEvent (e : Event) : bool :=
  match e with
  | CallRequestSync _ _ => false
  | _ => true
  end.

(** Every event but [destroy]. *)
Definition keepsInstance (e : Event) : bool :=
  match e with
  | CallDestroy => false
  | _ => true
  end.

Section TabSync.

Context (contentInset : Z).

(** [performSync(tabName, scrollY)] returns a promise and hands its callback
    to [runAfterInteractions]. *)
Definition performSync (tabName : string) (scrollY : Z) : Promise :=
  Waiting tabName scrollY.

(** The loop of [processBatch]: one [performSync] per entry whose tab has a ref. *)
Definition startSyncs (refs : gmap string bool) (queue : list (string * Z))
  : list Promise :=
  (fun e => performSync e.1 e.2) <$> filter (fun e => hasRef refs e.1 = true) queue.

Definition processBatch (s : State) : State :=
  if isScrolling s || (length (syncQueue s) =? 0)%nat then s
  else
    set_inflight (inflight s ++ [startSyncs (refMap s) (syncQueue s)])
      (set_lastProcessTime (clock s) (set_isProcessing true s)).

Definition scheduleBatchProcess (s : State) : State :=
  let now := clock s in
  let timeSinceLastProcess := now - lastProcessTime s in
  if timeSinceLastProcess <? PROCESS_INTERVAL
  then set_frames (S (frames s)) s
  else processBatch s.

Definition requestSync (tabName : string) (scrollY : Z) (s : State) : State :=
  let s1 := set_syncQueue (Js.map_set tabName scrollY (syncQueue s)) s in
  if negb (isProcessing s1) then scheduleBatchProcess s1 else s1.

(** The worklet inside the callback of [performSync]: with a ref it calls
    [scrollToImpl] and then resolves; the call raises when the identifier is
    unbound, and then nothing is scrolled and [resolve] is not reached. *)
Definition worklet (tabName : string) (scrollY : Z) (s : State) : State * Promise :=
  if hasRef (refMap s) tabName
  then match scrollToImplBinding with
       | Some scrollTo =>
           (set_effects (effects s ++ scrollTo tabName (scrollY - contentInset)) s, Resolved)
       | None => (s, Raised)
       end
  else (s, Resolved).

(** The callback of [Promise.all(syncPromises).finally]. *)
Definition finally (s : State) : State :=
  set_isProcessing false (set_syncQueue [] s).

Definition destroy (s : State) : State :=
  set_isProcessing false (set_syncQueue [] s).

Definition step (e : Event) (s : State) : State :=
  match e with
  | Elapse ms => set_clock (clock s + Z.of_N ms) s
  | RunFrame =>
      match frames s with
      | S n => processBatch (set_frames n s)
      | O => s
      end
  | RunSync =>
      match waiting (inflight s) with
      | (tabName, scrollY) :: _ =>
          let (s1, p) := worklet tabName scrollY s in
          set_inflight (settleOldest p (inflight s1)) s1
      | [] => s
      end
  | RunFinally =>
      match popFinished (inflight s) with
      | Some rest => finally (set_inflight rest s)
      | None => s
      end
  | CallRequestSync tabName scrollY => requestSync tabName scrollY s
  | CallDestroy => destroy s
  | HostSetScrolling b => set_isScrolling b s
  | HostSetRef tabName r => set_refMap (setRef tabName r (refMap s)) s
  end.

Definition run (es : list Event) (s : State) : State := foldl (fun s e => step e s) s es.

End TabSync.
End TabSync.

(** ** The hook [useLazyTabContent] *)

Module LazyTabContent.

(** [shouldRender.value], [hasRendered.current], and the value of [isActive]
    at the previous render ([None] before the first), against which React
    compares the dependencies of the effect. *)
Record State : Set := Build {
  shouldRender : bool;
  hasRendered : bool;
  deps : option bool
}.

Definition mount : State :=
  {| shouldRender := false; hasRendered := false; deps := None |}.

(** The body of the effect. *)
Definition effect (isActive : bool) (s : State) : State :=
  if isActive && negb (hasRendered s)
  then {| shouldRender := true; hasRendered := true; deps := deps s |}
  else s.

(** One render with the argument [isActive]: the returned [shouldRender] is
    computed during the render; the effect runs afterwards, on the first
    render and whenever [isActive] differs from the previous render (the
    other dependency, the shared value, never changes). *)
Definition render (isActive : bool) (s : State) : bool * State :=
  let result := shouldRender s || hasRendered s in
  let changed :=
    match deps s with
    | None => true
    | Some previous => negb (Bool.eqb previous isActive)
    end in
  let s1 := if changed then effect isActive s else s in
  (result, {| shouldRender := shouldRender s1; hasRendered := hasRendered s1;
              deps := Some isActive |}).

(** The values returned by successive renders. *)
Fixpoint renders (actives : list bool) (s : State) : list bool :=
  match actives with
  | [] => []
  | a :: rest => (render a s).1 :: renders rest (render a s).2
  end.

(** What the renders return when [seen] tells whether an earlier render was
    active: each render reports what was seen before it. *)
Fixpoint lagged (seen : bool) (actives : list bool) : list bool :=
  match actives with
  | [] => []
  | a :: rest => seen :: lagged (seen || a) rest
  end.

End LazyTabContent.

(** ** The hook [useTabMemoryOptimization] *)

Module TabMemory.
Section Hook.

(** The cached data has type [any]; the keys of the cache are indices. *)
Context {Data : Type}.

(** [visibleRange.current], [memoryCache], and the [activeTabIndex] and
    [totalTabs] of the previous render ([None] before the first). *)
Record State : Type := Build {
  visibleRange : Z * Z;
  memoryCache : gmap Z Data;
  deps : option (Z * Z)
}.

(** The refs as the first render creates them. *)
Definition mount (totalTabs : Z) : State :=
  {| visibleRange := (0, Z.min 2 (totalTabs - 1)); memoryCache := ∅; deps := None |}.

(** The test of the eviction loop: [index < newStart || index > newEnd]. *)
Definition outside (newStart newEnd index : Z) : bool :=
  (index <? newStart) || (newEnd <? index).

(** The body of the effect: the new range, then the loop that deletes every
    cached index outside it. *)
Definition effect (activeTabIndex totalTabs : Z) (s : State) : State :=
  let newStart := Z.max 0 (activeTabIndex - 1) in
  let newEnd := Z.min (totalTabs - 1) (activeTabIndex + 1) in
  {| visibleRange := (newStart, newEnd);
     memoryCache := filter (fun kv => outside newStart newEnd kv.1 = false) (memoryCache s);
     deps := deps s |}.

(** One render: the effect runs afterwards on the first render and whenever
    [activeTabIndex] or [totalTabs] changed. *)
Definition render (activeTabIndex totalTabs : Z) (s : State) : State :=
  let changed :=
    match deps s with
    | None => true
    | Some (a, t) => negb ((a =? activeTabIndex) && (t =? totalTabs))
    end in
  let s1 := if changed then effect activeTabIndex totalTabs s else s in
  {| visibleRange := visibleRange s1; memoryCache := memoryCache s1;
     deps := Some (activeTabIndex, totalTabs) |}.

Definition isInVisibleRange (index : Z) (s : State) : bool :=
  ((visibleRange s).1 <=? index) && (index <=? (visibleRange s).2).

Definition cacheData (index : Z) (data : Data) (s : State) : State :=
  {| visibleRange := visibleRange s;
     memoryCache := <[index := data]> (memoryCache s);
     deps := deps s |}.

Definition getCachedData (index : Z) (s : State) : option Data :=
  memoryCache s !! index.

Inductive Call : Type :=
| Render (activeTabIndex totalTabs : Z)
| CacheData (index : Z) (data : Data).

Definition call (c : Call) (s : State) : State :=
  match c with
  | Render a t => render a t s
  | CacheData i d => cacheData i d s
  end.

Definition run (cs : list Call) (s : State) : State := foldl (fun s c => call c s) s cs.

(** The range the effect computes for an active index and a tab count. *)
Definition rangeFor (activeTabIndex totalTabs : Z) : Z * Z :=
  (Z.max 0 (activeTabIndex - 1), Z.min (totalTabs - 1) (activeTabIndex + 1)).

(** After a render the range is the one of the arguments of that render. *)
Definition rangeFollows (s : State) : Prop :=
  match deps s with
  | Some (a, t) => visibleRange s = rangeFor a t
  | None => True
  end.

End Hook.
Arguments State : clear implicits.
Arguments Call : clear implicits.
End TabMemory.

(** * Properties *)

(** ** The insertion-ordered map *)

Module JsFacts.
Import Js.

Lemma eqb_string_refl (k : string) : String.eqb k k = true.
Proof. apply String.eqb_eq. reflexivity. Qed.

Lemma eqb_string_ne (k k' : string) : k ≠ k' → String.eqb k k' = false.
Proof. intros Hne. apply String.eqb_neq. exact Hne. Qed.

Lemma map_get_set_eq {V : Type} (k : string) (v : V) (m : list (string * V)) :
  map_get k (map_set k v m) = Some v.
Proof.
  induction m as [|[k' v'] m IH]; simpl.
  - rewrite eqb_string_refl. reflexivity.
  - destruct (String.eqb k k') eqn:E; simpl.
    + rewrite eqb_string_refl. reflexivity.
    + rewrite E. exact IH.
Qed.

Lemma map_get_set_ne {V : Type} (k k' : string) (v : V) (m : list (string * V)) :
  k ≠ k' → map_get k' (map_set k v m) = map_get k' m.
Proof.
  intros Hne. induction m as [|[k0 v0] m IH]; simpl.
  - rewrite (eqb_string_ne k' k) by congruence. reflexivity.
  - destruct (String.eqb k k0) eqn:E; simpl.
    + apply String.eqb_eq in E. subst k0.
      rewrite (eqb_string_ne k' k) by congruence. reflexivity.
    + destruct (String.eqb k' k0); [reflexivity | exact IH].
Qed.

Lemma map_set_keys {V : Type} (k : string) (v : V) (m : list (string * V)) :
  ∀ k', k' ∈ (map_set k v m).*1 ↔ k' = k ∨ k' ∈ m.*1.
Proof.
  induction m as [|[k0 v0] m IH]; intros k'; simpl.
  - set_solver.
  - destruct (String.eqb k k0) eqn:E; simpl.
    + apply String.eqb_eq in E. subst k0. rewrite !elem_of_cons. tauto.
    + rewrite !elem_of_cons, IH. tauto.
Qed.

Lemma map_set_functional {V : Type} (k : string) (v : V) (m : list (string * V)) :
  functional m → functional (map_set k v m).
Proof.
  unfold functional. induction m as [|[k0 v0] m IH]; simpl; intros Hnd.
  - apply NoDup_singleton.
  - apply NoDup_cons in Hnd as [Hnotin Hnd].
    destruct (String.eqb k k0) eqn:E; simpl.
    + apply String.eqb_eq in E. subst k0. apply NoDup_cons. split; assumption.
    + apply String.eqb_neq in E. apply NoDup_cons. split; [|auto].
      rewrite map_set_keys. intros [->|Hin]; [congruence | contradiction].
Qed.

Lemma entriesOf_absent {V : Type} (k : string) (m : list (string * V)) :
  k ∉ m.*1 → entriesOf k m = [].
Proof.
  induction m as [|[k0 v0] m IH]; simpl; intros Hnotin; [reflexivity|].
  apply not_elem_of_cons in Hnotin as [Hne Hnotin].
  unfold entriesOf in *. simpl.
  rewrite (eqb_string_ne k0 k) by congruence. auto.
Qed.

(** In a map, the entries of a key are exactly what [get] returns. *)
Lemma entriesOf_functional {V : Type} (k : string) (m : list (string * V)) :
  functional m → entriesOf k m = option_list (map_get k m).
Proof.
  unfold functional. induction m as [|[k0 v0] m IH]; simpl; intros Hnd; [reflexivity|].
  apply NoDup_cons in Hnd as [Hnotin Hnd].
  unfold entriesOf in *. simpl.
  destruct (String.eqb k k0) eqn:E.
  - apply String.eqb_eq in E. subst k0. rewrite eqb_string_refl. simpl.
    f_equal. apply (entriesOf_absent k m Hnotin).
  - apply String.eqb_neq in E. rewrite (eqb_string_ne k0 k) by congruence. auto.
Qed.

Lemma map_get_set_is_Some {V : Type} (k k' : string) (v : V) (m : list (string * V)) :
  is_Some (map_get k m) → is_Some (map_get k (map_set k' v m)).
Proof.
  intros Hk. destruct (decide (k' = k)) as [->|Hne].
  - rewrite map_get_set_eq. eauto.
  - rewrite map_get_set_ne by exact Hne. exact Hk.
Qed.

Lemma findIndex_from_shift {A : Type} (p : A → bool) (l : list A) (i : Z) :
  findIndex_from p l i = -1 ∨
  (i ≤ findIndex_from p l i < i + Z.of_nat (length l)).
Proof.
  revert i. induction l as [|x l IH]; intros i; simpl; [left; reflexivity|].
  destruct (p x); [right; lia|].
  destruct (IH (i + 1)) as [->|H]; [left; reflexivity | right; lia].
Qed.

(** [a / n > c] on the exact quotient is [a > c * n]. *)
Lemma gt_divide (a c : Z) (n : nat) :
  (0 < n)%nat → gt (divide a n) (inject_Z c) = (c * Z.of_nat n <? a).
Proof.
  intros Hn. unfold gt, divide.
  assert (Hpos : (0 < inject_Z (Z.of_nat n))%Q).
  { rewrite <- (Zlt_Qlt 0). lia. }
  destruct (Z.ltb_spec (c * Z.of_nat n) a) as [Hlt|Hle].
  - apply negb_true_iff. apply not_true_is_false. rewrite Qle_bool_iff.
    intros Hq. apply Qlt_not_le in Hq; [exact Hq|].
    apply Qlt_shift_div_l; [exact Hpos|].
    rewrite <- inject_Z_mult, <- Zlt_Qlt. exact Hlt.
  - apply negb_false_iff. rewrite Qle_bool_iff.
    apply Qle_shift_div_r; [exact Hpos|].
    rewrite <- inject_Z_mult, <- Zle_Qle. exact Hle.
Qed.

Lemma sum_app (l : list Z) (x : Z) : sum (l ++ [x]) = sum l + x.
Proof. unfold sum. rewrite fold_left_app. reflexivity. Qed.

End JsFacts.

(** ** The virtualization window *)

Module VirtualizedTabManagerFacts.
Import VirtualizedTabManager.

Section Facts.
Context {Data : Type}.
Implicit Types (m : t Data) (cache : gmap string Data).

Lemma elem_of_collect_foldl (tabNames : list string) (l : list Z) (acc : gset string)
    (tab : string) :
  tab ∈ foldl (fun acc i =>
                 match Js.index tabNames i with
                 | Some name => acc ∪ {[ name ]}
                 | None => acc
                 end) acc l
  ↔ tab ∈ acc ∨ ∃ j, j ∈ l ∧ Js.index tabNames j = Some tab.
Proof.
  revert acc. induction l as [|i l IH]; intros acc; simpl.
  - split; [auto|]. intros [H|(j & Hj & _)]; [exact H|]. inversion Hj.
  - rewrite IH. split.
    + intros [Hacc|(j & Hj & Hidx)].
      * destruct (Js.index tabNames i) as [name|] eqn:E; [|auto].
        apply elem_of_union in Hacc as [Hacc|Hs]; [auto|].
        apply elem_of_singleton in Hs. subst name.
        right. exists i. split; [left|exact E].
      * right. exists j. split; [right; exact Hj|exact Hidx].
    + intros [Hacc|(j & Hj & Hidx)].
      * left. destruct (Js.index tabNames i); [apply elem_of_union; auto|exact Hacc].
      * apply elem_of_cons in Hj as [->|Hj].
        -- left. rewrite Hidx. apply elem_of_union. right. apply elem_of_singleton. reflexivity.
        -- right. exists j. auto.
Qed.

(** The new visible set holds the names at the indices from [start] to [stop]. *)
Lemma elem_of_collect (tabNames : list string) (start stop : Z) (tab : string) :
  tab ∈ collect tabNames start stop
  ↔ ∃ j, start ≤ j ≤ stop ∧ Js.index tabNames j = Some tab.
Proof.
  unfold collect. rewrite elem_of_collect_foldl. split.
  - intros [H|(j & Hj & Hidx)]; [apply not_elem_of_empty in H; contradiction|].
    apply elem_of_seqZ in Hj. exists j. split; [lia|exact Hidx].
  - intros (j & Hj & Hidx). right. exists j. split; [|exact Hidx].
    apply elem_of_seqZ. lia.
Qed.

(** The loop of [updateVisibility] never reads outside the array. *)
Lemma window_indices_in_range (ws currentIndex : Z) (tabNames : list string) (j : Z) :
  let start := windowStart ws currentIndex in
  let stop := windowEnd ws (length tabNames) start in
  start ≤ j ≤ stop → is_Some (Js.index tabNames j).
Proof.
  intros start stop Hj. unfold start, stop, windowStart, windowEnd in Hj.
  unfold Js.index.
  destruct (Z.ltb_spec j 0) as [Hneg|Hpos]; [lia|].
  apply lookup_lt_is_Some. lia.
Qed.

Lemma lookup_evict (newVisible : gset string) (old : list string) cache (k : string) :
  evict newVisible old cache !! k
  = if decide (k ∈ old ∧ k ∉ newVisible) then None else cache !! k.
Proof.
  unfold evict. revert cache. induction old as [|a old IH]; intros cache; cbn [foldl].
  - case_decide as H; [|reflexivity]. destruct H as [Hin _]. inversion Hin.
  - rewrite IH. destruct (decide (a ∈ newVisible)) as [Ha|Ha].
    + repeat case_decide; try reflexivity; exfalso;
        rewrite elem_of_cons in *; intuition (subst; auto; congruence).
    + destruct (decide (k = a)) as [->|Hka].
      * rewrite lookup_delete_eq.
        repeat case_decide; try reflexivity; exfalso;
          rewrite elem_of_cons in *; intuition (subst; auto; congruence).
      * rewrite lookup_delete_ne by congruence.
        repeat case_decide; try reflexivity; exfalso;
          rewrite elem_of_cons in *; intuition (subst; auto; congruence).
Qed.

Lemma contained_create (ws : option Z) : contained (create (Data := Data) ws).
Proof. unfold contained, create. simpl. rewrite dom_empty_L. apply empty_subseteq. Qed.

Lemma contained_call (c : Call Data) m : contained m → contained (call c m).
Proof.
  unfold contained. intros Hm. destruct c as [i names|name data|]; simpl.
  - intros k Hk. apply elem_of_dom in Hk as [d Hd].
    rewrite lookup_evict in Hd.
    case_decide as Hn; [discriminate|].
    assert (Hvis : k ∈ visibleTabs m).
    { apply Hm. apply elem_of_dom. exists d. exact Hd. }
    destruct (decide (k ∈ collect names
                (windowStart (windowSize m) i)
                (windowEnd (windowSize m) (length names) (windowStart (windowSize m) i))))
      as [Hin|Hout]; [exact Hin|].
    exfalso. apply Hn. split; [apply elem_of_elements; exact Hvis|exact Hout].
  - unfold cacheTab, isVisible. destruct (bool_decide_reflect (name ∈ visibleTabs m)) as [Hv|Hv];
      simpl; [|exact Hm].
    rewrite dom_insert_L. intros k Hk. apply elem_of_union in Hk as [Hk|Hk]; [|auto].
    apply elem_of_singleton in Hk. subst k. exact Hv.
  - rewrite dom_empty_L. apply empty_subseteq.
Qed.

Lemma contained_run (cs : list (Call Data)) m : contained m → contained (run cs m).
Proof.
  unfold run. revert m. induction cs as [|c cs IH]; intros m Hm; simpl; [exact Hm|].
  apply IH. apply contained_call. exact Hm.
Qed.

Lemma getCache_hidden m (tab : string) :
  contained m → isVisible tab m = false → getCache tab m = None.
Proof.
  unfold contained, isVisible, getCache. intros Hm Hv.
  apply bool_decide_eq_false in Hv. apply not_elem_of_dom. intros Hk. apply Hv, Hm, Hk.
Qed.

(** C10. After any sequence of [updateVisibility], [cacheTab] and [destroy]
    calls on a fresh manager, every key of the tab cache is in the visible
    set; [cacheTab] on a tab outside the visible set changes nothing, and
    [getCache] of such a tab returns nothing. *)
Theorem cache_contained_in_visible (ws : option Z) (cs : list (Call Data)) :
  let m := run cs (create ws) in
  dom (tabCache m) ⊆ visibleTabs m
  ∧ ∀ tab, isVisible tab m = false →
      (∀ data, cacheTab tab data m = m) ∧ getCache tab m = None.
Proof.
  intros m.
  assert (Hm : contained m) by (apply contained_run, contained_create).
  split; [exact Hm|].
  intros tab Hv. split.
  - intros data. unfold cacheTab. rewrite Hv. reflexivity.
  - apply getCache_hidden; assumption.
Qed.

(** C8, as the code has it.  [updateVisibility] makes visible the tabs at the
    indices from [start = max(0, focused - floor(windowSize / 2))] to
    [end = min(length - 1, start + windowSize - 1)], all inside the array.
    When every cached tab was visible before, the cache of a tab outside the
    new range is evicted and the cache of a tab inside it is unchanged.  With
    window size 3 and tabs A..E, focusing C makes B, C, D visible, keeps
    their cache and leaves none for A and E. *)
Theorem updateVisibility_window m (focused : Z) (tabNames : list string) :
  dom (tabCache m) ⊆ visibleTabs m →
  let start := windowStart (windowSize m) focused in
  let stop := windowEnd (windowSize m) (length tabNames) start in
  let m' := updateVisibility focused tabNames m in
  (∀ tab, isVisible tab m' = true
          ↔ ∃ j, start ≤ j ≤ stop ∧ Js.index tabNames j = Some tab)
  ∧ (∀ j, start ≤ j ≤ stop → 0 ≤ j < Z.of_nat (length tabNames))
  ∧ (∀ tab, isVisible tab m' = false → getCache tab m' = None)
  ∧ (∀ tab, isVisible tab m' = true → getCache tab m' = getCache tab m)
  ∧ (windowSize m = 3 → focused = 2 → tabNames = tabsAE →
     visibleTabs m' = {[ "B"; "C"; "D" ]}%string
     ∧ getCache "A"%string m' = None ∧ getCache "E"%string m' = None
     ∧ getCache "B"%string m' = getCache "B"%string m
     ∧ getCache "C"%string m' = getCache "C"%string m
     ∧ getCache "D"%string m' = getCache "D"%string m).
Proof.
  intros Hm start stop m'.
  assert (Hvis : ∀ tab, isVisible tab m' = true
                 ↔ ∃ j, start ≤ j ≤ stop ∧ Js.index tabNames j = Some tab).
  { intros tab. unfold isVisible, m', updateVisibility. simpl.
    rewrite bool_decide_eq_true. apply elem_of_collect. }
  assert (Hout : ∀ tab, isVisible tab m' = false → getCache tab m' = None).
  { intros tab Hv. apply getCache_hidden; [|exact Hv].
    apply (contained_call (UpdateVisibility focused tabNames) m Hm). }
  assert (Hin : ∀ tab, isVisible tab m' = true → getCache tab m' = getCache tab m).
  { intros tab Hv. unfold getCache, m', updateVisibility. simpl.
    rewrite lookup_evict. case_decide as Hn; [|reflexivity].
    destruct Hn as [_ Hn]. exfalso. apply Hn. unfold isVisible, m', updateVisibility in Hv. simpl in Hv.
    apply bool_decide_eq_true in Hv. exact Hv. }
  split; [exact Hvis|]. split; [|split; [exact Hout|split; [exact Hin|]]].
  - intros j Hj. unfold start, stop, windowStart, windowEnd in Hj. lia.
  - intros Hws Hf Hnames.
    assert (Hset : visibleTabs m' = {[ "B"; "C"; "D" ]}%string).
    { unfold m', updateVisibility. simpl. rewrite Hws, Hf, Hnames. vm_compute. reflexivity. }
    split; [exact Hset|].
    assert (Hno : ∀ tab, tab ∉ ({[ "B"; "C"; "D" ]}%string : gset string) →
                          getCache tab m' = None).
    { intros tab Hn. apply Hout. unfold isVisible. rewrite Hset.
      apply bool_decide_eq_false. exact Hn. }
    assert (Hyes : ∀ tab, tab ∈ ({[ "B"; "C"; "D" ]}%string : gset string) →
                          getCache tab m' = getCache tab m).
    { intros tab Hy. apply Hin. unfold isVisible. rewrite Hset.
      apply bool_decide_eq_true. exact Hy. }
    repeat split; first [apply Hno | apply Hyes]; vm_compute; congruence.
Qed.

End Facts.

(** Witness of [updateVisibility_window]: a manager in which A, B and C are
    cached, then focus moves to C. *)
Lemma updateVisibility_window_witness :
  let m := run [UpdateVisibility 1 tabsAE; CacheTab "A" 1%nat; CacheTab "B" 2%nat;
                CacheTab "C" 3%nat]%string (create None) in
  dom (tabCache m) ⊆ visibleTabs m
  ∧ getCache "A"%string (updateVisibility 2 tabsAE m) = None
  ∧ getCache "B"%string (updateVisibility 2 tabsAE m) = Some 2%nat.
Proof.
  intros m.
  assert (Hm : dom (tabCache m) ⊆ visibleTabs m).
  { apply (bool_decide_unpack _). vm_compute. exact I. }
  split; [exact Hm|].
  destruct (updateVisibility_window m 2 tabsAE Hm) as (_ & _ & _ & _ & Hex).
  destruct (Hex eq_refl eq_refl eq_refl) as (_ & HA & _ & HB & _).
  split; [exact HA|]. rewrite HB. reflexivity.
Defined.

(** Witness of [cache_contained_in_visible]: with B, C, D visible, caching E
    changes nothing and E has no cache. *)
Lemma cache_contained_in_visible_witness :
  let m := run [UpdateVisibility 2 tabsAE; CacheTab "C" 3%nat]%string (create None) in
  isVisible "E"%string m = false
  ∧ cacheTab "E"%string 5%nat m = m
  ∧ getCache "E"%string m = None
  ∧ getCache "C"%string m = Some 3%nat.
Proof.
  intros m. split; [reflexivity|].
  destruct (cache_contained_in_visible None
              [UpdateVisibility 2 tabsAE; CacheTab "C" 3%nat]%string) as [_ Hout].
  destruct (Hout "E"%string eq_refl) as [Hnoop Hnone].
  split; [apply Hnoop|]. split; [exact Hnone|reflexivity].
Defined.

(** C8 as stated fails at both ends of the tab list.  Focusing A (index 0)
    the code keeps the window [0, 2], so C, outside the range [0, 1] centred on
    A and cut at the bounds, stays visible and keeps its cache.  Focusing E
    (index 4) the code keeps the window [3, 4], so C, inside the range [2, 4]
    of width 3 slid back inside the array, loses its cache. *)
Lemma window_is_not_centred_and_clamped :
  let atA := run [UpdateVisibility 1 tabsAE; CacheTab "C" 7%nat; UpdateVisibility 0 tabsAE]%string
                 (create (Some 3)) in
  let atE := run [UpdateVisibility 3 tabsAE; CacheTab "C" 7%nat; UpdateVisibility 4 tabsAE]%string
                 (create (Some 3)) in
  (centredCut 3 5 0 = (0, 1)
   ∧ (windowStart 3 0, windowEnd 3 5 (windowStart 3 0)) = (0, 2)
   ∧ isVisible "C"%string atA = true ∧ getCache "C"%string atA = Some 7%nat)
  ∧ (centredSlide 3 5 4 = (2, 4)
     ∧ (windowStart 3 4, windowEnd 3 5 (windowStart 3 4)) = (3, 4)
     ∧ isVisible "C"%string atE = false ∧ getCache "C"%string atE = None).
Proof. vm_compute. repeat split. Qed.

End VirtualizedTabManagerFacts.

(** ** The sample buffer and the strategy *)

Module MonitorFacts.
Import Js JsFacts.

Lemma mostRecent_length {A : Type} (n : nat) (l : list A) :
  length (mostRecent n l) = min n (length l).
Proof. unfold mostRecent. rewrite length_drop. lia. Qed.

(** Pushing a sample on the retained ones and shifting on overflow retains
    the most recent ten of all samples. *)
Lemma push_shift_mostRecent {A : Type} (all : list A) (x : A) :
  let pushed := push (mostRecent 10 all) x in
  (if (10 <? length pushed)%nat then shift pushed else pushed)
  = mostRecent 10 (all ++ [x]).
Proof.
  intros pushed. unfold pushed, push, shift, mostRecent.
  rewrite !length_app, length_drop. simpl.
  destruct (Nat.ltb_spec 10 (length all - (length all - 10) + 1)) as [Hlt|Hge].
  - assert (Hlen : (10 ≤ length all)%nat) by lia.
    replace (length all + 1 - 10)%nat with (S (length all - 10)) by lia.
    rewrite (drop_app_le all [x] (S (length all - 10))) by lia.
    destruct (drop (length all - 10) all) as [|y rest] eqn:E.
    + apply (f_equal length) in E. rewrite length_drop in E. simpl in E. lia.
    + simpl. f_equal.
      change rest with (drop 1 (y :: rest)). rewrite <- E, drop_drop.
      f_equal. lia.
  - replace (length all - 10)%nat with 0%nat by lia.
    replace (length all + 1 - 10)%nat with 0%nat by lia.
    reflexivity.
Qed.

Lemma strategyOfAverage_strategyFor (kept : list Z) :
  (3 ≤ length kept)%nat → Hook.strategyOfAverage kept = strategyFor kept.
Proof.
  intros Hlen. unfold Hook.strategyOfAverage, strategyFor.
  destruct (Nat.ltb_spec (length kept) 3) as [Hlt|_]; [lia|].
  change 100%Q with (inject_Z 100). change 50%Q with (inject_Z 50).
  rewrite !gt_divide by lia. reflexivity.
Qed.

Lemma total_sum (ms : list PerformanceMonitor.Metric) :
  PerformanceMonitor.total ms = sum (PerformanceMonitor.duration <$> ms).
Proof.
  unfold PerformanceMonitor.total, sum. generalize 0.
  induction ms as [|m ms IH]; intros acc; simpl; [reflexivity|apply IH].
Qed.

Lemma getOptimalStrategy_strategyFor (m : PerformanceMonitor.t) :
  PerformanceMonitor.getOptimalStrategy m
  = strategyFor (PerformanceMonitor.duration <$> PerformanceMonitor.metrics m).
Proof.
  unfold PerformanceMonitor.getOptimalStrategy, strategyFor.
  rewrite length_fmap, total_sum.
  destruct (Nat.ltb_spec (length (PerformanceMonitor.metrics m)) 3) as [Hlt|Hge];
    [reflexivity|].
  change 100%Q with (inject_Z 100). change 50%Q with (inject_Z 50).
  rewrite !gt_divide by lia. reflexivity.
Qed.

(** The class keeps the most recent ten samples. *)
Lemma monitor_feed_metrics (switches : list (Z * Z)) :
  PerformanceMonitor.metrics (PerformanceMonitor.feed switches PerformanceMonitor.create).1
  = mostRecent 10 (PerformanceMonitor.sample <$> switches).
Proof.
  unfold PerformanceMonitor.feed.
  induction switches as [|sw switches IH] using rev_ind; [reflexivity|].
  rewrite foldl_snoc, fmap_app. cbn [fmap list_fmap].
  unfold PerformanceMonitor.recordTabSwitch at 1. cbn [fst PerformanceMonitor.metrics].
  rewrite IH. apply push_shift_mostRecent.
Qed.

Lemma monitor_feed_strategy (switches : list (Z * Z)) :
  let r := PerformanceMonitor.feed switches PerformanceMonitor.create in
  r.2 = PerformanceMonitor.getOptimalStrategy r.1.
Proof.
  unfold PerformanceMonitor.feed.
  destruct switches as [|sw switches _] using rev_ind; [reflexivity|].
  rewrite foldl_snoc. reflexivity.
Qed.

(** The hook does the same from any state that retains the most recent ten. *)
Lemma hook_recordTabSwitch_switchTimes (all : list Z) (d : Z) (s : Hook.State) :
  Hook.switchTimes s = mostRecent 10 all →
  Hook.switchTimes (Hook.recordTabSwitch d s) = mostRecent 10 (all ++ [d]).
Proof.
  intros Hs. unfold Hook.recordTabSwitch. rewrite Hs.
  rewrite (push_shift_mostRecent all d).
  destruct (3 <=? length (mostRecent 10 (all ++ [d])))%nat; reflexivity.
Qed.

Lemma hook_feed_switchTimes (ds : list Z) (s : Hook.State) :
  Hook.switchTimes s = [] →
  Hook.switchTimes (Hook.feed ds s) = mostRecent 10 ds.
Proof.
  intros Hs. unfold Hook.feed.
  induction ds as [|d ds IH] using rev_ind; [exact Hs|].
  rewrite foldl_snoc. apply hook_recordTabSwitch_switchTimes. exact IH.
Qed.

Lemma hook_recordTabSwitch_follows (d : Z) (s : Hook.State) :
  Hook.strategyFollows s → Hook.strategyFollows (Hook.recordTabSwitch d s).
Proof.
  intros [Hstrat Hlen]. unfold Hook.strategyFollows, Hook.recordTabSwitch.
  set (pushed := push (Hook.switchTimes s) d).
  set (kept := if (10 <? length pushed)%nat then shift pushed else pushed).
  assert (Hpushed : length pushed = S (length (Hook.switchTimes s))).
  { unfold pushed, push. rewrite length_app. simpl. lia. }
  assert (Hkept : (length (Hook.switchTimes s) ≤ length kept ≤ 10)%nat).
  { unfold kept. destruct (Nat.ltb_spec 10 (length pushed)) as [Hlt|Hge]; [|lia].
    unfold shift. destruct pushed; simpl in *; lia. }
  destruct (Nat.leb_spec 3 (length kept)) as [H3|H3]; simpl.
  - split; [apply strategyOfAverage_strategyFor; exact H3 | lia].
  - split; [|lia]. rewrite Hstrat. unfold strategyFor.
    destruct (Nat.ltb_spec (length (Hook.switchTimes s)) 3) as [_|Hge]; [|lia].
    destruct (Nat.ltb_spec (length kept) 3) as [_|Hge]; [reflexivity|lia].
Qed.

Lemma hook_feed_follows (ds : list Z) (s : Hook.State) :
  Hook.strategyFollows s → Hook.strategyFollows (Hook.feed ds s).
Proof.
  unfold Hook.feed. revert s. induction ds as [|d ds IH]; intros s Hs; simpl; [exact Hs|].
  apply IH, hook_recordTabSwitch_follows, Hs.
Qed.

Lemma strategyFollows_init (refs : gmap string bool) (scrolling : bool) (now : Z) :
  Hook.strategyFollows (Hook.init refs scrolling now).
Proof. split; simpl; [reflexivity|lia]. Qed.

Lemma hook_recordTabSwitch_bounded (d : Z) (s : Hook.State) :
  (length (Hook.switchTimes s) ≤ 10)%nat →
  (length (Hook.switchTimes (Hook.recordTabSwitch d s)) ≤ 10)%nat.
Proof.
  intros Hlen. unfold Hook.recordTabSwitch.
  set (pushed := push (Hook.switchTimes s) d).
  set (kept := if (10 <? length pushed)%nat then shift pushed else pushed).
  assert (Hpushed : length pushed = S (length (Hook.switchTimes s))).
  { unfold pushed, push. rewrite length_app. simpl. lia. }
  assert (Hkept : (length kept ≤ 10)%nat).
  { unfold kept. destruct (Nat.ltb_spec 10 (length pushed)) as [Hlt|Hge]; [|lia].
    unfold shift. destruct pushed; simpl in *; lia. }
  destruct (3 <=? length kept)%nat; exact Hkept.
Qed.

Lemma hook_processBatch_switchTimes (s : Hook.State) :
  Hook.switchTimes (Hook.processBatch s) = Hook.switchTimes s.
Proof.
  unfold Hook.processBatch.
  destruct (Hook.isScrolling s || (length (Hook.syncQueue s) =? 0)%nat || Hook.isProcessing s);
    reflexivity.
Qed.

(** Every event of the hook keeps the buffer within ten samples. *)
Lemma hook_step_bounded (contentInset : Z) (tabNames : list string)
    (e : Hook.Event) (s : Hook.State) :
  (length (Hook.switchTimes s) ≤ 10)%nat →
  (length (Hook.switchTimes (Hook.step contentInset tabNames e s)) ≤ 10)%nat.
Proof.
  intros Hlen. destruct e as [ms|i| |tab y|idx c|b|tab r| ]; cbn [Hook.step]; try exact Hlen.
  - destruct (Hook.timers s !! i) as [t|]; [|exact Hlen].
    destruct (Hook.due t <=? Hook.clock s); [|exact Hlen].
    destruct (Hook.callback t) as [|start]; cbn [Hook.fire].
    + rewrite hook_processBatch_switchTimes. exact Hlen.
    + apply hook_recordTabSwitch_bounded. exact Hlen.
  - destruct (Hook.interactions s); exact Hlen.
  - unfold Hook.requestSync.
    destruct (1 <? _); [exact Hlen|].
    destruct (_ <=? _); [|exact Hlen].
    rewrite hook_processBatch_switchTimes. exact Hlen.
  - unfold Hook.smartTabSwitch. destruct c; exact Hlen.
  - simpl. lia.
Qed.

Lemma hook_run_bounded (contentInset : Z) (tabNames : list string)
    (es : list Hook.Event) (s : Hook.State) :
  (length (Hook.switchTimes s) ≤ 10)%nat →
  (length (Hook.switchTimes (Hook.run contentInset tabNames es s)) ≤ 10)%nat.
Proof.
  unfold Hook.run. revert s. induction es as [|e es IH]; intros s Hs; simpl; [exact Hs|].
  apply IH, hook_step_bounded, Hs.
Qed.

Lemma hook_processBatch_follows (s : Hook.State) :
  Hook.strategyFollows s → Hook.strategyFollows (Hook.processBatch s).
Proof.
  unfold Hook.processBatch.
  destruct (Hook.isScrolling s || (length (Hook.syncQueue s) =? 0)%nat || Hook.isProcessing s);
    intros Hs; exact Hs.
Qed.

(** While the hook is mounted, every event keeps the strategy the function
    of the samples. *)
Lemma hook_step_follows (contentInset : Z) (tabNames : list string)
    (e : Hook.Event) (s : Hook.State) :
  Hook.isLiveEvent e = true →
  Hook.strategyFollows s → Hook.strategyFollows (Hook.step contentInset tabNames e s).
Proof.
  intros He Hs. destruct e as [ms|i| |tab y|idx c|b|tab r| ]; try discriminate;
    cbn [Hook.step]; try exact Hs.
  - destruct (Hook.timers s !! i) as [t|]; [|exact Hs].
    destruct (Hook.due t <=? Hook.clock s); [|exact Hs].
    destruct (Hook.callback t) as [|start]; cbn [Hook.fire].
    + apply hook_processBatch_follows. exact Hs.
    + apply hook_recordTabSwitch_follows. exact Hs.
  - destruct (Hook.interactions s); exact Hs.
  - unfold Hook.requestSync.
    destruct (1 <? _); [exact Hs|].
    destruct (_ <=? _); [|exact Hs].
    apply hook_processBatch_follows. exact Hs.
  - unfold Hook.smartTabSwitch. destruct c; exact Hs.
Qed.

Lemma hook_run_follows (contentInset : Z) (tabNames : list string)
    (es : list Hook.Event) (s : Hook.State) :
  forallb Hook.isLiveEvent es = true →
  Hook.strategyFollows s → Hook.strategyFollows (Hook.run contentInset tabNames es s).
Proof.
  unfold Hook.run. revert s.
  induction es as [|e es IH]; intros s Hes Hs; simpl in *; [exact Hs|].
  apply andb_prop in Hes as [He Hes]. apply IH; [exact Hes|].
  apply hook_step_follows; assumption.
Qed.

(** C9. The sample buffer never holds more than ten entries, and after any
    sequence of recordings it holds exactly the most recent [min 10 total]
    samples in order: in the class [PerformanceMonitor], in the hook fed with
    durations, and (the bound) after any run of the hook's event loop. *)
Theorem sample_buffer_bounded :
  (∀ switches : list (Z * Z),
     let m := (PerformanceMonitor.feed switches PerformanceMonitor.create).1 in
     PerformanceMonitor.metrics m = mostRecent 10 (PerformanceMonitor.sample <$> switches)
     ∧ length (PerformanceMonitor.metrics m) = min 10 (length switches))
  ∧ (∀ refs scrolling now (ds : list Z),
       let s := Hook.feed ds (Hook.init refs scrolling now) in
       Hook.switchTimes s = mostRecent 10 ds
       ∧ length (Hook.switchTimes s) = min 10 (length ds))
  ∧ (∀ contentInset tabNames refs scrolling now (es : list Hook.Event),
       (length (Hook.switchTimes
                  (Hook.run contentInset tabNames es (Hook.init refs scrolling now))) ≤ 10)%nat).
Proof.
  split; [|split].
  - intros switches m. unfold m. rewrite monitor_feed_metrics.
    split; [reflexivity|]. rewrite mostRecent_length, length_fmap. reflexivity.
  - intros refs scrolling now ds s. unfold s.
    rewrite hook_feed_switchTimes by reflexivity.
    split; [reflexivity|apply mostRecent_length].
  - intros. apply hook_run_bounded. simpl. lia.
Qed.

(** C7. Recording a switch appends its duration to the buffer (keeping the
    most recent ten) and leaves the strategy a function of the buffer:
    [normal] below three samples, else [aggressive] when the mean exceeds
    100, [moderate] when it exceeds 50, else [normal].  This holds in the
    class, in the hook fed with durations, and in every state the mounted
    hook reaches.  Durations 20, 30, 25 give [normal]; 120, 130, 110 give
    [aggressive]. *)
Theorem strategy_derivation :
  (∀ (switches : list (Z * Z)) (sw : Z * Z),
     let before := (PerformanceMonitor.feed switches PerformanceMonitor.create).1 in
     let r := PerformanceMonitor.recordTabSwitch sw.1 sw.2 before in
     PerformanceMonitor.metrics r.1
     = mostRecent 10 ((PerformanceMonitor.sample <$> switches) ++ [PerformanceMonitor.sample sw])
     ∧ r.2 = strategyFor (PerformanceMonitor.duration <$> PerformanceMonitor.metrics r.1))
  ∧ (∀ refs scrolling now (ds : list Z) (d : Z),
       let before := Hook.feed ds (Hook.init refs scrolling now) in
       let s := Hook.recordTabSwitch d before in
       Hook.switchTimes s = mostRecent 10 (ds ++ [d])
       ∧ Hook.performanceStrategy s = strategyFor (Hook.switchTimes s))
  ∧ (∀ contentInset tabNames refs scrolling now (es : list Hook.Event),
       forallb Hook.isLiveEvent es = true →
       let s := Hook.run contentInset tabNames es (Hook.init refs scrolling now) in
       Hook.performanceStrategy s = strategyFor (Hook.switchTimes s))
  ∧ (PerformanceMonitor.feed [(20, 0); (30, 0); (25, 0)] PerformanceMonitor.create).2 = normal
  ∧ (PerformanceMonitor.feed [(120, 0); (130, 0); (110, 0)] PerformanceMonitor.create).2 = aggressive
  ∧ (∀ refs scrolling now,
       Hook.performanceStrategy (Hook.feed [20; 30; 25] (Hook.init refs scrolling now)) = normal
       ∧ Hook.performanceStrategy (Hook.feed [120; 130; 110] (Hook.init refs scrolling now))
         = aggressive).
Proof.
  split; [|split; [|split; [|split; [|split]]]].
  - intros switches sw before r. split.
    + pose proof (monitor_feed_metrics (switches ++ [sw])) as H.
      unfold PerformanceMonitor.feed in H. rewrite foldl_snoc, fmap_app in H. exact H.
    + unfold r, PerformanceMonitor.recordTabSwitch. cbn [fst snd].
      apply getOptimalStrategy_strategyFor.
  - intros refs scrolling now ds d before s. split.
    + apply hook_recordTabSwitch_switchTimes, hook_feed_switchTimes. reflexivity.
    + apply hook_recordTabSwitch_follows, hook_feed_follows, strategyFollows_init.
  - intros contentInset tabNames refs scrolling now es Hes s.
    apply (hook_run_follows contentInset tabNames es _ Hes), strategyFollows_init.
  - vm_compute. reflexivity.
  - vm_compute. reflexivity.
  - intros refs scrolling now. split; vm_compute; reflexivity.
Qed.

(** Witness of [strategy_derivation]: three switches of 60 ms measured by the
    mounted hook put it in the moderate strategy. *)
Lemma strategy_derivation_witness :
  let es := [Hook.CallSmartTabSwitch 1 true; Hook.Elapse 60; Hook.FireTimer 0;
             Hook.CallSmartTabSwitch 2 true; Hook.Elapse 60; Hook.FireTimer 0;
             Hook.CallSmartTabSwitch 1 true; Hook.Elapse 60; Hook.FireTimer 0] in
  let s := Hook.run 0 tabs123 es (Hook.init refs123 false 1000) in
  forallb Hook.isLiveEvent es = true
  ∧ Hook.switchTimes s = [60; 60; 60]
  ∧ Hook.performanceStrategy s = strategyFor (Hook.switchTimes s).
Proof.
  intros es s. split; [reflexivity|]. split; [reflexivity|].
  destruct strategy_derivation as (_ & _ & Hrun & _).
  apply (Hrun 0 tabs123 refs123 false 1000 es). reflexivity.
Defined.

End MonitorFacts.

(** ** The lazy mount controller *)

Module LazyFacts.
Import Lazy.

Section Facts.
Context (name : string) (cancelLazyFadeIn : bool) (mountDelayMs : Z).

Abbreviation step := (step name cancelLazyFadeIn mountDelayMs).
Abbreviation run := (run name cancelLazyFadeIn mountDelayMs).

(** Case analysis on every test a step makes. *)
Ltac split_tests :=
  repeat (cbn in *; try assumption; try reflexivity;
          match goal with
          | |- context [if ?c then _ else _] => destruct c eqn:?
          | |- context [match ?x with _ => _ end] => destruct x eqn:?
          end).

(** No step of the component resets [canMount]. *)
Lemma step_canMount (e : Event) (s : State) :
  canMount s = true → canMount (step e s) = true.
Proof.
  intros Hc. destruct e; unfold Lazy.step, focusReaction, startMountedEffect,
    mountTimerFired, layoutReaction; split_tests.
Qed.

(** Nor does any step take the opacity away from 1. *)
Lemma step_opaque (e : Event) (s : State) :
  opacity s = Opaque → opacity (step e s) = Opaque.
Proof.
  intros Ho. destruct e; unfold Lazy.step, focusReaction, startMountedEffect,
    mountTimerFired, layoutReaction; split_tests;
    repeat match goal with H : context [opacity s] |- _ => rewrite Ho in H end;
    cbn in *; rewrite ?andb_false_r in *; congruence.
Qed.

Lemma run_canMount (es : list Event) (s : State) :
  canMount s = true → canMount (run es s) = true.
Proof.
  unfold Lazy.run. revert s. induction es as [|e es IH]; intros s Hc; simpl; [exact Hc|].
  apply IH, step_canMount, Hc.
Qed.

Lemma run_opaque (es : list Event) (s : State) :
  opacity s = Opaque → opacity (run es s) = Opaque.
Proof.
  unfold Lazy.run. revert s. induction es as [|e es IH]; intros s Ho; simpl; [exact Ho|].
  apply IH, step_opaque, Ho.
Qed.

Lemma mountState_visible (s : State) :
  mountState s = Visible ↔ canMount s = true ∧ opacity s = Opaque.
Proof.
  unfold mountState. destruct (canMount s), (opacity s), (timers s); split;
    intros H; try discriminate; try (destruct H; discriminate); auto.
Qed.

(** C6. Once [canMount] is true, no sequence of focus changes, [startMounted]
    prop changes, timers, layouts or the unmount of the instance makes it
    false again: the tab is never [Unmounted] or [Scheduled] afterwards, and
    a [Visible] tab stays [Visible]. *)
Theorem visible_is_sticky (es : list Event) (s : State) :
  canMount s = true →
  canMount (run es s) = true
  ∧ mountState (run es s) ≠ Unmounted
  ∧ mountState (run es s) ≠ Scheduled
  ∧ (mountState s = Visible → mountState (run es s) = Visible).
Proof.
  intros Hc. pose proof (run_canMount es s Hc) as Hc'.
  split; [exact Hc'|].
  split; [|split].
  - unfold mountState. rewrite Hc'. destruct (opacity _); discriminate.
  - unfold mountState. rewrite Hc'. destruct (opacity _); discriminate.
  - intros Hv. apply mountState_visible in Hv as [_ Ho].
    apply mountState_visible. split; [exact Hc'|apply run_opaque, Ho].
Qed.

Lemma step_capturesOwnName (e : Event) (s : State) :
  capturesOwnName name s → capturesOwnName name (step e s).
Proof.
  unfold capturesOwnName. intros Ht.
  destruct e; unfold Lazy.step, focusReaction, startMountedEffect, startMountTimer,
    mountTimerFired, layoutReaction; split_tests;
    try (apply Forall_delete; exact Ht).
  apply Forall_app. split; [exact Ht|]. apply Forall_singleton. cbn.
  repeat match goal with H : _ && _ = true |- _ => apply andb_prop in H as [? ?] end.
  apply String.eqb_eq. assumption.
Qed.

Lemma mount_capturesOwnName (focused0 : string) (startMounted0 : option bool) (now : Z) :
  capturesOwnName name (mount name cancelLazyFadeIn mountDelayMs focused0 startMounted0 now).
Proof.
  unfold capturesOwnName, mount, layoutReaction, focusReaction, startMountedEffect,
    startMountTimer.
  destruct startMounted0 as [[|]|], (String.eqb focused0 name) eqn:E, cancelLazyFadeIn;
    cbn; rewrite ?E; cbn; try apply Forall_nil_2.
  apply Forall_singleton. cbn. apply String.eqb_eq, E.
Qed.

Lemma run_capturesOwnName (es : list Event) (s : State) :
  capturesOwnName name s → capturesOwnName name (run es s).
Proof.
  unfold Lazy.run. revert s. induction es as [|e es IH]; intros s Hs; simpl; [exact Hs|].
  apply IH, step_capturesOwnName, Hs.
Qed.

(** Whatever has happened since the instance was mounted, a due timer of a
    live instance mounts the tab, whichever tab is focused when it fires. *)
Lemma due_timer_mounts (focused0 : string) (startMounted0 : option bool) (now : Z)
    (es : list Event) (i : nat) :
  let s := run es (mount name cancelLazyFadeIn mountDelayMs focused0 startMounted0 now) in
  ∀ due captured,
    timers s !! i = Some (due, captured) → due ≤ clock s → isSelfMounted s = true →
    canMount (step (TimerFire i) s) = true.
Proof.
  intros s due captured Ht Hdue Hself.
  assert (Hcap : captured = name).
  { pose proof (run_capturesOwnName es _
                  (mount_capturesOwnName focused0 startMounted0 now)) as Hall.
    unfold capturesOwnName in Hall. rewrite Forall_lookup in Hall.
    apply (Hall i (due, captured)). exact Ht. }
  cbn [Lazy.step]. rewrite Ht.
  destruct (Z.leb_spec due (clock s)) as [_|Hlt]; [|lia].
  unfold mountTimerFired. cbn. rewrite Hcap, JsFacts.eqb_string_refl, Hself. reflexivity.
Qed.

End Facts.

(** Witness of [visible_is_sticky]: tab A starts focused, hence visible; the
    focus then moves away and back and the prop changes. *)
Lemma visible_is_sticky_witness :
  let s := mount "A" false 50 "A" None 0 in
  let es := [FocusChange "B"; SetStartMounted (Some false); Elapse 80;
             FocusChange "A"; FocusChange "C"; SetStartMounted None]%string in
  mountState s = Visible ∧ mountState (run "A" false 50 es s) = Visible.
Proof.
  intros s es. split; [reflexivity|].
  apply (visible_is_sticky "A" false 50 es s); reflexivity.
Defined.

(** C3, at an input where the code departs from it.  Tab B is not mounted
    and gets the focus at time 0, which schedules its mount for time 50; the
    focus moves to A at time 10 and stays there.  When the timer fires at
    time 50 the focused tab is A, and B is mounted all the same: the timer
    compares the name with the argument captured when it was started, not
    with the focus at the deadline. *)
Theorem mount_timer_ignores_focus_at_deadline :
  let fresh := mount "B" false 50 "A" None 0 in
  let scheduled := run "B" false 50 [FocusChange "B"; Elapse 10; FocusChange "A"; Elapse 40]%string fresh in
  let fired := step "B" false 50 (TimerFire 0) scheduled in
  mountState fresh = Unmounted
  ∧ mountState scheduled = Scheduled
  ∧ timers scheduled = [(50, "B"%string)]
  ∧ clock scheduled = 50
  ∧ focusedTab scheduled = "A"%string
  ∧ focusedTab fired = "A"%string
  ∧ canMount fired = true
  ∧ mountState fired = Mounted.
Proof. vm_compute. repeat split. Qed.

End LazyFacts.

(** ** The sync scheduler of the hook *)

Module HookFacts.
Import Js JsFacts Hook.

Section Facts.
Context (contentInset : Z) (tabNames : list string).

Abbreviation processBatch := (processBatch).
Abbreviation requestSync := (requestSync tabNames).
Abbreviation step := (step contentInset tabNames).
Abbreviation run := (run contentInset tabNames).


(** An invariant of the steps of some events is an invariant of their runs. *)
Lemma run_invariant (allowed : Event → bool) (Inv : State → Prop) :
  (∀ e s, allowed e = true → Inv s → Inv (step e s)) →
  ∀ es s, forallb allowed es = true → Inv s → Inv (run es s).
Proof.
  intros Hstep es. unfold Hook.run.
  induction es as [|e es IH]; intros s Hall Hs; simpl in *; [exact Hs|].
  apply andb_prop in Hall as [He Hes]. apply IH; [exact Hes|]. apply Hstep; assumption.
Qed.

(** *** [processBatch] *)

Lemma processBatch_closed (s : State) :
  isScrolling s = true ∨ syncQueue s = [] ∨ isProcessing s = true →
  processBatch s = s.
Proof.
  unfold Hook.processBatch. intros [H|[H|H]]; rewrite H; simpl;
    rewrite ?orb_true_r; reflexivity.
Qed.

Lemma processBatch_open (s : State) :
  isScrolling s = false → syncQueue s ≠ [] → isProcessing s = false →
  processBatch s
  = set_interactions (interactions s ++ [{| syncEntries := syncQueue s; drainedAt := clock s |}])
      (set_syncQueue [] (set_isProcessing true s)).
Proof.
  unfold Hook.processBatch. intros Hs Hq Hp. rewrite Hs, Hp.
  destruct (syncQueue s); [congruence|reflexivity].
Qed.

(** [processBatch] either does nothing or drains the queue into one batch. *)
Lemma processBatch_cases (s : State) :
  processBatch s = s
  ∨ (isScrolling s = false ∧ syncQueue s ≠ [] ∧ isProcessing s = false
     ∧ processBatch s
       = set_interactions
           (interactions s ++ [{| syncEntries := syncQueue s; drainedAt := clock s |}])
           (set_syncQueue [] (set_isProcessing true s))).
Proof.
  destruct (isScrolling s) eqn:Hs; [left; apply processBatch_closed; auto|].
  destruct (isProcessing s) eqn:Hp; [left; apply processBatch_closed; auto|].
  destruct (syncQueue s) as [|e q] eqn:Hq; [left; apply processBatch_closed; auto|].
  right. rewrite <- Hq. repeat split; try congruence.
  apply processBatch_open; congruence.
Qed.

Lemma processBatch_effects (s : State) : effects (processBatch s) = effects s.
Proof. destruct (processBatch_cases s) as [->|(_ & _ & _ & ->)]; reflexivity. Qed.

Lemma processBatch_applied (s : State) : applied (processBatch s) = applied s.
Proof. destruct (processBatch_cases s) as [->|(_ & _ & _ & ->)]; reflexivity. Qed.

Lemma processBatch_refMap (s : State) : refMap (processBatch s) = refMap s.
Proof. destruct (processBatch_cases s) as [->|(_ & _ & _ & ->)]; reflexivity. Qed.


Lemma processBatch_timers (s : State) : timers (processBatch s) = timers s.
Proof. destruct (processBatch_cases s) as [->|(_ & _ & _ & ->)]; reflexivity. Qed.

Lemma processBatch_clock (s : State) : clock (processBatch s) = clock s.
Proof. destruct (processBatch_cases s) as [->|(_ & _ & _ & ->)]; reflexivity. Qed.

(** *** [requestSync] *)

(** [requestSync] drops the request, or stores it and then either calls
    [processBatch] or defers it to the end of the throttle interval. *)
Lemma requestSync_cases (tab : string) (y : Z) (s : State) :
  let s1 := set_syncQueue (map_set tab y (syncQueue s)) s in
  (accepted tabNames tab s = false ∧ requestSync tab y s = s)
  ∨ (accepted tabNames tab s = true
     ∧ getThrottleInterval s ≤ clock s - lastProcessTime s
     ∧ requestSync tab y s = processBatch s1)
  ∨ (accepted tabNames tab s = true
     ∧ clock s - lastProcessTime s < getThrottleInterval s
     ∧ requestSync tab y s
       = set_timers (timers s ++ [{| due := lastProcessTime s + getThrottleInterval s;
                                      callback := ProcessBatch |}]) s1).
Proof.
  intros s1. unfold Hook.requestSync, accepted.
  destruct (1 <? _); simpl; [left; auto|right].
  fold s1. change (getThrottleInterval s1) with (getThrottleInterval s).
  change (clock s1) with (clock s). change (lastProcessTime s1) with (lastProcessTime s).
  destruct (Z.leb_spec (getThrottleInterval s) (clock s - lastProcessTime s)) as [Hle|Hlt].
  - left. auto.
  - right. split; [reflexivity|]. split; [exact Hlt|].
    unfold setTimeout. change (clock s1) with (clock s). change (timers s1) with (timers s).
    replace (clock s + Z.max 0 (getThrottleInterval s - (clock s - lastProcessTime s)))
      with (lastProcessTime s + getThrottleInterval s) by lia.
    reflexivity.
Qed.

Lemma requestSync_effects (tab : string) (y : Z) (s : State) :
  effects (requestSync tab y s) = effects s.
Proof.
  destruct (requestSync_cases tab y s) as [[_ ->]|[(_ & _ & ->)|(_ & _ & ->)]];
    [reflexivity| |reflexivity].
  rewrite processBatch_effects. reflexivity.
Qed.

Lemma requestSync_applied (tab : string) (y : Z) (s : State) :
  applied (requestSync tab y s) = applied s.
Proof.
  destruct (requestSync_cases tab y s) as [[_ ->]|[(_ & _ & ->)|(_ & _ & ->)]];
    [reflexivity| |reflexivity].
  rewrite processBatch_applied. reflexivity.
Qed.


(** *** The interaction callback *)

(** The corrections a batch makes to one tab whose surface is attached are
    its entries for that tab, each shifted by the content inset. *)
Lemma scrollsOf_applyEntries (refs : gmap string bool) (tab : string)
    (entries : list (string * Z)) :
  scrollsOf tab (applyEntries contentInset refs entries)
  = if hasRef refs tab
    then (fun v => v - contentInset) <$> entriesOf tab entries
    else [].
Proof.
  unfold scrollsOf, applyEntries, entriesOf.
  destruct (hasRef refs tab) eqn:Href.
  - induction entries as [|[k v] entries IH]; simpl; [reflexivity|].
    destruct (String.eqb k tab) eqn:E.
    + apply String.eqb_eq in E. subst k. rewrite Href. simpl.
      rewrite eqb_string_refl. f_equal. exact IH.
    + destruct (hasRef refs k); simpl; [rewrite E|]; exact IH.
  - induction entries as [|[k v] entries IH]; simpl; [reflexivity|].
    destruct (hasRef refs k) eqn:Hk; simpl; [|exact IH].
    destruct (String.eqb k tab) eqn:E; [|exact IH].
    apply String.eqb_eq in E. subst k. congruence.
Qed.

Lemma scrollsOf_app (tab : string) (es es' : list Effect) :
  scrollsOf tab (es ++ es') = scrollsOf tab es ++ scrollsOf tab es'.
Proof. unfold scrollsOf. apply omap_app. Qed.

(** *** What every reachable state satisfies *)

Lemma consistent_init (refs : gmap string bool) (scrolling : bool) (now : Z) :
  consistent (init refs scrolling now).
Proof. split; simpl; [apply NoDup_nil_2|reflexivity]. Qed.

Lemma processBatch_consistent (s : State) : consistent s → consistent (processBatch s).
Proof.
  intros [Hq Hp]. destruct (processBatch_cases s) as [->|(_ & _ & Hproc & ->)];
    [split; assumption|].
  rewrite Hproc in Hp. split; simpl; [apply NoDup_nil_2|]. rewrite Hp. eauto.
Qed.

Lemma recordTabSwitch_frame (d : Z) (s : State) :
  syncQueue (recordTabSwitch d s) = syncQueue s
  ∧ isProcessing (recordTabSwitch d s) = isProcessing s
  ∧ interactions (recordTabSwitch d s) = interactions s
  ∧ effects (recordTabSwitch d s) = effects s
  ∧ applied (recordTabSwitch d s) = applied s
  ∧ timers (recordTabSwitch d s) = timers s
  ∧ isScrolling (recordTabSwitch d s) = isScrolling s
  ∧ clock (recordTabSwitch d s) = clock s.
Proof. unfold recordTabSwitch. destruct (3 <=? _)%nat; repeat split. Qed.

Lemma step_consistent (e : Event) (s : State) : consistent s → consistent (step e s).
Proof.
  intros Hs. pose proof Hs as [Hq Hp].
  destruct e as [ms|i| |tab y|idx c|b|tab r| ]; cbn [Hook.step].
  - exact Hs.
  - destruct (timers s !! i) as [t|]; [|exact Hs].
    destruct (due t <=? clock s); [|exact Hs].
    assert (Hs' : consistent (set_timers (delete i (timers s)) s)) by exact Hs.
    generalize dependent (set_timers (delete i (timers s)) s). intros s' Hs'.
    destruct (callback t) as [|start]; cbn [fire].
    + apply processBatch_consistent. exact Hs'.
    + destruct (recordTabSwitch_frame (clock s' - start) s') as (Eq & Ep & Ei & _).
      unfold consistent. rewrite Eq, Ep, Ei. exact Hs'.
  - destruct (interactions s) as [|b rest] eqn:Hi; [exact Hs|].
    split; simpl; [exact Hq|].
    destruct (isProcessing s); [|discriminate].
    destruct Hp as [b' Hb']. congruence.
  - destruct (requestSync_cases tab y s) as [[_ ->]|[(_ & _ & ->)|(_ & _ & ->)]].
    + exact Hs.
    + apply processBatch_consistent. split; simpl; [|exact Hp].
      apply map_set_functional, Hq.
    + split; simpl; [|exact Hp]. apply map_set_functional, Hq.
  - unfold smartTabSwitch, setTimeout. destruct c; split; simpl;
      first [apply NoDup_nil_2 | exact Hp].
  - exact Hs.
  - exact Hs.
  - split; simpl; [apply NoDup_nil_2|exact Hp].
Qed.

Lemma reachable_consistent (refs : gmap string bool) (scrolling : bool) (now : Z)
    (es : list Event) :
  consistent (run es (init refs scrolling now)).
Proof.
  apply (run_invariant (fun _ => true) consistent).
  - intros e s _. apply step_consistent.
  - induction es; simpl; auto.
  - apply consistent_init.
Qed.

(** Host events leave the hook's own state and the effects alone. *)
Lemma host_events_frame (es : list Event) (s : State) :
  forallb isHostEvent es = true →
  syncQueue (run es s) = syncQueue s
  ∧ isProcessing (run es s) = isProcessing s
  ∧ interactions (run es s) = interactions s
  ∧ effects (run es s) = effects s
  ∧ applied (run es s) = applied s
  ∧ timers (run es s) = timers s.
Proof.
  intros Hes.
  apply (run_invariant isHostEvent
           (fun s' => syncQueue s' = syncQueue s
                      ∧ isProcessing s' = isProcessing s
                      ∧ interactions s' = interactions s
                      ∧ effects s' = effects s
                      ∧ applied s' = applied s
                      ∧ timers s' = timers s)); [|exact Hes|repeat split].
  intros e s' He Hs'. destruct e; try discriminate; exact Hs'.
Qed.

(** Draining a queue that holds [tab] applies one correction to [tab], with
    the queued value, when the surface is attached. *)
Lemma drain_applies (s : State) (tab : string) (v : Z) :
  consistent s →
  map_get tab (syncQueue s) = Some v →
  isScrolling s = false → isProcessing s = false → hasRef (refMap s) tab = true →
  let s' := step RunAfterInteractions (processBatch s) in
  scrollsOf tab (effects s') = scrollsOf tab (effects s) ++ [v - contentInset]
  ∧ applied s' = applied s ++ [clock s]
  ∧ syncQueue s' = []
  ∧ lastProcessTime s' = clock s.
Proof.
  intros [Hq Hp] Hget Hscroll Hproc Href s'.
  rewrite Hproc in Hp.
  assert (Hne : syncQueue s ≠ []).
  { intros Hnil. rewrite Hnil in Hget. discriminate. }
  unfold s'. rewrite (processBatch_open s Hscroll Hne Hproc).
  cbn [Hook.step]. simpl interactions. rewrite Hp. simpl.
  split; [|repeat split].
  rewrite scrollsOf_app, scrollsOf_applyEntries, Href.
  rewrite (entriesOf_functional tab (syncQueue s) Hq), Hget. reflexivity.
Qed.

(** *** Suspension while the user scrolls *)


(** *** The throttle *)

Lemma map_set_nonempty {V : Type} (k : string) (v : V) (m : list (string * V)) :
  map_set k v m ≠ [].
Proof. destruct m as [|[k' v'] m]; simpl; [|destruct (String.eqb k k')]; discriminate. Qed.

(** A request inside the throttle interval is stored and a timeout for
    [processBatch] is set to the end of the interval; nothing is applied. *)
Lemma requestSync_deferred (tab : string) (y : Z) (s : State) :
  accepted tabNames tab s = true →
  clock s - lastProcessTime s < getThrottleInterval s →
  requestSync tab y s
  = set_timers (timers s ++ [{| due := lastProcessTime s + getThrottleInterval s;
                                 callback := ProcessBatch |}])
      (set_syncQueue (map_set tab y (syncQueue s)) s).
Proof.
  intros Hacc Hlt.
  destruct (requestSync_cases tab y s) as [[Hrej _]|[(_ & Hle & _)|(_ & _ & E)]];
    [congruence|lia|exact E].
Qed.

Lemma deferredStage_step (before : list Z) (q : list (string * Z)) (bound : Z)
    (e : Event) (s : State) :
  isLoopEvent e = true →
  deferredStage before q bound s → deferredStage before q bound (step e s).
Proof.
  intros He Hs. destruct e as [ms|i| |tab y|idx c|b|tab r| ]; try discriminate;
    cbn [Hook.step]; try exact Hs.
  - destruct (timers s !! i) as [t|] eqn:Ht; [|exact Hs].
    destruct (Z.leb_spec (due t) (clock s)) as [Hdue|_]; [|exact Hs].
    set (s1 := set_timers (delete i (timers s)) s).
    assert (Hs1 : deferredStage before q bound s1).
    { destruct Hs as [(Ha & Hq & Hp & Hi & Hd)|[Hs|Hs]]; [left|right; left; exact Hs|right; right; exact Hs].
      repeat split; try assumption. apply Forall_delete, Hd. }
    destruct (callback t) as [|start] eqn:Hcb; cbn [fire].
    + destruct (processBatch_cases s1) as [->|(Hsc & Hne & Hpr & ->)]; [exact Hs1|].
      destruct Hs as [(Ha & Hq & Hp & Hi & Hd)|[(_ & Hq & _)|(t' & _ & _ & Hq & _)]];
        [|contradiction|contradiction].
      right. left. simpl. repeat split; try assumption.
      exists (clock s). rewrite Hi, Hq. split; [reflexivity|].
      unfold deferredUntil in Hd. rewrite Forall_lookup in Hd.
      specialize (Hd i t Ht Hcb). lia.
    + destruct (recordTabSwitch_frame (clock s1 - start) s1)
        as (Eq & Ep & Ei & _ & Ea & Et & _).
      unfold deferredStage, deferredUntil. rewrite Eq, Ep, Ei, Ea, Et. exact Hs1.
  - destruct (interactions s) as [|b rest] eqn:Hi; [exact Hs|].
    destruct Hs as [(_ & _ & _ & Hi' & _)|[(Ha & Hq & Hp & t & Hi' & Hb)|(t & _ & _ & _ & _ & Hi')]];
      [congruence| |congruence].
    right. right. exists t. simpl.
    assert (b = {| syncEntries := q; drainedAt := t |} ∧ rest = []) as [-> ->] by (split; congruence).
    simpl. rewrite Ha. repeat split; assumption.
Qed.

(** The throttle scenario.  The strategy is moderate, the prior batch was drained
    at [lastProcessTime] and is done, and two accepted requests arrive 10 ms
    apart, both sooner than [lastProcessTime + 33].  Whatever the event loop
    runs afterwards, at most one batch is applied, never drained before
    [lastProcessTime + 33]. *)
Lemma moderate_throttle (s : State) (tab1 tab2 : string) (y1 y2 : Z) (es : list Event) :
  performanceStrategy s = moderate →
  isProcessing s = false → interactions s = [] →
  deferredUntil (lastProcessTime s + 33) s →
  clock s + 10 < lastProcessTime s + 33 →
  accepted tabNames tab1 s = true → accepted tabNames tab2 s = true →
  forallb isLoopEvent es = true →
  let s2 := run [CallRequestSync tab1 y1; Elapse 10; CallRequestSync tab2 y2] s in
  let s3 := run es s2 in
  applied s3 = applied s
  ∨ ∃ t, applied s3 = applied s ++ [t] ∧ lastProcessTime s + 33 ≤ t.
Proof.
  intros Hstrat Hproc Hint Hdef Hclock Hacc1 Hacc2 Hes s2 s3.
  set (q := map_set tab2 y2 (map_set tab1 y1 (syncQueue s))).
  assert (Hstage : deferredStage (applied s) q (lastProcessTime s + 33) s2).
  { assert (Hiv : getThrottleInterval s = 33).
    { unfold getThrottleInterval. rewrite Hstrat. reflexivity. }
    unfold s2, Hook.run. cbn [foldl Hook.step].
    rewrite (requestSync_deferred tab1 y1 s Hacc1) by lia. rewrite Hiv.
    match goal with |- context [requestSync tab2 y2 ?x] => set (sE := x) end.
    assert (HivE : getThrottleInterval sE = 33) by exact Hiv.
    assert (HclockE : clock sE = clock s + 10) by reflexivity.
    assert (HlastE : lastProcessTime sE = lastProcessTime s) by reflexivity.
    rewrite (requestSync_deferred tab2 y2 sE) by (try exact Hacc2; lia).
    rewrite HivE, HlastE.
    left. cbn. repeat split; try assumption.
    unfold deferredUntil. cbn. rewrite !Forall_app. repeat split; [exact Hdef| |].
    - apply Forall_singleton. cbn. lia.
    - apply Forall_singleton. cbn. lia. }
  assert (Hend : deferredStage (applied s) q (lastProcessTime s + 33) s3).
  { apply (run_invariant isLoopEvent (deferredStage (applied s) q (lastProcessTime s + 33)));
      [|exact Hes|exact Hstage].
    intros e s' He. apply deferredStage_step. exact He. }
  destruct Hend as [(Ha & _)|[(Ha & _)|(t & Ha & Hb & _)]].
  - left. exact Ha.
  - left. exact Ha.
  - right. exists t. auto.
Qed.

(** *** The whole gesture *)

Lemma recordTabSwitch_refMap (d : Z) (s : State) :
  refMap (recordTabSwitch d s) = refMap s.
Proof. unfold recordTabSwitch. destruct (3 <=? _)%nat; reflexivity. Qed.




(** *** Requests that wait *)

(** A request that arrives during a gesture or inside the throttle interval
    is dropped by the distance test or stored; no batch is drained. *)
Lemma requestSync_waits (tab : string) (y : Z) (s : State) :
  waits s →
  (accepted tabNames tab s = false ∧ requestSync tab y s = s)
  ∨ (accepted tabNames tab s = true
     ∧ ∃ ts, requestSync tab y s
             = set_timers ts (set_syncQueue (map_set tab y (syncQueue s)) s)).
Proof.
  intros Hw.
  destruct (requestSync_cases tab y s) as [[Hrej E]|[(Hacc & Hle & E)|(Hacc & _ & E)]].
  - left. auto.
  - right. split; [exact Hacc|]. destruct Hw as [Hsc|Hlt]; [|lia].
    rewrite processBatch_closed in E by (left; exact Hsc).
    exists (timers s). exact E.
  - right. split; [exact Hacc|]. eexists. exact E.
Qed.

(** Once the queue is empty and no batch awaits its callback, nothing more
    is applied until the next request: timeouts that fire find the queue
    empty. *)
Lemma drained_hook_stays (es : list Event) (s : State) :
  syncQueue s = [] → interactions s = [] →
  forallb isLoopEvent es = true →
  syncQueue (run es s) = [] ∧ interactions (run es s) = []
  ∧ effects (run es s) = effects s ∧ applied (run es s) = applied s.
Proof.
  intros Hq Hi Hes.
  apply (run_invariant isLoopEvent
           (fun x => syncQueue x = [] ∧ interactions x = []
                     ∧ effects x = effects s ∧ applied x = applied s));
    [|exact Hes|repeat split; assumption].
  intros e x He (Hqx & Hix & Hex & Hax).
  destruct e as [ms|i| |tab y|idx c|b|tab r| ]; try discriminate; cbn [Hook.step].
  - repeat split; assumption.
  - destruct (timers x !! i) as [t|]; [|repeat split; assumption].
    destruct (due t <=? clock x); [|repeat split; assumption].
    destruct (callback t) as [|start]; cbn [fire].
    + rewrite processBatch_closed by (right; left; exact Hqx). repeat split; assumption.
    + set (x1 := set_timers (delete i (timers x)) x).
      destruct (recordTabSwitch_frame (clock x1 - start) x1)
        as (Eq & _ & Ei & Ee & Ea & _).
      rewrite Eq, Ei, Ee, Ea. repeat split; assumption.
  - rewrite Hix. repeat split; assumption.
  - repeat split; assumption.
  - repeat split; assumption.
Qed.

(** Requests left in the queue with no timeout and no batch pending stay
    there: nothing in the event loop will drain them. *)
Lemma stranded_hook_stays (es : list Event) (s : State) :
  timers s = [] → interactions s = [] →
  forallb isLoopEvent es = true →
  syncQueue (run es s) = syncQueue s ∧ timers (run es s) = []
  ∧ interactions (run es s) = []
  ∧ effects (run es s) = effects s ∧ applied (run es s) = applied s.
Proof.
  intros Ht Hi Hes.
  apply (run_invariant isLoopEvent
           (fun x => syncQueue x = syncQueue s ∧ timers x = [] ∧ interactions x = []
                     ∧ effects x = effects s ∧ applied x = applied s));
    [|exact Hes|repeat split; assumption].
  intros e x He (Hqx & Htx & Hix & Hex & Hax).
  destruct e as [ms|i| |tab y|idx c|b|tab r| ]; try discriminate; cbn [Hook.step].
  - repeat split; assumption.
  - rewrite Htx. cbn. repeat split; assumption.
  - rewrite Hix. repeat split; assumption.
  - repeat split; assumption.
  - repeat split; assumption.
Qed.

(** *** The throttle when nothing interferes *)

Lemma batchPending_delete (l : list Timer) (i : nat) (t : Timer) :
  l !! i = Some t → isSettle t = true →
  existsb (fun t => negb (isSettle t)) l = true →
  existsb (fun t => negb (isSettle t)) (delete i l) = true.
Proof.
  revert i. induction l as [|u l IH]; intros i Hi Ht Hex; [discriminate|].
  destruct i as [|i]; simpl in *.
  - injection Hi as ->. rewrite Ht in Hex. exact Hex.
  - destruct (negb (isSettle u)); [reflexivity|]. simpl in *. eapply IH; eassumption.
Qed.

Lemma throttleStage_step (before : list Z) (done : list Effect) (refs : gmap string bool)
    (q : list (string * Z)) (bound : Z) (e : Event) (s : State) :
  q ≠ [] → isCallbackEvent e = true →
  throttleStage contentInset before done refs q bound s →
  throttleStage contentInset before done refs q bound (step e s).
Proof.
  intros Hne He (Hsc & Href & Hs).
  destruct e as [ms|i| |tab y|idx c|b|tab r| ]; try discriminate; cbn [Hook.step].
  - split; [exact Hsc|]. split; [exact Href|]. exact Hs.
  - destruct (timers s !! i) as [t|] eqn:Ht; [|split; [exact Hsc|split; [exact Href|exact Hs]]].
    destruct (Z.leb_spec (due t) (clock s)) as [Hdue|_];
      [|split; [exact Hsc|split; [exact Href|exact Hs]]].
    set (s1 := set_timers (delete i (timers s)) s).
    destruct (callback t) as [|start] eqn:Hcb; cbn [fire].
    + destruct Hs as [(Ha & He' & Hq & Hp & Hi & Hd & _)|[Hs|Hs]].
      * assert (Hq1 : syncQueue s1 ≠ []) by (cbn; rewrite Hq; exact Hne).
        rewrite (processBatch_open s1 Hsc Hq1 Hp). cbn.
        split; [exact Hsc|]. split; [exact Href|]. right. left.
        repeat split; try assumption.
        exists (clock s). rewrite Hi, Hq. split; [reflexivity|].
        unfold deferredUntil in Hd. rewrite Forall_lookup in Hd.
        specialize (Hd i t Ht Hcb). lia.
      * destruct Hs as (Ha & He' & Hq & Hp & Hb).
        rewrite processBatch_closed by (right; right; exact Hp).
        split; [exact Hsc|]. split; [exact Href|]. right. left. repeat split; assumption.
      * destruct Hs as (t' & Ha & Hb & He' & Hq & Hp & Hi).
        rewrite processBatch_closed by (right; left; exact Hq).
        split; [exact Hsc|]. split; [exact Href|]. right. right.
        exists t'. repeat split; assumption.
    + destruct (recordTabSwitch_frame (clock s1 - start) s1)
        as (Eq & Ep & Ei & Ee & Ea & Et & Es & _).
      pose proof (recordTabSwitch_refMap (clock s1 - start) s1) as Er.
      unfold throttleStage, deferredUntil, batchPending.
      rewrite Eq, Ep, Ei, Ee, Ea, Et, Es, Er.
      split; [exact Hsc|]. split; [exact Href|].
      destruct Hs as [(Ha & He' & Hq & Hp & Hi & Hd & Hb)|[Hs|Hs]];
        [left|right; left; exact Hs|right; right; exact Hs].
      repeat split; try assumption.
      * apply Forall_delete, Hd.
      * cbn. apply (batchPending_delete _ i t Ht); [|exact Hb].
        unfold isSettle. rewrite Hcb. reflexivity.
  - destruct (interactions s) as [|b rest] eqn:Hi in |- *;
      [split; [exact Hsc|split; [exact Href|exact Hs]]|].
    destruct Hs as [(_ & _ & _ & _ & Hi' & _)|[(Ha & He' & Hq & Hp & t & Hi' & Hb)|(t & _ & _ & _ & _ & _ & Hi')]];
      [congruence| |congruence].
    assert (b = {| syncEntries := q; drainedAt := t |} ∧ rest = []) as [-> ->]
      by (split; congruence).
    split; [exact Hsc|]. split; [exact Href|]. right. right. exists t. cbn.
    rewrite Ha, He', Href. repeat split; assumption.
Qed.

(** The throttle scenario when nothing interferes.  The strategy is moderate,
    the user does not scroll, the prior batch was drained at
    [lastProcessTime] and is done, and two accepted requests arrive 10 ms
    apart, both sooner than [lastProcessTime + 33].  The event loop then
    runs on its own.  Once no [processBatch] timeout and no interaction
    callback is pending, exactly one batch has been applied, drained no
    earlier than [lastProcessTime + 33]; it has scrolled every queued tab
    that has a ref to the value the two requests left for it, less the
    content inset, and the queue is empty. *)
Lemma moderate_throttle_exact (s : State) (tab1 tab2 : string) (y1 y2 : Z)
    (es : list Event) :
  functional (syncQueue s) →
  performanceStrategy s = moderate →
  isScrolling s = false → isProcessing s = false → interactions s = [] →
  deferredUntil (lastProcessTime s + 33) s →
  clock s + 10 < lastProcessTime s + 33 →
  accepted tabNames tab1 s = true → accepted tabNames tab2 s = true →
  forallb isCallbackEvent es = true →
  let q := map_set tab2 y2 (map_set tab1 y1 (syncQueue s)) in
  let s2 := run [CallRequestSync tab1 y1; Elapse 10; CallRequestSync tab2 y2] s in
  let s3 := run es s2 in
  batchPending s3 = false → interactions s3 = [] →
  ∃ t, applied s3 = applied s ++ [t] ∧ lastProcessTime s + 33 ≤ t
       ∧ (∀ tab, scrollsOf tab (effects s3)
                 = scrollsOf tab (effects s)
                   ++ match map_get tab q with
                      | Some v => if hasRef (refMap s) tab then [v - contentInset] else []
                      | None => []
                      end)
       ∧ syncQueue s3 = [] ∧ isProcessing s3 = false.
Proof.
  intros Hfun Hstrat Hscroll Hproc Hint Hdef Hclock Hacc1 Hacc2 Hes q s2 s3 Hnone Hidle.
  assert (Hstage : throttleStage contentInset (applied s) (effects s) (refMap s) q
                     (lastProcessTime s + 33) s2).
  { assert (Hiv : getThrottleInterval s = 33).
    { unfold getThrottleInterval. rewrite Hstrat. reflexivity. }
    unfold s2, Hook.run. cbn [foldl Hook.step].
    rewrite (requestSync_deferred tab1 y1 s Hacc1) by lia. rewrite Hiv.
    match goal with |- context [requestSync tab2 y2 ?x] => set (sE := x) end.
    assert (HivE : getThrottleInterval sE = 33) by exact Hiv.
    assert (HclockE : clock sE = clock s + 10) by reflexivity.
    assert (HlastE : lastProcessTime sE = lastProcessTime s) by reflexivity.
    rewrite (requestSync_deferred tab2 y2 sE) by (try exact Hacc2; lia).
    rewrite HivE, HlastE.
    split; [exact Hscroll|]. split; [reflexivity|]. left. cbn.
    repeat split; try assumption.
    - unfold deferredUntil. cbn. rewrite !Forall_app. repeat split; [exact Hdef| |].
      + apply Forall_singleton. cbn. lia.
      + apply Forall_singleton. cbn. lia.
    - unfold batchPending. cbn. rewrite !existsb_app. cbn. apply orb_true_r. }
  assert (Hq : q ≠ []) by apply map_set_nonempty.
  assert (Hend : throttleStage contentInset (applied s) (effects s) (refMap s) q
                   (lastProcessTime s + 33) s3).
  { apply (run_invariant isCallbackEvent
             (throttleStage contentInset (applied s) (effects s) (refMap s) q
                (lastProcessTime s + 33))); [|exact Hes|exact Hstage].
    intros e s' He. apply throttleStage_step; assumption. }
  destruct Hend as (_ & _ & [(_ & _ & _ & _ & _ & _ & Hb)|[(_ & _ & _ & _ & t & Hi & _)|(t & Ha & Hb & He & Hque & Hp & _)]]).
  - congruence.
  - congruence.
  - exists t. split; [exact Ha|]. split; [exact Hb|]. split; [|split; assumption].
    intros tab. rewrite He, scrollsOf_app, scrollsOf_applyEntries. f_equal.
    assert (Hfq : functional q) by (unfold q; apply map_set_functional, map_set_functional, Hfun).
    rewrite (entriesOf_functional tab q Hfq).
    destruct (map_get tab q), (hasRef (refMap s) tab); reflexivity.
Qed.

End Facts.


(** C4, at an input where the code departs from it.  All three tabs are
    mounted and tab 3 (index 2) is focused.  The code takes as focused index
    the first tab whose ref is set, which is tab 1 (index 0).  So a request
    for tab 1, at distance 2 from the focused tab, is kept and its
    correction applied, while a request for the focused tab 3 is dropped. *)
Theorem far_tab_is_synced :
  let focused := "tab3"%string in
  let s := init refs123 false 1000 in
  let far := run 0 tabs123 [CallRequestSync "tab1" 100; RunAfterInteractions] s in
  let own := run 0 tabs123 [CallRequestSync "tab3" 100; RunAfterInteractions] s in
  Z.abs (findIndex (fun name => String.eqb name "tab1") tabs123
         - findIndex (fun name => String.eqb name focused) tabs123) = 2
  ∧ findIndex (fun name => hasCurrent (refMap s) name) tabs123 = 0
  ∧ accepted tabs123 "tab1" s = true
  ∧ effects far = [ScrollTo "tab1" 100]
  ∧ accepted tabs123 focused s = false
  ∧ effects own = [].
Proof. vm_compute. repeat split. Qed.

(** C5 as stated fails when the user scrolls at the boundary.  The hook runs
    the moderate strategy and its prior batch was drained at 1180.  Requests
    arrive at 1185 and 1195 and both are deferred to 1213.  A gesture begins;
    at 1215 both timeouts fire, and [processBatch] returns at once because
    of the gesture; the gesture ends.  No batch has been applied, no
    timeout is left, and the two requests stay in the queue whatever the
    event loop runs. *)
Lemma deferred_batch_lost_to_gesture :
  let s := moderateIdle in
  let s2 := run 0 tabs123
              [CallRequestSync "tab1" 70; Elapse 10; CallRequestSync "tab2" 80]%string s in
  let s3 := run 0 tabs123
              [HostSetScrolling true; Elapse 20; FireTimer 0; FireTimer 0;
               HostSetScrolling false] s2 in
  performanceStrategy s = moderate
  ∧ lastProcessTime s = 1180 ∧ clock s = 1185 ∧ applied s = [1180]
  ∧ timers s2 = [{| due := 1213; callback := ProcessBatch |};
                 {| due := 1213; callback := ProcessBatch |}]
  ∧ clock s3 = 1215 ∧ isScrolling s3 = false
  ∧ timers s3 = [] ∧ interactions s3 = []
  ∧ syncQueue s3 = [("tab1"%string, 70); ("tab2"%string, 80)]
  ∧ applied s3 = [1180] ∧ effects s3 = effects s
  ∧ ∀ es, forallb isLoopEvent es = true →
          applied (run 0 tabs123 es s3) = [1180]
          ∧ syncQueue (run 0 tabs123 es s3) = [("tab1"%string, 70); ("tab2"%string, 80)].
Proof.
  intros s s2 s3.
  do 12 (split; [vm_compute; reflexivity|]).
  intros es Hes.
  assert (Ht : timers s3 = []) by (vm_compute; reflexivity).
  assert (Hi : interactions s3 = []) by (vm_compute; reflexivity).
  destruct (stranded_hook_stays 0 tabs123 es s3 Ht Hi Hes) as (Hq & _ & _ & _ & Ha).
  rewrite Ha, Hq. split; vm_compute; reflexivity.
Qed.

End HookFacts.

(** ** The sync scheduler of the class *)

Module TabSyncFacts.
Import Js JsFacts TabSync.

Section Facts.
Context (contentInset : Z).

Abbreviation processBatch := (processBatch).
Abbreviation requestSync := (requestSync).
Abbreviation step := (step contentInset).
Abbreviation run := (run contentInset).

Lemma class_run_invariant (allowed : Event → bool) (Inv : State → Prop) :
  (∀ e s, allowed e = true → Inv s → Inv (step e s)) →
  ∀ es s, forallb allowed es = true → Inv s → Inv (run es s).
Proof.
  intros Hstep es. unfold TabSync.run.
  induction es as [|e es IH]; intros s Hall Hs; simpl in *; [exact Hs|].
  apply andb_prop in Hall as [He Hes]. apply IH; [exact Hes|]. apply Hstep; assumption.
Qed.

Lemma class_run_always (Inv : State → Prop) :
  (∀ e s, Inv s → Inv (step e s)) → ∀ es s, Inv s → Inv (run es s).
Proof.
  intros Hstep es. unfold TabSync.run.
  induction es as [|e es IH]; intros s Hs; simpl; [exact Hs|]. apply IH, Hstep, Hs.
Qed.

(** *** [processBatch] and [requestSync] *)


Lemma class_processBatch_empty (s : State) : syncQueue s = [] → processBatch s = s.
Proof. unfold TabSync.processBatch. intros ->. rewrite orb_true_r. reflexivity. Qed.

Lemma class_processBatch_frame (s : State) :
  syncQueue (processBatch s) = syncQueue s ∧ effects (processBatch s) = effects s
  ∧ isScrolling (processBatch s) = isScrolling s ∧ refMap (processBatch s) = refMap s
  ∧ frames (processBatch s) = frames s.
Proof.
  unfold TabSync.processBatch.
  destruct (isScrolling s || (length (syncQueue s) =? 0)%nat); repeat split; reflexivity.
Qed.

Lemma class_requestSync_frame (tab : string) (y : Z) (s : State) :
  syncQueue (requestSync tab y s) = map_set tab y (syncQueue s)
  ∧ effects (requestSync tab y s) = effects s
  ∧ isScrolling (requestSync tab y s) = isScrolling s.
Proof.
  unfold TabSync.requestSync, scheduleBatchProcess. simpl.
  destruct (negb (isProcessing s)); [|repeat split; reflexivity].
  destruct (_ <? PROCESS_INTERVAL); [repeat split; reflexivity|].
  match goal with |- context [processBatch ?x] =>
    destruct (class_processBatch_frame x) as (-> & -> & -> & _) end.
  repeat split; reflexivity.
Qed.


Lemma class_requestSync_busy (tab : string) (y : Z) (s : State) :
  isProcessing s = true →
  requestSync tab y s = set_syncQueue (map_set tab y (syncQueue s)) s.
Proof. intros Hp. unfold TabSync.requestSync. simpl. rewrite Hp. reflexivity. Qed.

(** *** The worklet and the promises *)

(** With a ref the worklet raises: the state is as before and the promise
    stays pending.  Without a ref it resolves. *)
Lemma worklet_cases (tab : string) (y : Z) (s : State) :
  (hasRef (refMap s) tab = true ∧ worklet contentInset tab y s = (s, Raised))
  ∨ (hasRef (refMap s) tab = false ∧ worklet contentInset tab y s = (s, Resolved)).
Proof.
  unfold worklet. destruct (hasRef (refMap s) tab); [left|right]; split; reflexivity.
Qed.

Lemma waitingOf_app (ps qs : list Promise) :
  waitingOf (ps ++ qs) = waitingOf ps ++ waitingOf qs.
Proof.
  unfold waitingOf. induction ps as [|p ps IH]; [reflexivity|].
  destruct p; cbn; [f_equal| |]; exact IH.
Qed.

Lemma waiting_cons (b : list Promise) (bs : list (list Promise)) :
  waiting (b :: bs) = waitingOf b ++ waiting bs.
Proof. unfold waiting. simpl. apply waitingOf_app. Qed.

Lemma waiting_snoc (bs : list (list Promise)) (b : list Promise) :
  waiting (bs ++ [b]) = waiting bs ++ waitingOf b.
Proof.
  unfold waiting. rewrite concat_app, waitingOf_app. simpl. rewrite app_nil_r. reflexivity.
Qed.

Lemma waitingOf_settleFirst (p : Promise) (ps : list Promise) :
  waitingOf [p] = [] → waitingOf (settleFirst p ps) = tail (waitingOf ps).
Proof.
  intros Hp. induction ps as [|q ps IH]; [reflexivity|].
  destruct q; cbn [settleFirst].
  - change (p :: ps) with ([p] ++ ps). rewrite waitingOf_app, Hp. reflexivity.
  - exact IH.
  - exact IH.
Qed.

(** Running the oldest callback takes its call off the waiting ones. *)
Lemma waiting_settleOldest (p : Promise) (bs : list (list Promise)) :
  waitingOf [p] = [] → waiting (settleOldest p bs) = tail (waiting bs).
Proof.
  intros Hp. induction bs as [|b bs IH]; [reflexivity|].
  simpl. destruct (waitingOf b) as [|j js] eqn:Hb.
  - rewrite !waiting_cons, Hb. simpl. exact IH.
  - rewrite !waiting_cons, (waitingOf_settleFirst p b Hp), Hb. reflexivity.
Qed.

Lemma waitingOf_resolved (b : list Promise) :
  forallb isResolved b = true → waitingOf b = [].
Proof.
  induction b as [|p b IH]; [reflexivity|]. simpl.
  destruct p; simpl; try discriminate. exact IH.
Qed.

(** A batch that finishes has no callback left. *)
Lemma waiting_popFinished (bs rest : list (list Promise)) :
  popFinished bs = Some rest → waiting rest = waiting bs.
Proof.
  revert rest. induction bs as [|b bs IH]; intros rest Hpop; [discriminate|].
  simpl in Hpop. destruct (forallb isResolved b) eqn:Hb.
  - injection Hpop as <-. rewrite waiting_cons, (waitingOf_resolved b Hb). reflexivity.
  - destruct (popFinished bs) as [rest0|]; [|discriminate].
    injection Hpop as <-. rewrite !waiting_cons, (IH rest0 eq_refl). reflexivity.
Qed.

(** A batch one of whose promises raised never finishes. *)
Lemma popFinished_raised (bs : list (list Promise)) :
  Forall (fun b => existsb isRaised b = true) bs → popFinished bs = None.
Proof.
  induction 1 as [|b bs Hb _ IH]; [reflexivity|].
  simpl. rewrite IH.
  destruct (forallb isResolved b) eqn:Hall; [|reflexivity].
  apply existsb_exists in Hb as (p & Hin & Hp).
  rewrite forallb_forall in Hall. specialize (Hall p Hin).
  destruct p; discriminate.
Qed.

Lemma settleFirst_raised (p : Promise) (b : list Promise) :
  existsb isRaised b = true → existsb isRaised (settleFirst p b) = true.
Proof.
  induction b as [|q b IH]; [discriminate|].
  destruct q; simpl; intros H.
  - rewrite H. apply orb_true_r.
  - apply IH, H.
  - reflexivity.
Qed.

Lemma settleOldest_raised (p : Promise) (bs : list (list Promise)) :
  Forall (fun b => existsb isRaised b = true) bs →
  Forall (fun b => existsb isRaised b = true) (settleOldest p bs).
Proof.
  induction 1 as [|b bs Hb Hbs IH]; [constructor|].
  simpl. destruct (waitingOf b); constructor; auto using settleFirst_raised.
Qed.

(** *** The class never scrolls *)

Lemma class_step_effects (e : Event) (s : State) : effects (step e s) = effects s.
Proof.
  destruct e as [ms| | | |tab y| |b|tab r]; cbn [TabSync.step]; try reflexivity.
  - destruct (frames s); [reflexivity|].
    match goal with |- context [processBatch ?x] =>
      destruct (class_processBatch_frame x) as (_ & -> & _) end. reflexivity.
  - destruct (waiting (inflight s)) as [|[tab y] js]; [reflexivity|].
    destruct (worklet_cases tab y s) as [[_ ->]|[_ ->]]; reflexivity.
  - destruct (popFinished (inflight s)); reflexivity.
  - apply class_requestSync_frame.
Qed.

(** Whatever is requested and whatever runs, no correction reaches a
    surface: the worklet raises before it scrolls. *)
Lemma class_never_scrolls (es : list Event) (s : State) : effects (run es s) = effects s.
Proof.
  apply (class_run_always (fun x => effects x = effects s)); [|reflexivity].
  intros e x Hx. rewrite class_step_effects. exact Hx.
Qed.

(** *** Suspension while the user scrolls *)



(** What the class does with two requests that both wait for an animation
    frame: each frame callback runs [processBatch] on the same queue, so a
    sync for the one entry is started once per callback; each of them
    raises. *)
Example class_batches_repeat :
  let idle := run [CallRequestSync "tab9" 0; RunFinally; Elapse 5]%string
                  (create refs123 false 1000) in
  let waiting := run [CallRequestSync "tab2" 100; Elapse 3; CallRequestSync "tab2" 200]%string
                     idle in
  let started := run [RunFrame; RunFrame] waiting in
  let done := run [RunSync; RunSync; RunFinally] started in
  syncQueue waiting = [("tab2"%string, 200)] ∧ frames waiting = 2%nat
  ∧ inflight started = [[Waiting "tab2" 200]; [Waiting "tab2" 200]]
  ∧ inflight done = [[Raised]; [Raised]]
  ∧ effects done = [].
Proof. repeat split. Qed.

End Facts.
End TabSyncFacts.

(** ** The claims about the scheduler *)

Module SchedulerFacts.
Import Js.

(** C1, at an input where the class departs from it.  During a gesture two
    requests for tab 2 arrive, 100 and then 200; the gesture ends and a
    request for tab 1 starts the batch; every callback runs.  The content
    inset is 10.  The queue of the class holds one entry for tab 2, with
    200, and [processBatch] starts one [performSync] for it; but its
    worklet raises at [scrollToImpl], which the module does not bind: no
    correction is applied, the promises stay pending, the [finally] never
    runs and [isProcessing] stays set.  The hook, which imports
    [scrollToImpl], applies exactly one correction to tab 2, to 190. *)
Theorem coalesced_sync_raises_in_class :
  let started :=
    TabSync.run 10
      [TabSync.CallRequestSync "tab2" 100; TabSync.Elapse 5;
       TabSync.CallRequestSync "tab2" 200; TabSync.Elapse 5;
       TabSync.HostSetScrolling false; TabSync.CallRequestSync "tab1" 50]%string
      (TabSync.create refs123 true 1000) in
  let done := TabSync.run 10 [TabSync.RunSync; TabSync.RunSync; TabSync.RunFinally] started in
  let drained :=
    Hook.run 10 tabs123
      [Hook.CallRequestSync "tab2" 100; Hook.Elapse 5;
       Hook.CallRequestSync "tab2" 200; Hook.Elapse 5;
       Hook.HostSetScrolling false; Hook.CallRequestSync "tab1" 50]%string
      (Hook.init refs123 true 1000) in
  let applied := Hook.step 10 tabs123 Hook.RunAfterInteractions drained in
  TabSync.syncQueue started = [("tab2"%string, 200); ("tab1"%string, 50)]
  ∧ TabSync.inflight started = [[TabSync.Waiting "tab2" 200; TabSync.Waiting "tab1" 50]]
  ∧ TabSync.inflight done = [[TabSync.Raised; TabSync.Raised]]
  ∧ TabSync.effects done = []
  ∧ scrollsOf "tab2" (TabSync.effects done) = []
  ∧ TabSync.isProcessing done = true
  ∧ TabSync.syncQueue done = [("tab2"%string, 200); ("tab1"%string, 50)]
  ∧ Hook.effects applied = [ScrollTo "tab2" 190; ScrollTo "tab1" 40]
  ∧ scrollsOf "tab2" (Hook.effects applied) = [190].
Proof. repeat (split; [vm_compute; reflexivity|]). vm_compute. reflexivity. Qed.



(** C5, as the code has it.  The throttle interval is 16 ms under [normal],
    33 ms under [moderate] and 50 ms under [aggressive].  An accepted request
    that arrives sooner than [lastProcessTime + interval] is stored and a
    timeout for [processBatch] is set to that boundary; nothing is applied
    yet.  Under [moderate], with the prior batch done, two accepted requests
    10 ms apart that both arrive before the boundary lead to at most one
    batch, drained no earlier than 33 ms after the prior one, whatever
    timeouts, callbacks and host events follow.  When the user does not
    scroll and the event loop runs on its own, then once no [processBatch]
    timeout and no interaction callback is pending exactly one batch has
    been applied: it scrolled every queued tab that has a ref to the value
    the two requests left for it, less the content inset, and the queue is
    empty. *)
Theorem throttle_boundary :
  (∀ s, Hook.getThrottleInterval s
        = match Hook.performanceStrategy s with
          | normal => 16
          | moderate => 33
          | aggressive => 50
          end)
  ∧ (∀ tabNames tab y s,
       Hook.accepted tabNames tab s = true →
       Hook.clock s - Hook.lastProcessTime s < Hook.getThrottleInterval s →
       let s' := Hook.requestSync tabNames tab y s in
       map_get tab (Hook.syncQueue s') = Some y
       ∧ Hook.timers s'
         = Hook.timers s
           ++ [{| Hook.due := Hook.lastProcessTime s + Hook.getThrottleInterval s;
                  Hook.callback := Hook.ProcessBatch |}]
       ∧ Hook.interactions s' = Hook.interactions s
       ∧ Hook.effects s' = Hook.effects s)
  ∧ (∀ contentInset tabNames s tab1 tab2 y1 y2 es,
       Hook.performanceStrategy s = moderate →
       Hook.isProcessing s = false → Hook.interactions s = [] →
       Hook.deferredUntil (Hook.lastProcessTime s + 33) s →
       Hook.clock s + 10 < Hook.lastProcessTime s + 33 →
       Hook.accepted tabNames tab1 s = true → Hook.accepted tabNames tab2 s = true →
       forallb Hook.isLoopEvent es = true →
       let s2 := Hook.run contentInset tabNames
                   [Hook.CallRequestSync tab1 y1; Hook.Elapse 10; Hook.CallRequestSync tab2 y2] s in
       let s3 := Hook.run contentInset tabNames es s2 in
       Hook.applied s3 = Hook.applied s
       ∨ ∃ t, Hook.applied s3 = Hook.applied s ++ [t] ∧ Hook.lastProcessTime s + 33 ≤ t)
  ∧ (∀ contentInset tabNames s tab1 tab2 y1 y2 es,
       functional (Hook.syncQueue s) →
       Hook.performanceStrategy s = moderate →
       Hook.isScrolling s = false →
       Hook.isProcessing s = false → Hook.interactions s = [] →
       Hook.deferredUntil (Hook.lastProcessTime s + 33) s →
       Hook.clock s + 10 < Hook.lastProcessTime s + 33 →
       Hook.accepted tabNames tab1 s = true → Hook.accepted tabNames tab2 s = true →
       forallb Hook.isCallbackEvent es = true →
       let q := map_set tab2 y2 (map_set tab1 y1 (Hook.syncQueue s)) in
       let s2 := Hook.run contentInset tabNames
                   [Hook.CallRequestSync tab1 y1; Hook.Elapse 10; Hook.CallRequestSync tab2 y2] s in
       let s3 := Hook.run contentInset tabNames es s2 in
       Hook.batchPending s3 = false → Hook.interactions s3 = [] →
       ∃ t, Hook.applied s3 = Hook.applied s ++ [t] ∧ Hook.lastProcessTime s + 33 ≤ t
            ∧ (∀ tab, scrollsOf tab (Hook.effects s3)
                      = scrollsOf tab (Hook.effects s)
                        ++ match map_get tab q with
                           | Some v =>
                               if hasRef (Hook.refMap s) tab then [v - contentInset] else []
                           | None => []
                           end)
            ∧ Hook.syncQueue s3 = [] ∧ Hook.isProcessing s3 = false).
Proof.
  split; [|split; [|split]].
  - intros s. unfold Hook.getThrottleInterval. destruct (Hook.performanceStrategy s); reflexivity.
  - intros tabNames tab y s Hacc Hlt s'. unfold s'.
    rewrite (HookFacts.requestSync_deferred tabNames tab y s Hacc Hlt). simpl.
    split; [apply JsFacts.map_get_set_eq|]. repeat split.
  - intros contentInset tabNames s tab1 tab2 y1 y2 es Hstrat Hproc Hint Hdef Hclock Ha1 Ha2 Hes.
    apply (HookFacts.moderate_throttle contentInset tabNames s tab1 tab2 y1 y2 es); assumption.
  - intros contentInset tabNames s tab1 tab2 y1 y2 es Hfun Hstrat Hsc Hproc Hint Hdef Hclock
      Ha1 Ha2 Hes.
    apply (HookFacts.moderate_throttle_exact contentInset tabNames s tab1 tab2 y1 y2 es);
      assumption.
Qed.

(** Witness of [throttle_boundary]: the moderate hook of [moderateIdle], whose
    prior batch was drained at 1180, gets requests at 1185 and 1195; the
    first timeout fires at 1215 and the batch is applied; the second timeout
    finds the queue empty. *)
Lemma throttle_boundary_witness :
  let s := moderateIdle in
  let s2 := Hook.run 0 tabs123
              [Hook.CallRequestSync "tab1" 70; Hook.Elapse 10; Hook.CallRequestSync "tab2" 80]%string s in
  let s3 := Hook.run 0 tabs123
              [Hook.Elapse 20; Hook.FireTimer 0; Hook.RunAfterInteractions; Hook.FireTimer 0] s2 in
  Hook.performanceStrategy s = moderate
  ∧ Hook.lastProcessTime s = 1180 ∧ Hook.clock s = 1185
  ∧ ∃ t, Hook.applied s3 = [1180] ++ [t] ∧ 1213 ≤ t
         ∧ scrollsOf "tab1" (Hook.effects s3) = scrollsOf "tab1" (Hook.effects s) ++ [70]
         ∧ scrollsOf "tab2" (Hook.effects s3) = scrollsOf "tab2" (Hook.effects s) ++ [80].
Proof.
  intros s s2 s3.
  split; [vm_compute; reflexivity|]. split; [vm_compute; reflexivity|].
  split; [vm_compute; reflexivity|].
  destruct throttle_boundary as (_ & _ & _ & Hexact).
  assert (Hfun : functional (Hook.syncQueue s)).
  { replace (Hook.syncQueue s) with (@nil (string * Z)) by (vm_compute; reflexivity).
    apply NoDup_nil_2. }
  assert (Hdef : Hook.deferredUntil (Hook.lastProcessTime s + 33) s).
  { unfold Hook.deferredUntil. replace (Hook.timers s) with (@nil Hook.Timer)
      by (vm_compute; reflexivity). constructor. }
  destruct (Hexact 0 tabs123 s "tab1"%string "tab2"%string 70 80
              [Hook.Elapse 20; Hook.FireTimer 0; Hook.RunAfterInteractions; Hook.FireTimer 0]
              Hfun)
    as (t & Ha & Hb & He & _);
    [vm_compute; reflexivity | vm_compute; reflexivity | vm_compute; reflexivity
    | vm_compute; reflexivity | exact Hdef
    | vm_compute; reflexivity | vm_compute; reflexivity | vm_compute; reflexivity
    | reflexivity | vm_compute; reflexivity | vm_compute; reflexivity | ].
  exists t. split; [exact Ha|]. split; [exact Hb|].
  split; [exact (He "tab1"%string)|exact (He "tab2"%string)].
Defined.

End SchedulerFacts.

(** * Further properties of the code *)

(** ** More on the virtualization window *)

Module ManagerExtras.
Import VirtualizedTabManager VirtualizedTabManagerFacts.

Section Extras.
Context {Data : Type}.
Implicit Types (m : t Data).

Lemma half_bounds (ws : Z) : 1 ≤ ws → 0 ≤ ws / 2 ∧ ws / 2 + 1 ≤ ws.
Proof.
  intros Hws. pose proof (Z.div_mod ws 2 ltac:(lia)) as Hdm.
  pose proof (Z.mod_pos_bound ws 2 ltac:(lia)) as Hmod. lia.
Qed.

(** With a window of at least one tab, the tab at the focused index is
    visible after [updateVisibility]. *)
Theorem focused_tab_is_visible m (currentIndex : Z) (tabNames : list string) (tab : string) :
  1 ≤ windowSize m →
  Js.index tabNames currentIndex = Some tab →
  isVisible tab (updateVisibility currentIndex tabNames m) = true.
Proof.
  intros Hws Hidx. unfold isVisible, updateVisibility. simpl.
  apply bool_decide_eq_true, elem_of_collect.
  exists currentIndex. split; [|exact Hidx].
  assert (Hrange : 0 ≤ currentIndex < Z.of_nat (length tabNames)).
  { unfold Js.index in Hidx. destruct (Z.ltb_spec currentIndex 0) as [|Hpos]; [discriminate|].
    apply lookup_lt_Some in Hidx. lia. }
  destruct (half_bounds (windowSize m) Hws) as [Hlo Hhi].
  unfold windowStart, windowEnd. lia.
Qed.

Lemma size_collect_foldl (tabNames : list string) (l : list Z) (acc : gset string) :
  (size (foldl (fun acc i =>
                  match Js.index tabNames i with
                  | Some name => acc ∪ {[ name ]}
                  | None => acc
                  end) acc l) ≤ size acc + length l)%nat.
Proof.
  revert acc. induction l as [|i l IH]; intros acc; simpl; [lia|].
  etransitivity; [apply IH|].
  destruct (Js.index tabNames i) as [name|]; [|lia].
  rewrite size_union_alt.
  assert (size (({[name]} : gset string) ∖ acc) ≤ 1)%nat.
  { rewrite <- (size_singleton (C := gset string) name).
    apply subseteq_size. intros x Hx.
    apply elem_of_difference in Hx as [Hx _]. exact Hx. }
  lia.
Qed.

Lemma size_collect (tabNames : list string) (start stop : Z) :
  (size (collect tabNames start stop) ≤ Z.to_nat (stop - start + 1))%nat.
Proof.
  unfold collect. etransitivity; [apply size_collect_foldl|].
  rewrite size_empty, length_seqZ. lia.
Qed.

Lemma run_window_bound (cs : list (Call Data)) m (w : Z) :
  windowSize m = w → (size (visibleTabs m) ≤ Z.to_nat w)%nat →
  windowSize (run cs m) = w ∧ (size (visibleTabs (run cs m)) ≤ Z.to_nat w)%nat.
Proof.
  unfold run. revert m. induction cs as [|c cs IH]; intros m Hw Hs; simpl; [auto|].
  destruct c as [i names|name data|]; apply IH; cbn [call].
  - exact Hw.
  - unfold updateVisibility. cbn [visibleTabs].
    etransitivity; [apply size_collect|]. rewrite Hw. unfold windowEnd. lia.
  - unfold cacheTab. destruct (isVisible name m); exact Hw.
  - unfold cacheTab. destruct (isVisible name m); exact Hs.
  - exact Hw.
  - unfold destroy. cbn [visibleTabs]. rewrite size_empty. lia.
Qed.

(** The manager never keeps more tabs visible, nor more payloads cached,
    than its window size. *)
Theorem window_bounds_memory (ws : option Z) (cs : list (Call Data)) :
  let m := run cs (create ws) in
  let w := default 3 ws in
  windowSize m = w
  ∧ (size (visibleTabs m) ≤ Z.to_nat w)%nat
  ∧ (size (tabCache m) ≤ Z.to_nat w)%nat.
Proof.
  intros m w.
  destruct (run_window_bound cs (create ws) w) as [Hw Hs];
    [reflexivity | cbn [create visibleTabs]; rewrite size_empty; lia |].
  split; [exact Hw|]. split; [exact Hs|].
  etransitivity; [|exact Hs].
  rewrite <- size_dom. apply subseteq_size.
  apply (contained_run _ _ (contained_create ws)).
Qed.

(** A window of size zero or less shows and caches nothing, whatever is
    called. *)
Theorem empty_window_caches_nothing (ws : Z) (cs : list (Call Data)) :
  ws ≤ 0 →
  let m := run cs (create (Some ws)) in
  visibleTabs m = ∅ ∧ tabCache m = ∅ ∧ ∀ tab, getCache tab m = None.
Proof.
  intros Hws m.
  destruct (run_window_bound cs (create (Some ws)) ws) as [_ Hv];
    [reflexivity | cbn [create visibleTabs]; rewrite size_empty; lia |].
  assert (Hc : (size (tabCache m) ≤ Z.to_nat ws)%nat).
  { etransitivity; [|exact Hv].
    rewrite <- size_dom. apply subseteq_size.
    apply (contained_run _ _ (contained_create (Some ws))). }
  fold m in Hv.
  replace (Z.to_nat ws) with 0%nat in * by lia.
  assert (Hcache : tabCache m = ∅).
  { apply map_size_empty_inv. lia. }
  split; [|split; [exact Hcache|]].
  - apply leibniz_equiv, size_empty_inv. lia.
  - intros tab. unfold getCache. rewrite Hcache. apply lookup_empty.
Qed.

(** What [cacheTab] stores for a visible tab is what [getCache] returns, the
    other tabs keep their payload, and the payload survives every
    [updateVisibility] that leaves the tab visible. *)
Theorem cacheTab_getCache m (tab : string) (data : Data) :
  isVisible tab m = true →
  getCache tab (cacheTab tab data m) = Some data
  ∧ (∀ other, other ≠ tab → getCache other (cacheTab tab data m) = getCache other m)
  ∧ visibleTabs (cacheTab tab data m) = visibleTabs m
  ∧ (∀ currentIndex tabNames,
       isVisible tab (updateVisibility currentIndex tabNames m) = true →
       getCache tab (updateVisibility currentIndex tabNames (cacheTab tab data m))
       = Some data).
Proof.
  intros Hv. unfold cacheTab. rewrite Hv. unfold getCache. cbn [tabCache visibleTabs].
  split; [apply lookup_insert_eq|].
  split; [intros other Hne; apply lookup_insert_ne; congruence|].
  split; [reflexivity|].
  intros currentIndex tabNames Hkeep.
  unfold updateVisibility. cbn [tabCache visibleTabs windowSize].
  rewrite lookup_evict. case_decide as Hout.
  - destruct Hout as [_ Hout]. exfalso. apply Hout.
    unfold isVisible, updateVisibility in Hkeep. cbn [visibleTabs] in Hkeep.
    apply bool_decide_eq_true in Hkeep. exact Hkeep.
  - apply lookup_insert_eq.
Qed.

(** Calling [updateVisibility] twice with the same arguments does what one
    call does. *)
Theorem updateVisibility_idempotent m (currentIndex : Z) (tabNames : list string) :
  updateVisibility currentIndex tabNames (updateVisibility currentIndex tabNames m)
  = updateVisibility currentIndex tabNames m.
Proof.
  unfold updateVisibility. cbn [windowSize visibleTabs tabCache].
  f_equal. apply map_eq. intros k.
  rewrite lookup_evict. case_decide as Hout; [|reflexivity].
  destruct Hout as [Hin Hout]. apply elem_of_elements in Hin. contradiction.
Qed.

End Extras.

(** Witness of [focused_tab_is_visible]: every index of A..E, with the
    default window. *)
Lemma focused_tab_is_visible_witness :
  isVisible "A"%string (updateVisibility 0 tabsAE (create (Data := nat) None)) = true
  ∧ isVisible "E"%string (updateVisibility 4 tabsAE (create (Data := nat) None)) = true.
Proof.
  split.
  - apply (focused_tab_is_visible (create None) 0 tabsAE "A"%string); [simpl; lia|reflexivity].
  - apply (focused_tab_is_visible (create None) 4 tabsAE "E"%string); [simpl; lia|reflexivity].
Defined.

(** Witness of [empty_window_caches_nothing]. *)
Lemma empty_window_caches_nothing_witness :
  getCache "C"%string
    (run [UpdateVisibility 2 tabsAE; CacheTab "C" 3%nat]%string (create (Some 0))) = None.
Proof.
  apply (empty_window_caches_nothing 0
           [UpdateVisibility 2 tabsAE; CacheTab "C" 3%nat]%string); lia.
Defined.

(** Witness of [cacheTab_getCache]: C is cached while B, C, D are visible and
    kept when the focus moves to D. *)
Lemma cacheTab_getCache_witness :
  let m := updateVisibility 2 tabsAE (create (Data := nat) None) in
  getCache "C"%string (updateVisibility 3 tabsAE (cacheTab "C"%string 3%nat m)) = Some 3%nat.
Proof.
  intros m.
  destruct (cacheTab_getCache m "C"%string 3%nat eq_refl) as (_ & _ & _ & Hkeep).
  apply Hkeep. reflexivity.
Defined.

End ManagerExtras.

(** ** The hook [useLazyTabContent] *)

Module LazyTabContentFacts.
Import LazyTabContent.

Lemma renders_lagged (actives : list bool) (s : State) (seen : bool) :
  shouldRender s = seen → hasRendered s = seen →
  (deps s = Some true → seen = true) →
  renders actives s = lagged seen actives.
Proof.
  revert s seen. induction actives as [|a rest IH]; intros s seen Hsr Hhr Hdeps;
    [reflexivity|].
  cbn [renders lagged]. f_equal.
  - unfold render. cbn [fst]. rewrite Hsr, Hhr. apply orb_diag.
  - destruct s as [sr hr d]. cbn in Hsr, Hhr, Hdeps. subst sr hr.
    apply IH; unfold render, effect; cbn;
      destruct d as [[|]|], a, seen; cbn; try reflexivity; try discriminate;
      try (intros _; reflexivity);
      exfalso; specialize (Hdeps eq_refl); discriminate.
Qed.

Lemma lagged_lookup (actives : list bool) (seen : bool) (k : nat) (r : bool) :
  lagged seen actives !! k = Some r →
  r = seen || existsb id (take k actives).
Proof.
  revert seen k. induction actives as [|a rest IH]; intros seen k Hk; [discriminate|].
  destruct k as [|k]; simpl in *.
  - injection Hk as <-. rewrite orb_false_r. reflexivity.
  - rewrite (IH _ _ Hk). unfold id at 2. rewrite orb_assoc. reflexivity.
Qed.

(** The [shouldRender] returned by a render tells whether an earlier render
    was active: the render in which the tab first becomes active still
    returns false, and once a render has been active every later render
    returns true, active or not. *)
Theorem shouldRender_lags_one_render (actives : list bool) (k : nat) (r : bool) :
  renders actives mount !! k = Some r →
  r = existsb id (take k actives).
Proof.
  intros Hk. rewrite (renders_lagged actives mount false) in Hk;
    [|reflexivity|reflexivity|discriminate].
  apply lagged_lookup in Hk. exact Hk.
Qed.

(** Witness of [shouldRender_lags_one_render]: inactive, active, active,
    inactive. *)
Lemma shouldRender_lags_one_render_witness :
  renders [false; true; true; false] mount !! 1%nat = Some false
  ∧ false = existsb id (take 1 [false; true; true; false]).
Proof.
  split; [reflexivity|].
  apply (shouldRender_lags_one_render [false; true; true; false] 1 false). reflexivity.
Defined.

End LazyTabContentFacts.

(** ** The hook [useTabMemoryOptimization] *)

Module TabMemoryFacts.
Import TabMemory.

Section Facts.
Context {Data : Type}.
Implicit Types (s : State Data).

Lemma effect_lookup (a t : Z) s (i : Z) :
  getCachedData i (effect a t s)
  = if outside (rangeFor a t).1 (rangeFor a t).2 i then None else getCachedData i s.
Proof.
  unfold getCachedData, effect, rangeFor. cbn [memoryCache fst snd].
  destruct (outside _ _ i) eqn:Hout.
  - apply map_lookup_filter_None. right. intros x _. cbn. congruence.
  - destruct (memoryCache s !! i) as [x|] eqn:Hx.
    + apply map_lookup_filter_Some. split; [exact Hx|exact Hout].
    + apply map_lookup_filter_None. left. exact Hx.
Qed.

Lemma outside_inside (lo hi i : Z) :
  outside lo hi i = negb ((lo <=? i) && (i <=? hi)).
Proof. unfold outside. destruct (Z.ltb_spec i lo), (Z.leb_spec lo i), (Z.ltb_spec hi i), (Z.leb_spec i hi); simpl; try reflexivity; lia. Qed.

Lemma call_rangeFollows (c : Call Data) s : rangeFollows s → rangeFollows (call c s).
Proof.
  unfold rangeFollows. intros Hs. destruct c as [a t|i d]; cbn [call].
  - unfold render. cbn [deps visibleRange].
    destruct (deps s) as [[a0 t0]|] eqn:Hd; [|reflexivity].
    destruct (Z.eqb_spec a0 a) as [->|Hne]; [|reflexivity].
    destruct (Z.eqb_spec t0 t) as [->|Hne]; [|reflexivity].
    exact Hs.
  - exact Hs.
Qed.

Lemma run_rangeFollows (cs : list (Call Data)) s : rangeFollows s → rangeFollows (run cs s).
Proof.
  unfold run. revert s. induction cs as [|c cs IH]; intros s Hs; simpl; [exact Hs|].
  apply IH, call_rangeFollows, Hs.
Qed.

(** Whatever was called before, after a render the visible range is
    [[max(0, active - 1), min(total - 1, active + 1)]]: it has at most three
    indices, lies inside the tabs, and holds the active index when that is
    the index of a tab. *)
Theorem render_sets_range (totalTabs0 : Z) (cs : list (Call Data)) (a t : Z) :
  let s := render a t (run cs (mount totalTabs0)) in
  visibleRange s = (Z.max 0 (a - 1), Z.min (t - 1) (a + 1))
  ∧ (∀ i, isInVisibleRange i s = true → 0 ≤ i < t ∧ a - 1 ≤ i ≤ a + 1)
  ∧ (0 ≤ a < t → isInVisibleRange a s = true).
Proof.
  intros s.
  assert (Hrange : visibleRange s = (Z.max 0 (a - 1), Z.min (t - 1) (a + 1))).
  { pose proof (call_rangeFollows (Render a t) _
                  (run_rangeFollows cs (mount totalTabs0) I)) as H.
    exact H. }
  split; [exact Hrange|].
  unfold isInVisibleRange. rewrite Hrange. cbn [fst snd]. split.
  - intros i Hi. apply andb_prop in Hi as [H1 H2].
    apply Z.leb_le in H1. apply Z.leb_le in H2. lia.
  - intros Ha. apply andb_true_intro. split; apply Z.leb_le; lia.
Qed.

(** When the active index or the tab count changed, the render evicts the
    cached data of every index outside the new range and keeps the rest. *)
Theorem render_evicts_outside s (a t : Z) :
  deps s ≠ Some (a, t) →
  ∀ i, getCachedData i (render a t s)
       = if isInVisibleRange i (render a t s) then getCachedData i s else None.
Proof.
  intros Hdeps i.
  assert (Hr : render a t s
               = {| visibleRange := visibleRange (effect a t s);
                    memoryCache := memoryCache (effect a t s);
                    deps := Some (a, t) |}).
  { unfold render. destruct (deps s) as [[a0 t0]|]; [|reflexivity].
    destruct (Z.eqb_spec a0 a) as [->|Hne]; [|reflexivity].
    destruct (Z.eqb_spec t0 t) as [->|Hne]; [congruence|].
    rewrite andb_false_r. reflexivity. }
  rewrite Hr. unfold isInVisibleRange. cbn [visibleRange].
  change (getCachedData i {| visibleRange := visibleRange (effect a t s);
                             memoryCache := memoryCache (effect a t s);
                             deps := Some (a, t) |})
    with (getCachedData i (effect a t s)).
  rewrite effect_lookup, outside_inside. unfold effect, rangeFor. cbn [visibleRange fst snd].
  destruct (_ && _); reflexivity.
Qed.

(** [cacheData] stores at any index, visible or not: [getCachedData] returns
    the data, the other indices are untouched, and the data stays through
    every render that repeats the active index and tab count of the previous
    one. *)
Theorem cacheData_is_unconditional s (i : Z) (d : Data) :
  getCachedData i (cacheData i d s) = Some d
  ∧ (∀ j, j ≠ i → getCachedData j (cacheData i d s) = getCachedData j s)
  ∧ (∀ a t, deps s = Some (a, t) →
            getCachedData i (render a t (cacheData i d s)) = Some d).
Proof.
  unfold getCachedData, cacheData. cbn [memoryCache].
  split; [apply lookup_insert_eq|].
  split; [intros j Hne; apply lookup_insert_ne; congruence|].
  intros a t Hd. unfold render. cbn [deps]. rewrite Hd, !Z.eqb_refl.
  cbn [negb andb memoryCache]. apply lookup_insert_eq.
Qed.

End Facts.

(** Witness of [render_sets_range]: tab 4 of 5 becomes active after tab 1. *)
Lemma render_sets_range_witness :
  let s := render 4 5 (run [Render 1 5; CacheData 0 7%nat] (mount 5)) in
  visibleRange s = (3, 4) ∧ isInVisibleRange 4 s = true.
Proof.
  intros s.
  destruct (render_sets_range (Data := nat) 5 [Render 1 5; CacheData 0 7%nat] 4 5)
    as (Hrange & _ & Hactive).
  split; [exact Hrange|]. apply Hactive. lia.
Defined.

(** Witness of [render_evicts_outside]: data cached at indices 0 and 1 while
    tab 1 of 5 is active; tab 3 becomes active. *)
Lemma render_evicts_outside_witness :
  let s := run [Render 1 5; CacheData 0 7%nat; CacheData 2 9%nat] (mount 5) in
  getCachedData 0 (render 3 5 s) = None
  ∧ getCachedData 2 (render 3 5 s) = Some 9%nat.
Proof.
  intros s.
  assert (Hd : deps s ≠ Some (3, 5)) by discriminate.
  split; rewrite (render_evicts_outside s 3 5 Hd); reflexivity.
Defined.

(** Witness of [cacheData_is_unconditional]: index 4 is outside the range
    [0, 2] of active tab 1 and is cached all the same. *)
Lemma cacheData_is_unconditional_witness :
  let s := render 1 5 (mount (Data := nat) 5) in
  isInVisibleRange 4 s = false
  ∧ getCachedData 4 (render 1 5 (cacheData 4 8%nat s)) = Some 8%nat.
Proof.
  intros s. split; [reflexivity|].
  destruct (cacheData_is_unconditional s 4 8%nat) as (_ & _ & Hkeep).
  apply Hkeep. reflexivity.
Defined.

End TabMemoryFacts.

(** ** More on the scheduler of the hook *)

Module HookExtras.
Import Js JsFacts Hook HookFacts.

Section Extras.
Context (contentInset : Z) (tabNames : list string).

Abbreviation step := (step contentInset tabNames).
Abbreviation run := (run contentInset tabNames).

(** *** What a drain does to every tab *)

(** From any reachable state with the guards open, draining the queue and
    running the interaction callback gives every tab whose surface is
    attached exactly its queued value, less the content inset, and gives
    nothing to a tab that is detached or not queued; the queue is left
    empty and the drain time becomes [lastProcessTime]. *)
Theorem drain_serves_each_tab_once (refs : gmap string bool) (scrolling : bool) (now : Z)
    (es0 : list Event) :
  let s := run es0 (init refs scrolling now) in
  isScrolling s = false → isProcessing s = false → syncQueue s ≠ [] →
  let s' := step RunAfterInteractions (Hook.processBatch s) in
  (∀ tab, scrollsOf tab (effects s')
          = scrollsOf tab (effects s)
            ++ match map_get tab (syncQueue s) with
               | Some v => if hasRef (refMap s) tab then [v - contentInset] else []
               | None => []
               end)
  ∧ syncQueue s' = [] ∧ isProcessing s' = false ∧ interactions s' = []
  ∧ lastProcessTime s' = clock s.
Proof.
  intros s Hscroll Hproc Hne s'.
  destruct (reachable_consistent contentInset tabNames refs scrolling now es0) as [Hq Hp].
  fold s in Hq, Hp. rewrite Hproc in Hp.
  unfold s'. rewrite (processBatch_open s Hscroll Hne Hproc).
  cbn [Hook.step]. simpl interactions. rewrite Hp. simpl.
  split; [|repeat split].
  intros tab. rewrite scrollsOf_app, (scrollsOf_applyEntries contentInset).
  rewrite (entriesOf_functional tab (syncQueue s) Hq).
  destruct (map_get tab (syncQueue s)), (hasRef (refMap s) tab); reflexivity.
Qed.

(** *** The tab switch *)

(** A tab switch that starts while no batch is in flight discards what is
    queued: whatever the event loop runs afterwards, no correction is
    applied; the only effect is the page change, and only when the container
    is there. *)
Theorem smartTabSwitch_discards_queue (s : State) (targetIndex : Z) (container : bool)
    (es : list Event) :
  isProcessing s = false → interactions s = [] →
  forallb isLoopEvent es = true →
  let s' := run es (smartTabSwitch targetIndex container s) in
  effects s' = effects s ++ (if container then [SetPage targetIndex] else [])
  ∧ syncQueue s' = [].
Proof.
  intros Hproc Hint Hes s'.
  set (E := effects s ++ (if container then [SetPage targetIndex] else [])).
  assert (Hinv : effects s' = E ∧ syncQueue s' = [] ∧ interactions s' = []).
  { apply (run_invariant contentInset tabNames isLoopEvent
             (fun x => effects x = E ∧ syncQueue x = [] ∧ interactions x = []));
      [|exact Hes|].
    - intros e x He (He1 & He2 & He3).
      destruct e as [ms|i| |tab y|idx c|b|tab r| ]; try discriminate; cbn [Hook.step];
        try (repeat split; assumption).
      + destruct (timers x !! i) as [t|]; [|repeat split; assumption].
        destruct (due t <=? clock x); [|repeat split; assumption].
        destruct (callback t) as [|start]; cbn [fire].
        * rewrite processBatch_closed by (right; left; exact He2). repeat split; assumption.
        * set (x1 := set_timers (delete i (timers x)) x).
          destruct (recordTabSwitch_frame (clock x1 - start) x1) as (Eq & _ & Ei & Ee & _).
          rewrite Eq, Ei, Ee. repeat split; assumption.
      + rewrite He3. repeat split; assumption.
    - unfold smartTabSwitch, setTimeout, E. destruct container; cbn;
        rewrite ?app_nil_r; repeat split; assumption. }
  destruct Hinv as (H1 & H2 & _). split; assumption.
Qed.

(** *** A request that nothing will drain *)

(** A request that arrives outside the throttle interval while a batch is in
    flight is put in the queue without a timeout: if no timeout is pending,
    it stays in the queue whatever the event loop runs, until another
    request arrives. *)
Theorem request_during_batch_is_stranded (s : State) (tab : string) (y : Z)
    (es : list Event) :
  isProcessing s = true → timers s = [] →
  accepted tabNames tab s = true →
  getThrottleInterval s ≤ clock s - lastProcessTime s →
  forallb isLoopEvent es = true →
  let s' := run es (requestSync tabNames tab y s) in
  syncQueue s' = map_set tab y (syncQueue s) ∧ timers s' = []
  ∧ map_get tab (syncQueue s') = Some y.
Proof.
  intros Hproc Htimers Hacc Hle Hes s'.
  set (q := map_set tab y (syncQueue s)).
  assert (Hinv : syncQueue s' = q ∧ timers s' = []).
  { apply (run_invariant contentInset tabNames isLoopEvent
             (fun x => syncQueue x = q ∧ timers x = [])); [|exact Hes|].
    - intros e x He [Hq Ht].
      destruct e as [ms|i| |tab' y'|idx c|b|tab' r| ]; try discriminate; cbn [Hook.step];
        try (split; assumption).
      + rewrite Ht. cbn. split; assumption.
      + destruct (interactions x); split; assumption.
    - destruct (requestSync_cases tabNames tab y s) as [[Hrej _]|[(_ & _ & ->)|(_ & Hlt & _)]];
        [congruence| |lia].
      rewrite processBatch_closed by (right; right; exact Hproc).
      split; [reflexivity|exact Htimers]. }
  destruct Hinv as [Hq Ht]. split; [exact Hq|]. split; [exact Ht|].
  rewrite Hq. apply map_get_set_eq.
Qed.

(** *** What the switch timer measures *)

Lemma recordTabSwitch_measured (d : Z) (s : State) :
  50 ≤ d → measured s → measured (recordTabSwitch d s).
Proof.
  intros Hd [Ht Hs].
  destruct (recordTabSwitch_frame d s) as (_ & _ & _ & _ & _ & Et & _).
  split; [rewrite Et; exact Ht|].
  unfold recordTabSwitch.
  set (pushed := push (switchTimes s) d).
  assert (Hp : Forall (fun d => 50 ≤ d) pushed).
  { unfold pushed, push. apply Forall_app. split; [exact Hs|]. apply Forall_singleton. exact Hd. }
  assert (Hk : Forall (fun d => 50 ≤ d)
                 (if (10 <? length pushed)%nat then shift pushed else pushed)).
  { destruct (10 <? length pushed)%nat; [|exact Hp].
    unfold shift. destruct pushed; [exact Hp|]. apply Forall_cons in Hp as [_ Hp]. exact Hp. }
  destruct (3 <=? _)%nat; exact Hk.
Qed.

Lemma step_measured (e : Event) (s : State) : measured s → measured (step e s).
Proof.
  intros Hs. pose proof Hs as [Ht Hd].
  destruct e as [ms|i| |tab y|idx c|b|tab r| ]; cbn [Hook.step]; try exact Hs.
  - destruct (timers s !! i) as [t|] eqn:Hi; [|exact Hs].
    destruct (Z.leb_spec (due t) (clock s)) as [Hdue|_]; [|exact Hs].
    assert (Hs1 : measured (set_timers (delete i (timers s)) s)).
    { split; [apply Forall_delete, Ht|exact Hd]. }
    destruct (callback t) as [|start] eqn:Hcb; cbn [fire].
    + destruct (processBatch_cases (set_timers (delete i (timers s)) s))
        as [->|(_ & _ & _ & ->)]; exact Hs1.
    + apply recordTabSwitch_measured; [|exact Hs1].
      rewrite Forall_lookup in Ht. specialize (Ht i t Hi).
      unfold settleDelayed in Ht. rewrite Hcb in Ht. cbn. lia.
  - destruct (interactions s); exact Hs.
  - destruct (requestSync_cases tabNames tab y s) as [[_ ->]|[(_ & _ & ->)|(_ & _ & ->)]].
    + exact Hs.
    + destruct (processBatch_cases (set_syncQueue (map_set tab y (syncQueue s)) s))
        as [->|(_ & _ & _ & ->)]; exact Hs.
    + split; [|exact Hd]. cbn. apply Forall_app. split; [exact Ht|].
      apply Forall_singleton. exact I.
  - unfold smartTabSwitch, setTimeout.
    split; [|destruct c; exact Hd].
    destruct c; cbn; (apply Forall_app; split; [exact Ht|]); apply Forall_singleton;
      unfold settleDelayed; cbn; destruct (performanceStrategy s); lia.
  - split; [exact Ht|]. cbn. apply Forall_nil_2.
Qed.

Lemma reachable_measured (refs : gmap string bool) (scrolling : bool) (now : Z)
    (es : list Event) :
  measured (run es (init refs scrolling now)).
Proof.
  apply (run_invariant contentInset tabNames (fun _ => true) measured).
  - intros e s _. apply step_measured.
  - induction es; simpl; auto.
  - split; apply Forall_nil_2.
Qed.

Lemma sum_at_least (l : list Z) (c : Z) :
  Forall (fun d => c ≤ d) l → c * Z.of_nat (length l) ≤ sum l.
Proof.
  induction l as [|x l IH] using rev_ind; intros Hl; [unfold sum; simpl; lia|].
  apply Forall_app in Hl as [Hl Hx]. rewrite Forall_singleton in Hx.
  rewrite sum_app, length_app, Nat2Z.inj_add, Z.mul_add_distr_l.
  specialize (IH Hl). simpl length. lia.
Qed.

Lemma sum_exact (l : list Z) (c : Z) :
  Forall (fun d => c ≤ d) l → sum l ≤ c * Z.of_nat (length l) → Forall (fun d => d = c) l.
Proof.
  induction l as [|x l IH] using rev_ind; intros Hl Hsum; [apply Forall_nil_2|].
  apply Forall_app in Hl as [Hl Hx]. rewrite Forall_singleton in Hx.
  rewrite sum_app, length_app, Nat2Z.inj_add, Z.mul_add_distr_l in Hsum.
  simpl length in Hsum.
  pose proof (sum_at_least l c Hl) as Hlow.
  apply Forall_app. split; [apply IH; [exact Hl|lia]|].
  apply Forall_singleton. lia.
Qed.

(** The switch timer fires no earlier than its delay, so every duration the
    hook records is at least 50 ms: the average it reports is 0 (no sample
    yet) or at least 50. *)
Theorem recorded_durations_include_the_delay (refs : gmap string bool) (scrolling : bool)
    (now : Z) (es : list Event) :
  let s := run es (init refs scrolling now) in
  Forall (fun d => 50 ≤ d) (switchTimes s)
  ∧ ((getPerformanceMetrics s).2 == 0 ∨ 50 <= (getPerformanceMetrics s).2)%Q.
Proof.
  intros s. destruct (reachable_measured refs scrolling now es) as [_ Hd]. fold s in Hd.
  split; [exact Hd|].
  unfold getPerformanceMetrics. cbn [snd].
  destruct (Nat.ltb_spec 0 (length (switchTimes s))) as [Hpos|Hzero]; [right|left; reflexivity].
  unfold divide. apply Qle_shift_div_l.
  - rewrite <- (Zlt_Qlt 0). lia.
  - change 50%Q with (inject_Z 50). rewrite <- inject_Z_mult, <- Zle_Qle.
    apply sum_at_least, Hd.
Qed.

(** While the hook is mounted, once three switches are retained the
    strategy is [normal] only if every retained switch took exactly 50 ms. *)
Theorem normal_needs_exact_delays (refs : gmap string bool) (scrolling : bool)
    (now : Z) (es : list Event) :
  forallb isLiveEvent es = true →
  let s := run es (init refs scrolling now) in
  (3 ≤ length (switchTimes s))%nat → performanceStrategy s = normal →
  Forall (fun d => d = 50) (switchTimes s).
Proof.
  intros Hes s Hlen Hnormal.
  destruct (reachable_measured refs scrolling now es) as [_ Hd]. fold s in Hd.
  destruct (MonitorFacts.hook_run_follows contentInset tabNames es _ Hes
              (MonitorFacts.strategyFollows_init refs scrolling now)) as [Hstrat _].
  fold s in Hstrat. rewrite Hnormal in Hstrat. unfold strategyFor in Hstrat.
  destruct (Nat.ltb_spec (length (switchTimes s)) 3) as [Hlt|_]; [lia|].
  destruct (Z.ltb_spec (100 * Z.of_nat (length (switchTimes s))) (sum (switchTimes s)))
    as [|H100]; [discriminate|].
  destruct (Z.ltb_spec (50 * Z.of_nat (length (switchTimes s))) (sum (switchTimes s)))
    as [|H50]; [discriminate|].
  apply sum_exact; assumption.
Qed.

(** *** Coalescing *)

(** Two requests for one tab that both wait (they arrive during a gesture
    or inside the throttle interval), with only host events around them
    and no batch in flight, leave one entry for the tab in the queue, with
    the later value.  When the guards are then open and the surface is
    attached, the drain and its interaction callback apply exactly one
    correction to the tab, to the later value less the content inset; and
    until the next request nothing more is applied to it, whatever timeouts
    fire. *)
Theorem hook_requests_coalesce (refs : gmap string bool) (scrolling : bool) (now : Z)
    (es0 evs1 evs2 es : list Event) (tab : string) (v1 v2 : Z) :
  let s := run es0 (init refs scrolling now) in
  let s1 := run evs1 (requestSync tabNames tab v1 s) in
  let s2 := run evs2 (requestSync tabNames tab v2 s1) in
  forallb isHostEvent evs1 = true → forallb isHostEvent evs2 = true →
  waits s → waits s1 → accepted tabNames tab s1 = true →
  isProcessing s = false →
  isScrolling s2 = false → hasRef (refMap s2) tab = true →
  forallb isLoopEvent es = true →
  let done := step RunAfterInteractions (Hook.processBatch s2) in
  entriesOf tab (syncQueue s2) = [v2]
  ∧ scrollsOf tab (effects done) = scrollsOf tab (effects s) ++ [v2 - contentInset]
  ∧ syncQueue done = []
  ∧ scrollsOf tab (effects (run es done)) = scrollsOf tab (effects s) ++ [v2 - contentInset].
Proof.
  intros s s1 s2 H1 H2 Hw Hw1 Hacc Hproc Hscroll Href Hes done.
  assert (Hcons : consistent s2).
  { unfold s2, s1, s.
    change (requestSync tabNames tab v2 ?x) with (step (CallRequestSync tab v2) x).
    change (requestSync tabNames tab v1 ?x) with (step (CallRequestSync tab v1) x).
    apply (run_invariant contentInset tabNames (fun _ => true) consistent);
      [intros; apply step_consistent; assumption | clear; induction evs2; simpl; auto |].
    apply step_consistent.
    apply (run_invariant contentInset tabNames (fun _ => true) consistent);
      [intros; apply step_consistent; assumption | clear; induction evs1; simpl; auto |].
    apply step_consistent, reachable_consistent. }
  (* the first request *)
  assert (Hfirst : isProcessing s1 = false ∧ effects s1 = effects s).
  { destruct (host_events_frame contentInset tabNames evs1 (requestSync tabNames tab v1 s) H1)
      as (_ & Ep & _ & Ee & _).
    unfold s1. rewrite Ep, Ee, requestSync_effects. split; [|reflexivity].
    destruct (requestSync_waits tabNames tab v1 s Hw) as [[_ ->]|[_ [ts ->]]];
      exact Hproc. }
  destruct Hfirst as [Hproc1 Heff1].
  (* the second request *)
  assert (Hsecond : isProcessing s2 = false ∧ effects s2 = effects s
                    ∧ map_get tab (syncQueue s2) = Some v2).
  { destruct (host_events_frame contentInset tabNames evs2 (requestSync tabNames tab v2 s1) H2)
      as (Eq & Ep & _ & Ee & _).
    unfold s2. rewrite Eq, Ep, Ee, requestSync_effects, Heff1.
    destruct (requestSync_waits tabNames tab v2 s1 Hw1)
      as [[Hrej _]|[_ [ts ->]]]; [congruence|].
    cbn. split; [exact Hproc1|]. split; [reflexivity|]. apply map_get_set_eq. }
  destruct Hsecond as (Hproc2 & Heff2 & Hget).
  destruct (drain_applies contentInset tabNames s2 tab v2 Hcons Hget Hscroll Hproc2 Href)
    as (Hs & _ & Hq & _).
  fold done in Hs, Hq.
  assert (Hidle : interactions done = []).
  { destruct Hcons as [_ Hint]. rewrite Hproc2 in Hint.
    assert (Hne : syncQueue s2 ≠ []) by (intros E; rewrite E in Hget; discriminate).
    unfold done. rewrite (processBatch_open s2 Hscroll Hne Hproc2).
    cbn. rewrite Hint. reflexivity. }
  split; [|split; [|split]].
  - destruct Hcons as [Hfun _]. rewrite (entriesOf_functional tab _ Hfun), Hget. reflexivity.
  - rewrite Hs, Heff2. reflexivity.
  - exact Hq.
  - destruct (drained_hook_stays contentInset tabNames es done Hq Hidle Hes) as (_ & _ & -> & _).
    rewrite Hs, Heff2. reflexivity.
Qed.

End Extras.

(** Witness of [drain_serves_each_tab_once]: tabs 1 and 2 are queued during a
    gesture, tab 2 is detached, the gesture ends. *)
Lemma drain_serves_each_tab_once_witness :
  let s := Hook.run 10 tabs123
             [CallRequestSync "tab1" 50; CallRequestSync "tab2" 100;
              HostSetRef "tab2" None; HostSetScrolling false]%string
             (init refs123 true 1000) in
  let s' := Hook.step 10 tabs123 RunAfterInteractions (Hook.processBatch s) in
  scrollsOf "tab1" (effects s') = [40]
  ∧ scrollsOf "tab2" (effects s') = []
  ∧ scrollsOf "tab3" (effects s') = [].
Proof.
  intros s s'.
  destruct (drain_serves_each_tab_once 10 tabs123 refs123 true 1000
              [CallRequestSync "tab1" 50; CallRequestSync "tab2" 100;
               HostSetRef "tab2" None; HostSetScrolling false]%string)
    as (Hall & _); [reflexivity | reflexivity | discriminate |].
  split; [|split].
  - exact (Hall "tab1"%string).
  - exact (Hall "tab2"%string).
  - exact (Hall "tab3"%string).
Defined.

(** Witness of [smartTabSwitch_discards_queue]: a request waits, the switch
    starts, and its timeouts fire. *)
Lemma smartTabSwitch_discards_queue_witness :
  let s := Hook.run 0 tabs123 [CallRequestSync "tab1" 50]%string (init refs123 true 1000) in
  let es := [HostSetScrolling false; Elapse 60; FireTimer 0; FireTimer 0;
             RunAfterInteractions] in
  syncQueue s = [("tab1"%string, 50)]
  ∧ effects (Hook.run 0 tabs123 es (smartTabSwitch 1 true s)) = [SetPage 1].
Proof.
  intros s es. split; [reflexivity|].
  destruct (smartTabSwitch_discards_queue 0 tabs123 s 1 true es) as [Heff _];
    [reflexivity | reflexivity | reflexivity |].
  exact Heff.
Defined.

(** Witness of [request_during_batch_is_stranded]: a first request is drained
    at once; a second arrives before the batch is applied. *)
Lemma request_during_batch_is_stranded_witness :
  let s := Hook.run 0 tabs123 [CallRequestSync "tab1" 50]%string (init refs123 false 1000) in
  let s' := Hook.run 0 tabs123 [RunAfterInteractions; Elapse 100]
              (Hook.requestSync tabs123 "tab2" 70 s) in
  isProcessing s = true
  ∧ map_get "tab2" (syncQueue s') = Some 70 ∧ timers s' = [].
Proof.
  intros s s'. split; [reflexivity|].
  destruct (request_during_batch_is_stranded 0 tabs123 s "tab2" 70
              [RunAfterInteractions; Elapse 100]) as (_ & Ht & Hq);
    [reflexivity | reflexivity | reflexivity | vm_compute; discriminate | reflexivity |].
  split; [exact Hq|exact Ht].
Defined.

(** Witness of [normal_needs_exact_delays]: three switches whose timeouts fire
    exactly on time. *)
Lemma normal_needs_exact_delays_witness :
  let es := [CallSmartTabSwitch 1 true; Elapse 50; FireTimer 0;
             CallSmartTabSwitch 2 true; Elapse 50; FireTimer 0;
             CallSmartTabSwitch 1 true; Elapse 50; FireTimer 0] in
  let s := Hook.run 0 tabs123 es (init refs123 false 1000) in
  performanceStrategy s = normal ∧ Forall (fun d => d = 50) (switchTimes s).
Proof.
  intros es s. split; [reflexivity|].
  apply (normal_needs_exact_delays 0 tabs123 refs123 false 1000 es);
    [reflexivity | vm_compute; lia | reflexivity].
Defined.

(** Witness of [hook_requests_coalesce]: the moderate hook of [moderateIdle]
    gets two requests for tab 2 inside the throttle interval; the batch is
    drained; the two timeouts fire afterwards. *)
Lemma hook_requests_coalesce_witness :
  let s := moderateIdle in
  let s1 := Hook.run 0 tabs123 [Elapse 5] (Hook.requestSync tabs123 "tab2" 100 s) in
  let s2 := Hook.run 0 tabs123 [Elapse 5] (Hook.requestSync tabs123 "tab2" 200 s1) in
  let done := Hook.step 0 tabs123 RunAfterInteractions (Hook.processBatch s2) in
  let later := Hook.run 0 tabs123 [Elapse 30; FireTimer 0; FireTimer 0] done in
  syncQueue s2 = [("tab2"%string, 200)]
  ∧ timers done = [{| due := 1213; callback := ProcessBatch |};
                   {| due := 1213; callback := ProcessBatch |}]
  ∧ scrollsOf "tab2" (effects later) = scrollsOf "tab2" (effects s) ++ [200].
Proof.
  intros s s1 s2 done later.
  split; [vm_compute; reflexivity|]. split; [vm_compute; reflexivity|].
  assert (Hw : waits s) by (right; vm_compute; reflexivity).
  assert (Hw1 : waits s1) by (right; vm_compute; reflexivity).
  destruct (hook_requests_coalesce 0 tabs123 refs123 false 1000
              [CallSmartTabSwitch 1 true; Elapse 60; FireTimer 0;
               CallSmartTabSwitch 2 true; Elapse 60; FireTimer 0;
               CallSmartTabSwitch 1 true; Elapse 60; FireTimer 0;
               CallRequestSync "tab1" 5; RunAfterInteractions; Elapse 5]%string
              [Elapse 5] [Elapse 5] [Elapse 30; FireTimer 0; FireTimer 0]
              "tab2"%string 100 200 eq_refl eq_refl Hw Hw1)
    as (_ & _ & _ & Hlater); [vm_compute; reflexivity .. | exact Hlater].
Defined.

End HookExtras.

(** ** More on the scheduler of the class *)

Module TabSyncExtras.
Import Js JsFacts TabSync TabSyncFacts.

Section Extras.
Context (contentInset : Z).

Lemma length_settleOldest (p : Promise) (bs : list (list Promise)) :
  length (settleOldest p bs) = length bs.
Proof.
  induction bs as [|b bs IH]; [reflexivity|].
  simpl. destruct (waitingOf b); simpl; [rewrite IH|]; reflexivity.
Qed.

(** Once the worklet of a batch has raised, the scheduler is blocked.  With
    [isProcessing] set, no frame callback pending and every batch in flight
    holding a promise that raised, then whatever happens short of
    [destroy]: no batch finishes and none is started, [isProcessing] stays
    set, nothing is scrolled, and every request is only stored in the
    queue, which is never cleared. *)
Theorem raised_batch_blocks_scheduler (s : State) (es : list Event) :
  isProcessing s = true → frames s = 0%nat →
  Forall (fun b => existsb isRaised b = true) (inflight s) →
  forallb keepsInstance es = true →
  let s' := run contentInset es s in
  isProcessing s' = true ∧ frames s' = 0%nat
  ∧ length (inflight s') = length (inflight s)
  ∧ popFinished (inflight s') = None
  ∧ effects s' = effects s
  ∧ (∀ tab, is_Some (map_get tab (syncQueue s)) → is_Some (map_get tab (syncQueue s')))
  ∧ (∀ tab y, requestSync tab y s' = set_syncQueue (map_set tab y (syncQueue s')) s').
Proof.
  intros Hproc Hframes Hraised Hes s'.
  assert (Hinv : isProcessing s' = true ∧ frames s' = 0%nat
                 ∧ Forall (fun b => existsb isRaised b = true) (inflight s')
                 ∧ length (inflight s') = length (inflight s)
                 ∧ (∀ tab, is_Some (map_get tab (syncQueue s)) →
                           is_Some (map_get tab (syncQueue s')))).
  { apply (class_run_invariant contentInset keepsInstance
             (fun x => isProcessing x = true ∧ frames x = 0%nat
                       ∧ Forall (fun b => existsb isRaised b = true) (inflight x)
                       ∧ length (inflight x) = length (inflight s)
                       ∧ (∀ tab, is_Some (map_get tab (syncQueue s)) →
                                 is_Some (map_get tab (syncQueue x)))));
      [|exact Hes|repeat split; auto].
    intros e x He (Hp & Hf & Hr & Hl & Hq).
    destruct e as [ms| | | |tab y| |b|tab r]; try discriminate; cbn [TabSync.step].
    - repeat split; assumption.
    - rewrite Hf. repeat split; assumption.
    - destruct (waiting (inflight x)) as [|[tab y] js]; [repeat split; assumption|].
      destruct (worklet_cases contentInset tab y x) as [[_ ->]|[_ ->]];
        cbn -[settleOldest]; rewrite length_settleOldest;
        repeat split; auto using settleOldest_raised.
    - rewrite (popFinished_raised _ Hr). repeat split; assumption.
    - rewrite (class_requestSync_busy tab y x Hp). cbn.
      repeat split; try assumption.
      intros tab' Hin. apply map_get_set_is_Some, Hq, Hin.
    - repeat split; assumption.
    - repeat split; assumption. }
  destruct Hinv as (Hp & Hf & Hr & Hl & Hq).
  split; [exact Hp|]. split; [exact Hf|]. split; [exact Hl|].
  split; [apply popFinished_raised, Hr|]. split; [apply class_never_scrolls|].
  split; [exact Hq|]. intros tab y. apply class_requestSync_busy, Hp.
Qed.

(** [destroy] empties the queue and resets [isProcessing]; until the next
    request no [performSync] is started (frame callbacks that were pending
    find the queue empty) and nothing is scrolled.  It does not cancel the
    syncs already started: their callbacks still run afterwards, oldest
    first, and a worklet whose tab has a ref raises as before. *)
Theorem destroy_keeps_started_syncs (s : State) (es : list Event) :
  forallb isQuietEvent es = true →
  let s' := run contentInset es (destroy s) in
  syncQueue s' = [] ∧ isProcessing s' = false
  ∧ effects s' = effects s
  ∧ (∃ k, waiting (inflight s') = drop k (waiting (inflight s)))
  ∧ (∀ tab y js, waiting (inflight s') = (tab, y) :: js →
       let ran := step contentInset RunSync s' in
       waiting (inflight ran) = js
       ∧ inflight ran
         = settleOldest (if hasRef (refMap s') tab then Raised else Resolved) (inflight s')).
Proof.
  intros Hes s'.
  assert (Hinv : syncQueue s' = [] ∧ isProcessing s' = false
                 ∧ ∃ k, waiting (inflight s') = drop k (waiting (inflight s))).
  { apply (class_run_invariant contentInset isQuietEvent
             (fun x => syncQueue x = [] ∧ isProcessing x = false
                       ∧ ∃ k, waiting (inflight x) = drop k (waiting (inflight s))));
      [|exact Hes|repeat split; exists 0%nat; reflexivity].
    intros e x He (Hq & Hp & [k Hk]).
    destruct e as [ms| | | |tab y| |b|tab r]; try discriminate; cbn [TabSync.step].
    - repeat split; eauto.
    - destruct (frames x) as [|n]; [repeat split; eauto|].
      rewrite class_processBatch_empty by exact Hq. cbn -[waiting]. repeat split; eauto.
    - destruct (waiting (inflight x)) as [|[tab y] js] eqn:Hw; [rewrite Hw; repeat split; eauto|].
      destruct (worklet_cases contentInset tab y x) as [[_ ->]|[_ ->]]; cbn -[waiting settleOldest];
        (split; [exact Hq|]); (split; [exact Hp|]); exists (S k);
        rewrite waiting_settleOldest by reflexivity;
        rewrite Hw, <- (Nat.add_1_r k), <- drop_drop, <- Hk; reflexivity.
    - destruct (popFinished (inflight x)) as [rest|] eqn:Hpop; [|repeat split; eauto].
      cbn -[waiting]. split; [reflexivity|]. split; [reflexivity|].
      exists k. rewrite (waiting_popFinished _ _ Hpop). exact Hk.
    - cbn -[waiting]. repeat split; eauto.
    - cbn -[waiting]. repeat split; eauto.
    - cbn -[waiting]. repeat split; eauto. }
  destruct Hinv as (Hq & Hp & Hk).
  split; [exact Hq|]. split; [exact Hp|].
  split; [unfold s'; rewrite class_never_scrolls; reflexivity|]. split; [exact Hk|].
  intros tab y js Hw ran. unfold ran. cbn [TabSync.step]. rewrite Hw.
  destruct (worklet_cases contentInset tab y s') as [[-> ->]|[-> ->]]; cbn -[waiting settleOldest];
    (split; [rewrite waiting_settleOldest by reflexivity; rewrite Hw; reflexivity|reflexivity]).
Qed.

End Extras.

(** Witness of [raised_batch_blocks_scheduler]: the sync of tab 1 has raised
    when a request for tab 2 arrives; every callback runs. *)
Lemma raised_batch_blocks_scheduler_witness :
  let s := run 0 [CallRequestSync "tab1" 50; RunSync]%string (create refs123 false 1000) in
  let s' := run 0 [Elapse 100; CallRequestSync "tab2" 70; RunFrame; RunSync; RunFinally]%string s in
  inflight s = [[Raised]]
  ∧ isProcessing s' = true
  ∧ syncQueue s' = [("tab1"%string, 50); ("tab2"%string, 70)]
  ∧ effects s' = [].
Proof.
  intros s s'.
  assert (Hr : Forall (fun b => existsb isRaised b = true) (inflight s)).
  { repeat constructor. }
  destruct (raised_batch_blocks_scheduler 0 s
              [Elapse 100; CallRequestSync "tab2" 70; RunFrame; RunSync; RunFinally]%string
              eq_refl eq_refl Hr eq_refl)
    as (Hp & _ & _ & _ & He & _).
  split; [reflexivity|]. split; [exact Hp|]. split; [reflexivity|]. exact He.
Defined.

(** Witness of [destroy_keeps_started_syncs]: the instance is destroyed while
    the sync of tab 1 waits for its callback. *)
Lemma destroy_keeps_started_syncs_witness :
  let s := run 0 [CallRequestSync "tab1" 50]%string (create refs123 false 1000) in
  let s' := run 0 [Elapse 5; RunFrame] (destroy s) in
  syncQueue s' = [] ∧ inflight (step 0 RunSync s') = [[Raised]].
Proof.
  intros s s'.
  destruct (destroy_keeps_started_syncs 0 s [Elapse 5; RunFrame] eq_refl)
    as (Hq & _ & _ & _ & Hrun).
  split; [exact Hq|].
  destruct (Hrun "tab1"%string 50 [] eq_refl) as [_ Hi].
  exact (eq_trans Hi eq_refl).
Defined.

End TabSyncExtras.


(** ** More on the lazy mount controller *)

Module LazyExtras.
Import Lazy LazyFacts.

(** Case analysis on every test a step makes. *)
Ltac split_step :=
  repeat (cbn in *; try assumption; try reflexivity; try discriminate;
          match goal with
          | |- context [if ?c then _ else _] => destruct c eqn:?
          | |- context [match ?x with _ => _ end] => destruct x eqn:?
          end).

Section Extras.
Context (name : string) (cancelLazyFadeIn : bool) (mountDelayMs : Z).

Abbreviation step := (step name cancelLazyFadeIn mountDelayMs).
Abbreviation run := (run name cancelLazyFadeIn mountDelayMs).

Lemma lazy_run_invariant (allowed : Event → bool) (Inv : State → Prop) :
  (∀ e s, allowed e = true → Inv s → Inv (step e s)) →
  ∀ es s, forallb allowed es = true → Inv s → Inv (run es s).
Proof.
  intros Hstep es. unfold Lazy.run.
  induction es as [|e es IH]; intros s Hall Hs; simpl in *; [exact Hs|].
  apply andb_prop in Hall as [He Hes]. apply IH; [exact Hes|]. apply Hstep; assumption.
Qed.

Lemma forallb_all (es : list Event) : forallb (fun _ : Event => true) es = true.
Proof. induction es; simpl; auto. Qed.

(** Once the instance is unmounted nothing mounts the tab any more: timers
    in flight, focus changes and prop changes leave [canMount] as it was. *)
Theorem unmounted_instance_is_inert (es : list Event) (s : State) :
  isSelfMounted s = false →
  canMount (run es s) = canMount s ∧ isSelfMounted (run es s) = false.
Proof.
  intros Hdead.
  apply (lazy_run_invariant (fun _ => true)
           (fun x => canMount x = canMount s ∧ isSelfMounted x = false));
    [|apply forallb_all|split; [reflexivity|exact Hdead]].
  intros e x _ [Hc Hm].
  destruct e; unfold Lazy.step, mountTimerFired; rewrite ?Hm; split_step; auto.
Qed.

(** A tab that never gets the focus and is never asked to mount eagerly is
    never mounted and never has a mount timer. *)
Theorem unfocused_tab_is_never_mounted (es : list Event) (s : State) :
  canMount s = false → timers s = [] →
  forallb (keepsAway name) es = true →
  canMount (run es s) = false ∧ timers (run es s) = [].
Proof.
  intros Hc Ht Hes.
  apply (lazy_run_invariant (keepsAway name)
           (fun x => canMount x = false ∧ timers x = []));
    [|exact Hes|split; assumption].
  clear. intros e x He [Hc Ht].
  destruct e as [tab|[[|]|]|ms|i| | | ]; try discriminate;
    unfold Lazy.step, focusReaction, startMountedEffect, layoutReaction;
    cbn in He; rewrite ?Hc, ?Ht; cbn;
    try (apply negb_true_iff in He; rewrite He);
    split_step; auto.
Qed.

(** The fade-in never runs backwards: the opacity goes from 0 to the
    animation to 1 and never returns. *)
Theorem fade_never_runs_backwards (es : list Event) (s : State) :
  (opacityRank (opacity s) ≤ opacityRank (opacity (run es s)))%nat.
Proof.
  apply (lazy_run_invariant (fun _ => true)
           (fun x => (opacityRank (opacity s) ≤ opacityRank (opacity x))%nat));
    [|apply forallb_all|lia].
  intros e x _ Hx.
  assert (Hstep : (opacityRank (opacity x) ≤ opacityRank (opacity (step e x)))%nat);
    [|lia].
  clear. destruct e; unfold Lazy.step, focusReaction, startMountedEffect,
    mountTimerFired, layoutReaction, startMountTimer; split_step;
    try lia; destruct (opacity x); cbn in *; try discriminate; lia.
Qed.

(** An eager tab is mounted at once: with [startMounted] true the instance
    starts mounted and opaque, focused or not, and setting the prop on a
    live instance mounts the tab in that very render, whatever timer is
    pending; it then stays mounted. *)
Theorem eager_mount_is_immediate :
  (∀ focused0 now,
     let s := mount name cancelLazyFadeIn mountDelayMs focused0 (Some true) now in
     canMount s = true ∧ opacity s = Opaque ∧ timers s = [])
  ∧ (∀ s es, isSelfMounted s = true →
             canMount (run (SetStartMounted (Some true) :: es) s) = true).
Proof.
  split.
  - intros focused0 now s. unfold s, mount, layoutReaction, focusReaction,
      startMountedEffect. cbn. rewrite andb_false_r. cbn. repeat split.
    destruct cancelLazyFadeIn; reflexivity.
  - intros s es Hlive. unfold Lazy.run. cbn [foldl].
    apply (run_canMount name cancelLazyFadeIn mountDelayMs).
    cbn [Lazy.step]. rewrite Hlive. unfold startMountedEffect. cbn.
    destruct (canMount s) eqn:Hc; cbn; [exact Hc|reflexivity].
Qed.

(** From a state in which the tab is not mounted and has no timer, and as
    long as no eager mount is asked for, a fading instance cannot be mounted
    before [mountDelayMs] have passed. *)
Theorem mount_waits_for_delay (es : list Event) (s : State) :
  cancelLazyFadeIn = false →
  canMount s = false → timers s = [] →
  forallb staysLazy es = true →
  canMount (run es s) = true →
  clock s + Z.max 0 mountDelayMs ≤ clock (run es s).
Proof.
  intros Hfade Hc Ht Hes.
  set (bound := clock s + Z.max 0 mountDelayMs).
  assert (Hinv : clock s ≤ clock (run es s)
                 ∧ Forall (fun t => bound ≤ t.1) (timers (run es s))
                 ∧ (canMount (run es s) = true → bound ≤ clock (run es s))).
  { apply (lazy_run_invariant staysLazy
             (fun x => clock s ≤ clock x
                       ∧ Forall (fun t => bound ≤ t.1) (timers x)
                       ∧ (canMount x = true → bound ≤ clock x)));
      [|exact Hes|].
    - intros e x He (Hclk & Htim & Hmnt).
      destruct e as [tab|p|ms|i| | | ]; cbn [Lazy.step].
      + destruct (isSelfMounted x); [|exact (conj Hclk (conj Htim Hmnt))].
        unfold focusReaction, startMountTimer. rewrite Hfade. cbn.
        match goal with |- context [if ?c then _ else _] => destruct c end;
          cbn; [|exact (conj Hclk (conj Htim Hmnt))].
        split; [exact Hclk|]. split; [|exact Hmnt].
        apply Forall_app. split; [exact Htim|]. apply Forall_singleton. cbn.
        unfold bound. lia.
      + destruct (isSelfMounted x); [|exact (conj Hclk (conj Htim Hmnt))].
        unfold startMountedEffect. cbn.
        destruct p as [[|]|]; [discriminate|exact (conj Hclk (conj Htim Hmnt))
                              |exact (conj Hclk (conj Htim Hmnt))].
      + cbn. split; [lia|]. split; [exact Htim|]. intros H. specialize (Hmnt H). lia.
      + destruct (timers x !! i) as [[due captured]|] eqn:Hi; [|exact (conj Hclk (conj Htim Hmnt))].
        destruct (Z.leb_spec due (clock x)) as [Hdue|_]; [|exact (conj Hclk (conj Htim Hmnt))].
        assert (Hb : bound ≤ due).
        { rewrite Forall_lookup in Htim. exact (Htim i (due, captured) Hi). }
        unfold mountTimerFired. cbn.
        destruct (String.eqb captured name), (isSelfMounted x); cbn;
          (split; [exact Hclk|]); (split; [apply Forall_delete, Htim|]);
          first [exact Hmnt | intros _; lia].
      + destruct (isSelfMounted x && canMount x && negb cancelLazyFadeIn);
          [|exact (conj Hclk (conj Htim Hmnt))].
        unfold layoutReaction. cbn.
        repeat match goal with |- context [if ?c then _ else _] => destruct c end;
          exact (conj Hclk (conj Htim Hmnt)).
      + destruct (isFading (opacity x)); exact (conj Hclk (conj Htim Hmnt)).
      + cbn. exact (conj Hclk (conj Htim Hmnt)).
    - split; [lia|]. split; [rewrite Ht; apply Forall_nil_2|].
      intros H. congruence. }
  intros Hm. apply Hinv, Hm.
Qed.

End Extras.

Section Cancelled.
Context (name : string) (mountDelayMs : Z).

(** With [cancelLazyFadeIn] the instance is opaque from the start, never
    starts a timer, and a live instance that gets the focus is mounted in
    that very reaction. *)
Theorem cancelled_fade_mounts_on_focus (focused0 : string) (startMounted0 : option bool)
    (now : Z) (es : list Event) :
  let s := Lazy.run name true mountDelayMs es
             (mount name true mountDelayMs focused0 startMounted0 now) in
  opacity s = Opaque ∧ timers s = []
  ∧ (isSelfMounted s = true →
     canMount (Lazy.step name true mountDelayMs (FocusChange name) s) = true).
Proof.
  intros s.
  assert (Hinv : opacity s = Opaque ∧ timers s = []
                 ∧ (truthy (wasFocused s) = true → canMount s = true)).
  { apply (lazy_run_invariant name true mountDelayMs (fun _ => true)
             (fun x => opacity x = Opaque ∧ timers x = []
                       ∧ (truthy (wasFocused x) = true → canMount x = true)));
      [|apply forallb_all|].
    - intros e x _ (Ho & Ht & Hw).
      split; [apply step_opaque, Ho|].
      destruct e as [tab|p|ms|i| | | ]; cbn [Lazy.step].
      + destruct (isSelfMounted x); [|split; assumption].
        unfold focusReaction, truthy in *. cbn.
        destruct (wasFocused x) as [[|]|], (canMount x) eqn:C, (String.eqb tab name);
          cbn in *; rewrite ?C; split; auto.
      + destruct (isSelfMounted x); [|split; assumption].
        unfold startMountedEffect. cbn.
        destruct p as [[|]|], (canMount x) eqn:C; cbn in *; rewrite ?C; split; auto.
      + split; assumption.
      + rewrite Ht. cbn. split; assumption.
      + rewrite andb_false_r. split; assumption.
      + destruct (isFading (opacity x)); split; assumption.
      + split; assumption.
    - unfold mount, layoutReaction, focusReaction, startMountedEffect.
      destruct startMounted0 as [[|]|], (String.eqb focused0 name) eqn:E; cbn;
        rewrite ?E; cbn; repeat split; auto; discriminate. }
  destruct Hinv as (Ho & Ht & Hw).
  split; [exact Ho|]. split; [exact Ht|].
  intros Hlive. cbn [Lazy.step]. rewrite Hlive. unfold focusReaction, truthy in *.
  cbn. rewrite JsFacts.eqb_string_refl.
  destruct (wasFocused s) as [[|]|], (canMount s) eqn:C; cbn in *; rewrite ?C; auto.
Qed.

End Cancelled.

(** Witness of [unmounted_instance_is_inert]: B is scheduled, the instance is
    unmounted, the timer fires. *)
Lemma unmounted_instance_is_inert_witness :
  let s := Lazy.run "B" false 50 [FocusChange "B"; Unmount]%string
             (mount "B" false 50 "A" None 0) in
  timers s = [(50, "B"%string)]
  ∧ canMount (Lazy.run "B" false 50 [Elapse 60; TimerFire 0] s) = false.
Proof.
  intros s. split; [reflexivity|].
  destruct (unmounted_instance_is_inert "B" false 50 [Elapse 60; TimerFire 0] s eq_refl)
    as [Hc _].
  exact Hc.
Defined.

(** Witness of [unfocused_tab_is_never_mounted]: the focus moves between A
    and C, tab B stays unmounted. *)
Lemma unfocused_tab_is_never_mounted_witness :
  canMount (Lazy.run "B" false 50
              [FocusChange "C"; Elapse 100; FocusChange "A"; SetStartMounted (Some false)]%string
              (mount "B" false 50 "A" None 0)) = false.
Proof.
  apply (unfocused_tab_is_never_mounted "B" false 50); reflexivity.
Defined.

(** Witness of [eager_mount_is_immediate]: B is scheduled and then made
    eager. *)
Lemma eager_mount_is_immediate_witness :
  let s := Lazy.run "B" false 50 [FocusChange "B"]%string (mount "B" false 50 "A" None 0) in
  canMount s = false
  ∧ canMount (Lazy.run "B" false 50 [SetStartMounted (Some true); FocusChange "A"]%string s)
    = true.
Proof.
  intros s. split; [reflexivity|].
  destruct (eager_mount_is_immediate "B" false 50) as [_ H].
  apply (H s [FocusChange "A"%string]). reflexivity.
Defined.

(** Witness of [mount_waits_for_delay]: B gets the focus at time 20 and its
    timer fires at time 70. *)
Lemma mount_waits_for_delay_witness :
  let s := mount "B" false 50 "A" None 0 in
  let es := [Elapse 20; FocusChange "B"; Elapse 50; TimerFire 0]%string in
  canMount (Lazy.run "B" false 50 es s) = true
  ∧ clock s + Z.max 0 50 ≤ clock (Lazy.run "B" false 50 es s).
Proof.
  intros s es. split; [reflexivity|].
  apply (mount_waits_for_delay "B" false 50 es s); reflexivity.
Defined.

(** Witness of [cancelled_fade_mounts_on_focus]. *)
Lemma cancelled_fade_mounts_on_focus_witness :
  let s := Lazy.run "B" true 50 [FocusChange "C"]%string (mount "B" true 50 "A" None 0) in
  canMount s = false ∧ isSelfMounted s = true
  ∧ canMount (Lazy.step "B" true 50 (FocusChange "B") s) = true.
Proof.
  intros s. split; [reflexivity|]. split; [reflexivity|].
  destruct (cancelled_fade_mounts_on_focus "B" 50 "A" None 0 [FocusChange "C"%string])
    as (_ & _ & H).
  apply H. reflexivity.
Defined.

End LazyExtras.

Module MonitorExtras.
Import Js JsFacts MonitorFacts.

Lemma mostRecent_idemp {A : Type} (n : nat) (l : list A) :
  mostRecent n (mostRecent n l) = mostRecent n l.
Proof.
  unfold mostRecent at 1. rewrite mostRecent_length.
  replace (min n (length l) - n)%nat with 0%nat by lia. reflexivity.
Qed.

Lemma mostRecent_fmap {A B : Type} (f : A → B) (n : nat) (l : list A) :
  f <$> mostRecent n l = mostRecent n (f <$> l).
Proof. unfold mostRecent. rewrite fmap_drop, length_fmap. reflexivity. Qed.

Lemma sum_between (lo hi : Z) (l : list Z) :
  Forall (fun d => lo ≤ d ≤ hi) l →
  lo * Z.of_nat (length l) ≤ sum l ≤ hi * Z.of_nat (length l).
Proof.
  induction l as [|d l IH] using rev_ind; intros Hall; [cbn; lia|].
  apply Forall_app in Hall as [Hl Hd]. rewrite Forall_singleton in Hd.
  specialize (IH Hl). rewrite sum_app, length_app. cbn [length].
  rewrite Nat2Z.inj_add, !Z.mul_add_distr_l. lia.
Qed.

(** Only the last ten switches count: the monitor that has seen a whole
    history holds the same samples, returns the same strategy and reports
    the same average as one that has seen its last ten switches only. *)
Theorem only_last_ten_switches_count (switches : list (Z * Z)) :
  let all := PerformanceMonitor.feed switches PerformanceMonitor.create in
  let last := PerformanceMonitor.feed (mostRecent 10 switches) PerformanceMonitor.create in
  all.1 = last.1 ∧ all.2 = last.2
  ∧ PerformanceMonitor.getAveragePerformance all.1
    = PerformanceMonitor.getAveragePerformance last.1.
Proof.
  intros all last.
  assert (Hm : all.1 = last.1).
  { assert (H : PerformanceMonitor.metrics all.1 = PerformanceMonitor.metrics last.1).
    { unfold all, last. rewrite !monitor_feed_metrics, mostRecent_fmap, mostRecent_idemp.
      reflexivity. }
    destruct all.1, last.1. cbn in H. rewrite H. reflexivity. }
  split; [exact Hm|]. split; [|rewrite Hm; reflexivity].
  unfold all, last. rewrite (monitor_feed_strategy switches).
  rewrite (monitor_feed_strategy (mostRecent 10 switches)).
  fold all last. rewrite Hm. reflexivity.
Qed.

(** When each of the last ten switches took between [lo] and [hi]
    milliseconds, the reported average lies between them too; the strategy
    is [normal] when [hi] is at most 50 and, from the third switch on,
    [aggressive] when [lo] is above 100. *)
Theorem average_within_sample_bounds (switches : list (Z * Z)) (lo hi : Z) :
  switches ≠ [] →
  Forall (fun sw => lo ≤ sw.1 - sw.2 ≤ hi) (mostRecent 10 switches) →
  let r := PerformanceMonitor.feed switches PerformanceMonitor.create in
  (inject_Z lo <= PerformanceMonitor.getAveragePerformance r.1)%Q
  ∧ (PerformanceMonitor.getAveragePerformance r.1 <= inject_Z hi)%Q
  ∧ (hi ≤ 50 → r.2 = normal)
  ∧ (100 < lo → (3 ≤ length switches)%nat → r.2 = aggressive).
Proof.
  intros Hne Hall r.
  set (ds := PerformanceMonitor.duration <$> PerformanceMonitor.metrics r.1).
  assert (Hds : Forall (fun d => lo ≤ d ≤ hi) ds).
  { unfold ds, r. rewrite monitor_feed_metrics, <- mostRecent_fmap, <- list_fmap_compose.
    apply Forall_fmap. exact Hall. }
  assert (Hlen : length ds = min 10 (length switches)).
  { unfold ds, r. rewrite length_fmap, monitor_feed_metrics, mostRecent_length, length_fmap.
    reflexivity. }
  assert (Hpos : (0 < length ds)%nat).
  { rewrite Hlen. destruct switches; [congruence|cbn; lia]. }
  pose proof (sum_between lo hi ds Hds) as [Hlo Hhi].
  assert (Havg : PerformanceMonitor.getAveragePerformance r.1 = divide (sum ds) (length ds)).
  { unfold PerformanceMonitor.getAveragePerformance. rewrite total_sum. fold ds.
    replace (length (PerformanceMonitor.metrics r.1)) with (length ds)
      by (unfold ds; apply length_fmap).
    destruct (Nat.eqb_spec (length ds) 0) as [E|_]; [lia|reflexivity]. }
  assert (Hstr : r.2 = strategyFor ds).
  { unfold r. rewrite (monitor_feed_strategy switches). apply getOptimalStrategy_strategyFor. }
  split; [|split; [|split]].
  - rewrite Havg. unfold divide. apply Qle_shift_div_l.
    + rewrite <- (Zlt_Qlt 0). lia.
    + rewrite <- inject_Z_mult, <- Zle_Qle. exact Hlo.
  - rewrite Havg. unfold divide. apply Qle_shift_div_r.
    + rewrite <- (Zlt_Qlt 0). lia.
    + rewrite <- inject_Z_mult, <- Zle_Qle. exact Hhi.
  - intros H50. rewrite Hstr. unfold strategyFor.
    destruct (length ds <? 3)%nat; [reflexivity|].
    destruct (Z.ltb_spec (100 * Z.of_nat (length ds)) (sum ds)) as [H|_]; [nia|].
    destruct (Z.ltb_spec (50 * Z.of_nat (length ds)) (sum ds)) as [H|_]; [nia|].
    reflexivity.
  - intros H100 H3. rewrite Hstr. unfold strategyFor.
    destruct (Nat.ltb_spec (length ds) 3) as [H|_]; [lia|].
    destruct (Z.ltb_spec (100 * Z.of_nat (length ds)) (sum ds)) as [_|H]; [reflexivity|nia].
Qed.

(** Witness of [average_within_sample_bounds]: three switches of 110 to 130
    milliseconds. *)
Lemma average_within_sample_bounds_witness :
  let r := PerformanceMonitor.feed [(120, 0); (130, 0); (110, 0)] PerformanceMonitor.create in
  (inject_Z 110 <= PerformanceMonitor.getAveragePerformance r.1)%Q
  ∧ (PerformanceMonitor.getAveragePerformance r.1 <= inject_Z 130)%Q
  ∧ r.2 = aggressive.
Proof.
  intros r.
  destruct (average_within_sample_bounds [(120, 0); (130, 0); (110, 0)] 110 130)
    as (Hlo & Hhi & _ & Hagg).
  - discriminate.
  - unfold mostRecent. cbn. repeat constructor; cbn; lia.
  - split; [exact Hlo|]. split; [exact Hhi|]. apply Hagg; [lia|cbn; lia].
Defined.

End MonitorExtras.
